(** * Silver Transformation Manager: the administrative surface

    A shallow embedding of [silver/silver_streamlit/streamlit_app.py].

    The application is a Streamlit page script: every handler builds SQL
    text with f-strings and sends it to the Snowflake session.  The
    embedding keeps the layers of the script apart:

    - [Py]: the Python string and value operations the handlers use
      ([in], [upper], [strip], [str], truthiness, DataFrame cells);
    - [Sql]: quote doubling and the reading of a quoted literal;
    - [Session]: [execute_procedure], the wrapper around
      [session.sql(...).collect()] for stored procedures, and the
      caller's classification of its outcome string;
    - one module per metadata table ([TargetSchemas], [FieldMappings],
      [Rules]) holding the rows as records, the statements the script
      issues against the table and [execute_query] on them;
    - one module per page handler ([Designer], [Mapper], [RulesPage]);
    - [Transform]: the stored procedure behind the Run Transformation
      form, of which the script holds the CALL only; its MAP step is
      read from the specification;
    - [Table]: the engine shared by the tables of the remaining tabs
      ([KnownMappings], [PromptTemplates], [RulesTable]) with their
      handlers ([KnownPage], [PromptsPage], [RulesForms]);
    - the parts of the page script around the tabs: [TableSelector],
      [LlmTab], [Coverage], [TpaHeader], and [Config] with
      [SilverConfig] for [load_config_from_stage];
    - of the Bronze application
      [bronze/bronze_streamlit/streamlit_app.py]: [BronzeConfig] and
      [BronzeUpload] ([validate_file], [upload_file_to_stage], the
      upload loop).

    A statement is embedded as the statement its text denotes: an
    interpolation ['{x}'] contributes the value of that literal
    ([Sql.literal]), a [SET a = v, b = w] clause the list of its
    assignments in source order, a [WHERE] clause its condition.
    Where the script interpolates a text unescaped, this is the
    statement for a text without quote and without backslash, and the
    properties of such handlers are stated for such texts.  The table
    definitions (column defaults, identity columns) are not part of
    the script; where an INSERT leaves a column out, the row starts
    from a section variable. *)

From Stdlib Require Import String Ascii List ZArith QArith Bool Lia.
From Stdlib Require Import Sorting.Sorted Sorting.Permutation.
From Stdlib Require OrderedTypeEx.
Import ListNotations.

Open Scope string_scope.
Open Scope list_scope.
Open Scope Z_scope.

(* ===================================================================== *)
(** ** Python strings and values *)
(* ===================================================================== *)

Module Py.

(** [sub in s] on strings: [sub] occurs in [s] at some offset. *)
Fixpoint contains (sub s : string) : bool :=
  if String.prefix sub s then true
  else match s with
       | EmptyString => false
       | String _ rest => contains sub rest
       end.

(** [str.upper()] on ASCII text: the letters a to z are raised, every
    other byte is kept.  Python's method also raises letters outside
    ASCII; a property stated through [upper] is one of ASCII text. *)
Definition upper_char (c : ascii) : ascii :=
  let n := nat_of_ascii c in
  if (andb (Nat.leb 97 n) (Nat.leb n 122)) then ascii_of_nat (n - 32) else c.

Fixpoint upper (s : string) : string :=
  match s with
  | EmptyString => EmptyString
  | String c rest => String (upper_char c) (upper rest)
  end.

(** The ASCII characters [str.strip()] removes: space, tab, newline,
    vertical tab, form feed, carriage return and the four ASCII
    separators.  Python's method also removes the blanks outside ASCII
    (no-break space, next line, the Unicode spaces); a property stated
    through [strip] is one of ASCII text. *)
Definition is_space (c : ascii) : bool :=
  let n := nat_of_ascii c in
  orb (Nat.eqb n 32) (orb (andb (Nat.leb 9 n) (Nat.leb n 13))
                          (andb (Nat.leb 28 n) (Nat.leb n 31))).

Fixpoint lstrip (s : string) : string :=
  match s with
  | EmptyString => EmptyString
  | String c rest => if is_space c then lstrip rest else s
  end.

Fixpoint rstrip (s : string) : string :=
  match s with
  | EmptyString => EmptyString
  | String c rest =>
      match rstrip rest with
      | EmptyString => if is_space c then EmptyString else String c EmptyString
      | r => String c r
      end
  end.

Definition strip (s : string) : string := rstrip (lstrip s).

(** Truthiness of a [str]: only the empty string is falsy. *)
Definition truthy (s : string) : bool :=
  match s with EmptyString => false | _ => true end.

(** Truthiness of a list: only the empty list is falsy. *)
Definition truthy_list {A} (l : list A) : bool :=
  match l with [] => false | _ => true end.

(** A value as a result row carries it. *)
Inductive value :=
| VNone
| VBool (b : bool)
| VInt (z : Z)
| VStr (s : string).

Definition digit (n : nat) : ascii := ascii_of_nat (48 + n).

Fixpoint digits (fuel : nat) (n : N) (acc : string) : string :=
  match fuel with
  | O => acc
  | S fuel' =>
      let acc' := String (digit (N.to_nat (N.modulo n 10))) acc in
      if N.ltb n 10 then acc' else digits fuel' (N.div n 10) acc'
  end.

Definition str_of_Z (z : Z) : string :=
  match z with
  | Z0 => "0"
  | Zpos p => digits (S (Pos.size_nat p)) (Npos p) EmptyString
  | Zneg p => String "-" (digits (S (Pos.size_nat p)) (Npos p) EmptyString)
  end.

(** [str(v)]. *)
Definition str (v : value) : string :=
  match v with
  | VNone => "None"
  | VBool true => "True"
  | VBool false => "False"
  | VInt z => str_of_Z z
  | VStr s => s
  end.

(** A text cell of a DataFrame: a string, or one of the two missing
    values pandas hands back ([None], float [nan]). *)
Inductive cell :=
| CNone
| CNaN
| CText (s : string).

(** [pd.notna(c)]. *)
Definition notna (c : cell) : bool :=
  match c with CText _ => true | _ => false end.

Definition isna (c : cell) : bool := negb (notna c).

(** [str(c)] and the f-string rendering [{c}]. *)
Definition cell_str (c : cell) : string :=
  match c with
  | CNone => "None"
  | CNaN => "nan"
  | CText s => s
  end.

(** Truthiness of a cell: [None] and the empty string are falsy, float
    [nan] is truthy. *)
Definition cell_truthy (c : cell) : bool :=
  match c with
  | CNone => false
  | CNaN => true
  | CText s => truthy s
  end.

(** [a != b] on cells ([nan] differs from everything, itself included). *)
Definition cell_ne (a b : cell) : bool :=
  match a, b with
  | CNone, CNone => false
  | CText s, CText t => negb (String.eqb s t)
  | _, _ => true
  end.

(** [c == "lit"]. *)
Definition cell_is (c : cell) (lit : string) : bool :=
  match c with
  | CText s => String.eqb s lit
  | _ => false
  end.

(** A numeric id cell: float [nan] on rows the editor added. *)
Inductive idcell :=
| IdNaN
| Id (z : Z).

Definition idcell_eqb (a b : idcell) : bool :=
  match a, b with
  | Id x, Id y => Z.eqb x y
  | _, _ => false
  end.

(** [x in set(ids)] for a set built from a column of ids.  The columns
    this is applied to come from the stored table, so the sets hold
    numbers only. *)
Definition id_in (x : idcell) (ids : list idcell) : bool :=
  existsb (idcell_eqb x) ids.

(** Code that may raise: the value, or the message of the exception. *)
Inductive result (A : Type) :=
| Ok (a : A)
| Raise (msg : string).
Arguments Ok {A} a.
Arguments Raise {A} msg.

Definition bind {A B} (m : result A) (k : A -> result B) : result B :=
  match m with
  | Ok a => k a
  | Raise msg => Raise msg
  end.

(** [l[0]]: raises IndexError on the empty list. *)
Definition first {A} (l : list A) : result A :=
  match l with
  | [] => Raise "list index out of range"
  | a :: _ => Ok a
  end.

(** [c.upper()] on a cell: only a [str] has the method. *)
Definition cell_upper (c : cell) : result string :=
  match c with
  | CText s => Ok (upper s)
  | CNone => Raise "'NoneType' object has no attribute 'upper'"
  | CNaN => Raise "'float' object has no attribute 'upper'"
  end.

End Py.

Notation "x <- m ;; k" := (Py.bind m (fun x => k))
  (at level 61, m at next level, right associativity).

(* ===================================================================== *)
(** ** SQL text *)
(* ===================================================================== *)

Module Sql.

(** [x.replace("'", "''")], also written with [chr(39)]: every quote
    doubled. *)
Fixpoint double_quotes (x : string) : string :=
  match x with
  | EmptyString => EmptyString
  | String c rest =>
      if Ascii.eqb c "'" then String "'" (String "'" (double_quotes rest))
      else String c (double_quotes rest)
  end.

(** The value of the literal ['{body}']: between the quotes a doubled
    quote stands for one quote.  A body with a lone quote ends the
    literal early, and a backslash starts an escape sequence of the
    engine: what the engine then receives is not the statement
    embedded here.  The statements below are the ones the script
    spells for texts without lone quotes and without backslashes. *)
Fixpoint literal (body : string) : string :=
  match body with
  | EmptyString => EmptyString
  | String c rest =>
      if Ascii.eqb c "'" then
        match rest with
        | String d rest' =>
            if Ascii.eqb d "'" then String "'" (literal rest')
            else String c (literal rest)
        | EmptyString => String c EmptyString
        end
      else String c (literal rest)
  end.

(** The character that starts an escape sequence between quotes. *)
Definition backslash : ascii := ascii_of_nat 92.

End Sql.

(** [ORDER BY]: the rows in ascending order of [le]; rows that compare
    equal keep the order they are read in. *)
Fixpoint insert_sorted {A} (le : A -> A -> bool) (x : A) (l : list A) : list A :=
  match l with
  | [] => [x]
  | y :: rest => if le x y then x :: l else y :: insert_sorted le x rest
  end.

Fixpoint order_by {A} (le : A -> A -> bool) (l : list A) : list A :=
  match l with
  | [] => []
  | x :: rest => insert_sorted le x (order_by le rest)
  end.

(* ===================================================================== *)
(** ** The Snowflake session wrappers *)
(* ===================================================================== *)

Module Session.
Import Py.

(** A result row, as [row.as_dict()] returns it: column names with
    their values, in select order. *)
Definition row_dict := list (string * value).

Definition values (r : row_dict) : list value := map snd r.

Section Procedures.

(** [session.sql(text).collect()]: the rows, or an exception. *)
Variable collect : string -> result (list row_dict).

(** The body of the [try] in [execute_procedure]. *)
Definition execute_procedure_try (proc_call : string) : result string :=
  res <- collect proc_call ;;
  if andb (truthy_list res) (Nat.ltb 0 (List.length res)) then
    r0 <- first res ;;
    v <- first (values r0) ;;
    Ok (str v)
  else Ok "Procedure executed successfully".

(** [execute_procedure]: the [except Exception as e] arm turns any
    exception of the body into the string ["Error: " + str(e)]. *)
Definition execute_procedure (proc_call : string) : string :=
  match execute_procedure_try proc_call with
  | Ok s => s
  | Raise msg => "Error: " ++ msg
  end.

End Procedures.

(** What the page shows after a call: [st.success] or [st.warning]. *)
Inductive banner := Success | Warning.

(** The Target Table Designer's reading of the outcome of
    [sync_table_with_metadata]. *)
Definition classify_sync (result : string) : banner :=
  if orb (contains "Successfully" result) (contains "Recreated" result)
  then Success else Warning.

End Session.

(* ===================================================================== *)
(** ** Table [target_schemas] *)
(* ===================================================================== *)

Module TargetSchemas.
Import Py.

Record row := mk_row {
  schema_id : Z;
  table_name : string;
  column_name : string;
  data_type : string;
  nullable : bool;
  default_value : option string;
  description : option string;
  active : bool;
  created_timestamp : Z;
  updated_timestamp : Z
}.

(** One [column = value] of an INSERT column list or of a SET clause.
    The only timestamp expression the script writes is
    [CURRENT_TIMESTAMP()]. *)
Inductive assign :=
| TableName (s : string)
| ColumnName (s : string)
| DataType (s : string)
| Nullable (b : bool)
| DefaultValue (v : option string)
| Description (v : option string)
| Active (b : bool)
| UpdatedTimestampNow.

(** [schema_id = {id}] interpolates a frame cell; the text
    [schema_id = nan] names no row. *)
Inductive cond :=
| SchemaIdEq (k : idcell)
| TableNameEq (s : string)
| ActiveEq (b : bool)
| CAnd (c d : cond).

Inductive stmt :=
| Insert (cols : list assign)
| Update (sets : list assign) (where_ : cond).

Fixpoint holds (c : cond) (r : row) : bool :=
  match c with
  | SchemaIdEq k => idcell_eqb (Id (schema_id r)) k
  | TableNameEq s => String.eqb (table_name r) s
  | ActiveEq b => Bool.eqb (active r) b
  | CAnd c d => andb (holds c r) (holds d r)
  end.

Section Engine.

(** The engine's clock reading, [CURRENT_TIMESTAMP()]. *)
Variable now : Z.

(** The row an INSERT starts from: the table's column defaults
    (identity value, creation timestamp, ...) given the stored rows. *)
Variable fresh : list row -> row.

(** The engine refusing a statement: the message of the exception
    [session.sql(query).collect()] raises, if it raises. *)
Variable engine_error : stmt -> list row -> option string.

Definition assign1 (a : assign) (r : row) : row :=
  match a with
  | TableName s =>
      mk_row (schema_id r) s (column_name r) (data_type r) (nullable r)
             (default_value r) (description r) (active r)
             (created_timestamp r) (updated_timestamp r)
  | ColumnName s =>
      mk_row (schema_id r) (table_name r) s (data_type r) (nullable r)
             (default_value r) (description r) (active r)
             (created_timestamp r) (updated_timestamp r)
  | DataType s =>
      mk_row (schema_id r) (table_name r) (column_name r) s (nullable r)
             (default_value r) (description r) (active r)
             (created_timestamp r) (updated_timestamp r)
  | Nullable b =>
      mk_row (schema_id r) (table_name r) (column_name r) (data_type r) b
             (default_value r) (description r) (active r)
             (created_timestamp r) (updated_timestamp r)
  | DefaultValue v =>
      mk_row (schema_id r) (table_name r) (column_name r) (data_type r)
             (nullable r) v (description r) (active r)
             (created_timestamp r) (updated_timestamp r)
  | Description v =>
      mk_row (schema_id r) (table_name r) (column_name r) (data_type r)
             (nullable r) (default_value r) v (active r)
             (created_timestamp r) (updated_timestamp r)
  | Active b =>
      mk_row (schema_id r) (table_name r) (column_name r) (data_type r)
             (nullable r) (default_value r) (description r) b
             (created_timestamp r) (updated_timestamp r)
  | UpdatedTimestampNow =>
      mk_row (schema_id r) (table_name r) (column_name r) (data_type r)
             (nullable r) (default_value r) (description r) (active r)
             (created_timestamp r) now
  end.

Definition assign_all (l : list assign) (r : row) : row :=
  fold_left (fun acc a => assign1 a acc) l r.

(** The effect of a statement the engine accepts. *)
Definition exec (q : stmt) (rows : list row) : list row :=
  match q with
  | Insert cols => rows ++ [assign_all cols (fresh rows)]
  | Update sets w =>
      map (fun r => if holds w r then assign_all sets r else r) rows
  end.

(** [execute_query] on a data-changing statement: the exception of a
    refused statement is caught and reported on the page, the table is
    left as it was. *)
Definition execute_query (q : stmt) (rows : list row) : list row :=
  match engine_error q rows with
  | Some _ => rows
  | None => exec q rows
  end.

End Engine.

(** [SELECT ... WHERE c ORDER BY schema_id]. *)
Definition select_by_schema_id (c : cond) (rows : list row) : list row :=
  order_by (fun a b => Z.leb (schema_id a) (schema_id b)) (filter (holds c) rows).

End TargetSchemas.

(* ===================================================================== *)
(** ** Page: Target Table Designer *)
(* ===================================================================== *)

Module Designer.
Import Py.
Import TargetSchemas.

(** What a handler does to the outside, in order: a statement through
    [execute_query], or a stored procedure through [execute_procedure]. *)
Inductive op :=
| Query (q : stmt)
| Call (proc_call : string).

(** The SQL keyword an unquoted interpolation spells: Python renders a
    [bool] as True or False, the standard columns carry TRUE or FALSE;
    the engine reads keywords without regard to case. *)
Definition keyword_bool (s : string) : bool := String.eqb (upper s) "TRUE".

Definition py_bool_str (b : bool) : string := if b then "True" else "False".

(** ['{x}' if x else NULL]. *)
Definition quoted_or_null (x : string) : option string :=
  if truthy x then Some (Sql.literal x) else None.

Definition cell_quoted_or_null (c : cell) : option string :=
  if cell_truthy c then Some (Sql.literal (cell_str c)) else None.

(** *** The create-new-table form *)

Record new_table_form := mk_form {
  new_table_name : string;
  first_column_name : string;
  first_data_type : string;
  first_nullable : bool;
  first_default_value : string;
  first_description : string
}.

(** The automatically added metadata columns, as the script lists them:
    name, type, nullable, default, description. *)
Definition standard_columns : list (string * string * string * string * string) :=
  [ ("SOURCE_FILE_NAME", "VARCHAR(500)", "TRUE", "NULL",
     "Original source file name from Bronze layer");
    ("INGESTION_TIMESTAMP", "TIMESTAMP_NTZ", "FALSE", "CURRENT_TIMESTAMP()",
     "Timestamp when record was ingested");
    ("CREATED_AT", "TIMESTAMP_NTZ", "FALSE", "CURRENT_TIMESTAMP()",
     "Record creation timestamp in Silver layer");
    ("UPDATED_AT", "TIMESTAMP_NTZ", "FALSE", "CURRENT_TIMESTAMP()",
     "Record last update timestamp") ].

(** The INSERT of the user's first column.  Table name, column name,
    data type, default and description are interpolated between quotes
    as typed, unescaped: the statement is this one for texts without
    quote and backslash; with one, the engine receives another text,
    which it refuses or reads as another statement. *)
Definition insert_query (f : new_table_form) : stmt :=
  let processed_default :=
    if String.eqb (first_default_value f) "(None)" then None
    else Some (first_default_value f) in
  Insert [ TableName (Sql.literal (upper (new_table_name f)));
           ColumnName (Sql.literal (upper (first_column_name f)));
           DataType (Sql.literal (first_data_type f));
           Nullable (keyword_bool (py_bool_str (first_nullable f)));
           DefaultValue (match processed_default with
                         | Some d => quoted_or_null d
                         | None => None
                         end);
           Description (quoted_or_null (first_description f));
           Active true ].

Definition std_col_query (f : new_table_form)
    (c : string * string * string * string * string) : stmt :=
  let '(col_name, data_type, nullable, default_val, description) := c in
  Insert [ TableName (Sql.literal (upper (new_table_name f)));
           ColumnName (Sql.literal col_name);
           DataType (Sql.literal data_type);
           Nullable (keyword_bool nullable);
           DefaultValue (if negb (String.eqb default_val "NULL")
                         then Some (Sql.literal default_val) else None);
           Description (Some (Sql.literal description));
           Active true ].

Section Handlers.

(** [DB_SILVER], the qualified schema name read from the configuration. *)
Variable DB_SILVER : string.

Definition create_silver_table_call (f : new_table_form) : string :=
  "CALL " ++ DB_SILVER ++ ".create_silver_table('"
          ++ upper (new_table_name f) ++ "')".

(** The submit handler of [create_new_table_form]; no operation at all
    when the required fields are missing ([st.error]). *)
Definition create_new_table_submit (f : new_table_form) : list op :=
  if orb (negb (truthy (new_table_name f)))
         (negb (truthy (first_column_name f)))
  then []
  else Query (insert_query f)
       :: map (fun c => Query (std_col_query f c)) standard_columns
       ++ [Call (create_silver_table_call f)].

(** *** The column editor *)

(** A row of the editor frame: [schema_df] without NULLABLE, columns
    renamed to ID, Column Name, Data Type, Default, Description. *)
Record editor_row := mk_editor_row {
  ID : idcell;
  Column_Name : cell;
  Data_Type : cell;
  Default : cell;
  Description_ : cell
}.

Definition cell_of (v : option string) : cell :=
  match v with
  | Some s => CText s
  | None => CNone
  end.

Definition editor_row_of (r : row) : editor_row :=
  mk_editor_row (Id (schema_id r)) (CText (column_name r))
                (CText (data_type r)) (cell_of (default_value r))
                (cell_of (description r)).

(** [schema_df] and the frame handed to [st.data_editor]. *)
Definition schema_df (selected_table : string) (rows : list row) : list row :=
  select_by_schema_id
    (CAnd (TableNameEq (Sql.literal selected_table)) (ActiveEq true)) rows.

Definition edit_df (selected_table : string) (rows : list row)
    : list editor_row :=
  map editor_row_of (schema_df selected_table rows).

Definition original_ids (edit : list editor_row) : list idcell := map ID edit.

Definition edited_ids (edited : list editor_row) : list idcell := map ID edited.

(** [original_ids - edited_ids], listed in frame order. *)
Definition deleted_ids (edit edited : list editor_row) : list idcell :=
  filter (fun i => negb (id_in i (edited_ids edited))) (original_ids edit).

(** The statement issued for a deleted editor row. *)
Definition delete_query (schema_id : idcell) : stmt :=
  Update [Active false; UpdatedTimestampNow] (SchemaIdEq schema_id).

Definition isna_id (i : idcell) : bool :=
  match i with IdNaN => true | Id _ => false end.

(** The comparison loop over [editable_cols]. *)
Definition has_changes (original_row row : editor_row) : bool :=
  existsb (fun '(orig_val, new_val) =>
             if andb (isna orig_val) (isna new_val) then false
             else cell_ne orig_val new_val)
          [ (Column_Name original_row, Column_Name row);
            (Data_Type original_row, Data_Type row);
            (Default original_row, Default row);
            (Description_ original_row, Description_ row) ].

(** The body of the loop over [edited_df.iterrows()] for one row: the
    statements it issues, or the exception it dies with.  The selected
    table and the cells Column Name, Data Type, Default and Description
    are interpolated between quotes unescaped: the statements are these
    for texts without quote and backslash; with one, the engine
    receives another text, which it refuses or reads as another
    statement (a second row of VALUES, a longer SET list). *)
Definition save_row (selected_table : string) (edit : list editor_row)
    (row : editor_row) : result (list stmt) :=
  let row_id := ID row in
  if orb (isna_id row_id) (negb (id_in row_id (original_ids edit))) then
    if andb (notna (Column_Name row)) (cell_truthy (Column_Name row)) then
      let processed_default :=
        if cell_is (Default row) "(None)" then CNone else Default row in
      Ok [Insert [ TableName (Sql.literal selected_table);
                   ColumnName (Sql.literal (upper (cell_str (Column_Name row))));
                   DataType (Sql.literal (cell_str (Data_Type row)));
                   Nullable true;
                   DefaultValue (cell_quoted_or_null processed_default);
                   Description (cell_quoted_or_null (Description_ row));
                   Active true ]]
    else Ok []
  else
    match find (fun o => idcell_eqb (ID o) row_id) edit with
    | Some original_row =>
        if has_changes original_row row then
          let new_default :=
            if cell_ne (Default row) (CText "(None)") then Default row
            else CNone in
          name <- cell_upper (Column_Name row) ;;
          Ok [Update [ ColumnName (Sql.literal name);
                       DataType (Sql.literal (cell_str (Data_Type row)));
                       Nullable true;
                       DefaultValue (cell_quoted_or_null new_default);
                       Description (cell_quoted_or_null (Description_ row));
                       UpdatedTimestampNow ]
                     (SchemaIdEq row_id)]
        else Ok []
    | None => Ok []
    end.

(** The loop: statements issued so far, and the exception that ended
    the handler, if one did. *)
Fixpoint save_rows (selected_table : string) (edit edited : list editor_row)
    : list stmt * option string :=
  match edited with
  | [] => ([], None)
  | row :: rest =>
      match save_row selected_table edit row with
      | Raise msg => ([], Some msg)
      | Ok qs =>
          let '(more, exn) := save_rows selected_table edit rest in
          (qs ++ more, exn)
      end
  end.

Definition sync_call (selected_table : string) : string :=
  "CALL " ++ DB_SILVER ++ ".sync_table_with_metadata('"
          ++ selected_table ++ "')".

(** The Save Changes handler: soft-deletes first, then the loop; the
    sync procedure is called last, when anything was issued and the
    loop ran to its end. *)
Definition save_changes (selected_table : string)
    (edit edited : list editor_row) : list op :=
  let deletes := map delete_query (deleted_ids edit edited) in
  let '(changes, exn) := save_rows selected_table edit edited in
  let issued := map Query (deletes ++ changes) in
  match exn with
  | Some _ => issued
  | None => if truthy_list issued
            then issued ++ [Call (sync_call selected_table)]
            else issued
  end.

(** *** Running a handler *)

Variable now : Z.
Variable fresh : list row -> row.
Variable engine_error : stmt -> list row -> option string.

(** [session.sql(text).collect()] for a procedure call. *)
Variable collect : string -> result (list Session.row_dict).

(** The state of a run: the metadata table, and for every procedure
    called so far the call text, the metadata it found and the outcome
    string [execute_procedure] returned. *)
Record run_state := mk_state {
  metadata : list row;
  calls : list (string * list row * string)
}.

Definition step (st : run_state) (o : op) : run_state :=
  match o with
  | Query q =>
      mk_state (execute_query now fresh engine_error q (metadata st))
               (calls st)
  | Call text =>
      mk_state (metadata st)
               (calls st ++ [(text, metadata st,
                              Session.execute_procedure collect text)])
  end.

Definition run (ops : list op) (rows : list row) : run_state :=
  fold_left step ops (mk_state rows []).

(** The metadata table a Save Changes run leaves. *)
Definition saved (selected_table : string)
    (edit edited : list editor_row) (rows : list row) : list row :=
  metadata (run (save_changes selected_table edit edited) rows).

(** The banner the Save Changes handler ends with, if it reaches the
    sync call. *)
Definition save_banner (selected_table : string)
    (edit edited : list editor_row) (rows : list row)
    : option Session.banner :=
  match calls (run (save_changes selected_table edit edited) rows) with
  | [] => None
  | (_, _, outcome) :: _ => Some (Session.classify_sync outcome)
  end.

End Handlers.

End Designer.

(* ===================================================================== *)
(** ** Table [field_mappings] *)
(* ===================================================================== *)

Module FieldMappings.
Import Py.

Record row := mk_row {
  mapping_id : Z;
  source_table : string;
  source_field : string;
  target_table : string;
  target_column : string;
  mapping_method : string;
  confidence_score : Q;
  approved : bool;
  approved_by : option string;
  approved_timestamp : option Z;
  transformation_logic : option string;
  description : option string;
  created_timestamp : Z;
  updated_timestamp : Z;
  tpa : option string
}.

(** A timestamp on the right of [=]: [NULL] or [CURRENT_TIMESTAMP()]. *)
Inductive timestamp_expr :=
| NULL
| CURRENT_TIMESTAMP.

Inductive assign :=
| SourceField (s : string)
| SourceTable (s : string)
| TargetTable (s : string)
| TargetColumn (s : string)
| MappingMethod (s : string)
| ConfidenceScore (q : Q)
| TransformationLogic (v : option string)
| Description (v : option string)
| Approved (b : bool)
| ApprovedBy (v : option string)
| ApprovedTimestamp (e : timestamp_expr)
| UpdatedTimestampNow.

(** [mapping_id = {id}] interpolates a frame cell: on a row the editor
    added the text reads [mapping_id = nan], which names no row (the
    engine refuses the statement and [execute_query] reports it). *)
Inductive cond :=
| MappingIdEq (k : idcell)
| TargetTableEq (s : string)
| TpaEq (s : string)
| ApprovedEq (b : bool)
| CAnd (c d : cond).

Inductive stmt :=
| Insert (cols : list assign)
| Update (sets : list assign) (where_ : cond)
| Delete (where_ : cond).

Definition option_is (v : option string) (s : string) : bool :=
  match v with
  | Some t => String.eqb t s
  | None => false
  end.

Fixpoint holds (c : cond) (r : row) : bool :=
  match c with
  | MappingIdEq k => idcell_eqb (Id (mapping_id r)) k
  | TargetTableEq s => String.eqb (target_table r) s
  | TpaEq s => option_is (tpa r) s
  | ApprovedEq b => Bool.eqb (approved r) b
  | CAnd c d => andb (holds c r) (holds d r)
  end.

Section Engine.

Variable now : Z.
Variable fresh : list row -> row.
Variable engine_error : stmt -> list row -> option string.

Definition timestamp_of (e : timestamp_expr) : option Z :=
  match e with
  | NULL => None
  | CURRENT_TIMESTAMP => Some now
  end.

Definition assign1 (a : assign) (r : row) : row :=
  match a with
  | SourceField s =>
      mk_row (mapping_id r) (source_table r) s (target_table r)
             (target_column r) (mapping_method r) (confidence_score r)
             (approved r) (approved_by r) (approved_timestamp r)
             (transformation_logic r) (description r)
             (created_timestamp r) (updated_timestamp r) (tpa r)
  | SourceTable s =>
      mk_row (mapping_id r) s (source_field r) (target_table r)
             (target_column r) (mapping_method r) (confidence_score r)
             (approved r) (approved_by r) (approved_timestamp r)
             (transformation_logic r) (description r)
             (created_timestamp r) (updated_timestamp r) (tpa r)
  | TargetTable s =>
      mk_row (mapping_id r) (source_table r) (source_field r) s
             (target_column r) (mapping_method r) (confidence_score r)
             (approved r) (approved_by r) (approved_timestamp r)
             (transformation_logic r) (description r)
             (created_timestamp r) (updated_timestamp r) (tpa r)
  | TargetColumn s =>
      mk_row (mapping_id r) (source_table r) (source_field r)
             (target_table r) s (mapping_method r) (confidence_score r)
             (approved r) (approved_by r) (approved_timestamp r)
             (transformation_logic r) (description r)
             (created_timestamp r) (updated_timestamp r) (tpa r)
  | MappingMethod s =>
      mk_row (mapping_id r) (source_table r) (source_field r)
             (target_table r) (target_column r) s (confidence_score r)
             (approved r) (approved_by r) (approved_timestamp r)
             (transformation_logic r) (description r)
             (created_timestamp r) (updated_timestamp r) (tpa r)
  | ConfidenceScore q =>
      mk_row (mapping_id r) (source_table r) (source_field r)
             (target_table r) (target_column r) (mapping_method r) q
             (approved r) (approved_by r) (approved_timestamp r)
             (transformation_logic r) (description r)
             (created_timestamp r) (updated_timestamp r) (tpa r)
  | TransformationLogic v =>
      mk_row (mapping_id r) (source_table r) (source_field r)
             (target_table r) (target_column r) (mapping_method r)
             (confidence_score r) (approved r) (approved_by r)
             (approved_timestamp r) v (description r)
             (created_timestamp r) (updated_timestamp r) (tpa r)
  | Description v =>
      mk_row (mapping_id r) (source_table r) (source_field r)
             (target_table r) (target_column r) (mapping_method r)
             (confidence_score r) (approved r) (approved_by r)
             (approved_timestamp r) (transformation_logic r) v
             (created_timestamp r) (updated_timestamp r) (tpa r)
  | Approved b =>
      mk_row (mapping_id r) (source_table r) (source_field r)
             (target_table r) (target_column r) (mapping_method r)
             (confidence_score r) b (approved_by r)
             (approved_timestamp r) (transformation_logic r)
             (description r) (created_timestamp r) (updated_timestamp r)
             (tpa r)
  | ApprovedBy v =>
      mk_row (mapping_id r) (source_table r) (source_field r)
             (target_table r) (target_column r) (mapping_method r)
             (confidence_score r) (approved r) v
             (approved_timestamp r) (transformation_logic r)
             (description r) (created_timestamp r) (updated_timestamp r)
             (tpa r)
  | ApprovedTimestamp e =>
      mk_row (mapping_id r) (source_table r) (source_field r)
             (target_table r) (target_column r) (mapping_method r)
             (confidence_score r) (approved r) (approved_by r)
             (timestamp_of e) (transformation_logic r)
             (description r) (created_timestamp r) (updated_timestamp r)
             (tpa r)
  | UpdatedTimestampNow =>
      mk_row (mapping_id r) (source_table r) (source_field r)
             (target_table r) (target_column r) (mapping_method r)
             (confidence_score r) (approved r) (approved_by r)
             (approved_timestamp r) (transformation_logic r)
             (description r) (created_timestamp r) now (tpa r)
  end.

Definition assign_all (l : list assign) (r : row) : row :=
  fold_left (fun acc a => assign1 a acc) l r.

Definition exec (q : stmt) (rows : list row) : list row :=
  match q with
  | Insert cols => rows ++ [assign_all cols (fresh rows)]
  | Update sets w =>
      map (fun r => if holds w r then assign_all sets r else r) rows
  | Delete w => filter (fun r => negb (holds w r)) rows
  end.

(** [execute_query] on a data-changing statement. *)
Definition execute_query (q : stmt) (rows : list row) : list row :=
  match engine_error q rows with
  | Some _ => rows
  | None => exec q rows
  end.

Definition execute_all (qs : list stmt) (rows : list row) : list row :=
  fold_left (fun acc q => execute_query q acc) qs rows.

End Engine.

End FieldMappings.

(* ===================================================================== *)
(** ** Page: Field Mapper *)
(* ===================================================================== *)

Module Mapper.
Import Py.
Import FieldMappings.

(** *** Tab: View Mappings *)

Inductive sort_option :=
| Target_Table_and_Column
| Source_Field
| Confidence_High_to_Low
| Created_Newest_First
| Created_Oldest_First
| Mapping_Method.

Definition lex_leb (a1 a2 b1 b2 : string) : bool :=
  orb (String.ltb a1 b1) (andb (String.eqb a1 b1) (String.leb a2 b2)).

(** [sort_options[selected_sort]] as the order it asks for. *)
Definition sort_clause (o : sort_option) (a b : row) : bool :=
  match o with
  | Target_Table_and_Column =>
      lex_leb (target_table a) (target_column a)
              (target_table b) (target_column b)
  | Source_Field => String.leb (source_field a) (source_field b)
  | Confidence_High_to_Low =>
      Qle_bool (confidence_score b) (confidence_score a)
  | Created_Newest_First => Z.leb (created_timestamp b) (created_timestamp a)
  | Created_Oldest_First => Z.leb (created_timestamp a) (created_timestamp b)
  | Mapping_Method => String.leb (mapping_method a) (mapping_method b)
  end.

(** The optional table and TPA filters. *)
Definition where_clauses (selected_filter_table : string)
    (selected_tpa : option string) : list cond :=
  (if negb (String.eqb selected_filter_table "(All Tables)")
   then [TargetTableEq (Sql.literal selected_filter_table)] else [])
  ++ match selected_tpa with
     | Some t => if truthy t then [TpaEq (Sql.literal t)] else []
     | None => []
     end.

Definition mappings_query (selected_filter_table : string)
    (selected_tpa : option string) (selected_sort : sort_option)
    (rows : list row) : list row :=
  order_by (sort_clause selected_sort)
    (filter (fun r =>
               forallb (fun c => holds c r)
                       (where_clauses selected_filter_table selected_tpa))
            rows).

(** The [subset] of [DataFrame.duplicated]. *)
Definition subset (r : row) : string * string * string * string :=
  (source_table r, source_field r, target_table r, target_column r).

Definition subset_eqb (a b : string * string * string * string) : bool :=
  let '(a1, a2, a3, a4) := a in
  let '(b1, b2, b3, b4) := b in
  andb (andb (String.eqb a1 b1) (String.eqb a2 b2))
       (andb (String.eqb a3 b3) (String.eqb a4 b4)).

Definition occurrences (k : string * string * string * string)
    (df : list row) : nat :=
  List.length (filter (fun r => subset_eqb (subset r) k) df).

(** [df.duplicated(subset=..., keep=False)]: with [keep=False] every
    occurrence of a repeated key is marked. *)
Definition duplicated_keep_false (df : list row) : list bool :=
  map (fun r => Nat.leb 2 (occurrences (subset r) df)) df.

Inductive status := DUPLICATE | PENDING | APPROVED_.



(** *** The mappings editor and its Save Changes handler *)

(** The columns of an editor row the handler reads; the others are
    shown but disabled. *)
Record editor_row := mk_editor_row {
  MAPPING_ID : idcell;
  APPROVED : option bool;
  TRANSFORMATION_LOGIC : cell;
  DESCRIPTION : cell
}.

Definition cell_of (v : option string) : cell :=
  match v with
  | Some s => CText s
  | None => CNone
  end.

Definition display_row_of (r : row) : editor_row :=
  mk_editor_row (Id (mapping_id r)) (Some (approved r))
                (cell_of (transformation_logic r)) (cell_of (description r)).

(** [bool(x)] on a checkbox cell. *)
Definition py_bool (x : option bool) : bool :=
  match x with
  | Some b => b
  | None => false
  end.

(** The SQL value of an edited text cell: the quoted, quote-doubled text,
    or NULL for a missing, blank or literally "nan" cell. *)
Definition text_sql (c : cell) : option string :=
  if andb (andb (notna c) (truthy (strip (cell_str c))))
          (negb (String.eqb (cell_str c) "nan"))
  then Some (Sql.literal (Sql.double_quotes (cell_str c))) else None.

Definition deleted_ids (display_df edited_df : list editor_row) : list idcell :=
  filter (fun i => negb (id_in i (map MAPPING_ID edited_df)))
         (map MAPPING_ID display_df).

Section Save.

(** [st.user.user_name], or the exception reading it raises. *)
Variable st_user : result string.

Definition current_user : string :=
  match st_user with
  | Ok user_name => user_name
  | Raise _ => "UNKNOWN"
  end.

(** The loop body for one index: [original_row] and [edited_row] are the
    rows found at that index of the two frames. *)
Definition update_query (original_row edited_row : editor_row) : list stmt :=
  let mapping_id := MAPPING_ID edited_row in
  let approved_changed :=
    negb (Bool.eqb (py_bool (APPROVED edited_row))
                   (py_bool (APPROVED original_row))) in
  let transformation_changed :=
    negb (String.eqb (cell_str (TRANSFORMATION_LOGIC edited_row))
                     (cell_str (TRANSFORMATION_LOGIC original_row))) in
  let description_changed :=
    negb (String.eqb (cell_str (DESCRIPTION edited_row))
                     (cell_str (DESCRIPTION original_row))) in
  if orb (orb approved_changed transformation_changed) description_changed
  then
    let transformation_logic_sql := text_sql (TRANSFORMATION_LOGIC edited_row) in
    let description_sql := text_sql (DESCRIPTION edited_row) in
    let approved_value := py_bool (APPROVED edited_row) in
    if andb approved_changed approved_value then
      [Update [ TransformationLogic transformation_logic_sql;
                Description description_sql;
                Approved true;
                ApprovedBy (Some current_user);
                ApprovedTimestamp CURRENT_TIMESTAMP;
                UpdatedTimestampNow ]
              (MappingIdEq mapping_id)]
    else if andb approved_changed (negb approved_value) then
      [Update [ TransformationLogic transformation_logic_sql;
                Description description_sql;
                Approved false;
                ApprovedBy None;
                ApprovedTimestamp NULL;
                UpdatedTimestampNow ]
              (MappingIdEq mapping_id)]
    else
      [Update [ TransformationLogic transformation_logic_sql;
                Description description_sql;
                UpdatedTimestampNow ]
              (MappingIdEq mapping_id)]
  else [].

(** The handler: deletions by id, then the loop over
    [range(min(len(display_df), len(edited_df)))], which pairs the two
    frames by position. *)
Definition save_mappings (display_df edited_df : list editor_row) : list stmt :=
  map (fun i => Delete (MappingIdEq i)) (deleted_ids display_df edited_df)
  ++ flat_map (fun '(original_row, edited_row) =>
                 update_query original_row edited_row)
              (combine display_df edited_df).

End Save.

(** *** Tab: Manual Mapping *)

Record manual_mapping_form := mk_form {
  source_field_ : string;
  source_table_ : string;
  target_table_ : string;
  target_column_ : string;
  transformation : string;
  description_ : string
}.

(** ['{x.replace(chr(39), chr(39)*2)}']. *)
Definition escaped (x : string) : string := Sql.literal (Sql.double_quotes x).

(** ['{x.replace(chr(39), chr(39)*2)}' if x else NULL]. *)
Definition escaped_or_null (x : string) : option string :=
  if truthy x then Some (escaped x) else None.

(** The submit handler: nothing is issued when a required field is
    empty ([st.error]); otherwise one INSERT. *)
Definition manual_mapping_submit (f : manual_mapping_form) : list stmt :=
  if orb (orb (negb (truthy (source_field_ f)))
              (negb (truthy (target_table_ f))))
         (negb (truthy (target_column_ f)))
  then []
  else
    [Insert [ SourceField (escaped (upper (source_field_ f)));
              SourceTable (escaped (upper (source_table_ f)));
              TargetTable (escaped (upper (target_table_ f)));
              TargetColumn (escaped (upper (target_column_ f)));
              MappingMethod "MANUAL";
              ConfidenceScore 1.0;
              TransformationLogic (escaped_or_null (transformation f));
              Description (escaped_or_null (description_ f));
              Approved true ]].

(** *** Tab: Test Mappings *)

(** The columns the tab selects. *)
Record test_row := mk_test_row {
  SOURCE_FIELD : string;
  SOURCE_TABLE : string;
  TARGET_COLUMN : string;
  TRANSFORMATION_LOGIC_ : cell
}.

Definition test_row_of (r : row) : test_row :=
  mk_test_row (source_field r) (source_table r) (target_column r)
              (cell_of (transformation_logic r)).

(** [SELECT ... WHERE target_table = '{t}' AND approved = TRUE
     ORDER BY target_column]. *)
Definition mappings_test_df (selected_test_table : string)
    (rows : list row) : list test_row :=
  map test_row_of
    (order_by (fun a b => String.leb (target_column a) (target_column b))
       (filter (holds (CAnd (TargetTableEq (Sql.literal selected_test_table))
                            (ApprovedEq true)))
               rows)).

(** What the engine promises of that query: the selected rows in
    ascending order of target column, rows of one target column in
    whatever order.  [mappings_test_df] is the frame that keeps such
    rows in stored order; [mappings_test_frame] holds of every frame
    the engine may return. *)
Definition mappings_test_frame (selected_test_table : string)
    (rows : list row) (df : list test_row) : Prop :=
  exists selected,
    Permutation selected
      (filter (holds (CAnd (TargetTableEq (Sql.literal selected_test_table))
                           (ApprovedEq true)))
              rows)
    /\ StronglySorted
         (fun a b => String.leb (target_column a) (target_column b) = true)
         selected
    /\ df = map test_row_of selected.

Definition select_clause (mapping : test_row) : string :=
  let transformation := TRANSFORMATION_LOGIC_ mapping in
  if andb (notna transformation) (truthy (strip (cell_str transformation)))
  then cell_str transformation ++ " AS " ++ TARGET_COLUMN mapping
  else "RAW_DATA:" ++ SOURCE_FIELD mapping ++ "::VARCHAR AS "
                   ++ TARGET_COLUMN mapping.

Section Preview.

Variable DB_BRONZE : string.

(** [execute_query] on the preview SELECT: the frame the engine returns
    for the text, over whatever the Bronze table holds. *)
Variable preview : string -> list Session.row_dict.

(** The text of [test_query]; the layout whitespace of the f-string is
    written as single spaces. *)
Definition test_query (df : list test_row) (sample_rows : Z) : string :=
  "SELECT " ++ String.concat ", " (map select_clause df)
  ++ " FROM " ++ DB_BRONZE ++ ".RAW_DATA_TABLE"
  ++ " WHERE RAW_DATA IS NOT NULL"
  ++ " LIMIT " ++ str_of_Z sample_rows.

(** What the tab shows once Test Mappings is pressed. *)
Inductive test_output :=
| No_approved_mappings
| Mapped (approved_mappings : list test_row) (query : string)
         (test_results_df : list Session.row_dict).

(** The handler of the button, from the frame of approved mappings
    on. *)
Definition test_mappings_of (df : list test_row) (sample_rows : Z)
    : test_output :=
  match df with
  | [] => No_approved_mappings
  | _ => let q := test_query df sample_rows in Mapped df q (preview q)
  end.

Definition test_mappings (selected_test_table : string) (sample_rows : Z)
    (rows : list row) : test_output :=
  test_mappings_of (mappings_test_df selected_test_table rows) sample_rows.

(** The outputs the tab may show: one for every frame the engine may
    return. *)
Definition test_mappings_shows (selected_test_table : string)
    (sample_rows : Z) (rows : list row) (out : test_output) : Prop :=
  exists df,
    mappings_test_frame selected_test_table rows df
    /\ out = test_mappings_of df sample_rows.

End Preview.

End Mapper.

(* ===================================================================== *)
(** ** The Transformation Engine *)
(* ===================================================================== *)

(** The Run Transformation form hands the run to the stored procedure
    [transform_bronze_to_silver]; the scripts hold its CALL only. *)
Module Transform.
Import FieldMappings.

(** Modelled from the spec: the body of [transform_bronze_to_silver]
    is missing from the sources.  Section 3: a mapping is usable by
    the Transformation Engine iff approved = true; section 4.3, MAP:
    the approved mappings targeting this target table. *)
Definition usable (target : string) (store : list row) : list row :=
  filter (fun m => andb (approved m) (String.eqb (target_table m) target))
         store.

Section Engine.

(** A source row and a value of a target column. *)
Variable source_row : Type.
Variable value : Type.

(** The source field's value in a source row. *)
Variable extract : string -> source_row -> value.

(** The cast to the declared type of a column of a target table. *)
Variable cast : string -> string -> value -> value.

(** A transformation expression evaluated against the source field. *)
Variable evaluate : string -> value -> value.

(** READ: the source rows of this run, for a source table, a source
    schema and a batch size. *)
Variable read : string -> string -> Z -> list source_row.

(** The configuration error reported when a target table has no
    approved mapping. *)
Variable no_approved_mappings : string -> string.

(** What follows MAP, for a target table, [apply_rules] and
    [advance_watermark]: schema defaults, RULES, WRITE, WATERMARK and
    the result string. *)
Variable finish : string -> bool -> bool -> list (list (string * value))
                  -> string.

(** Modelled from the spec: the MAP step of the missing procedure
    body, section 4.3.  The source field's value is cast to the target
    column's declared type, or the mapping's transformation expression
    is evaluated if present. *)
Definition map_value (m : row) (r : source_row) : value :=
  match transformation_logic m with
  | Some expression => evaluate expression (extract (source_field m) r)
  | None => cast (target_table m) (target_column m)
                 (extract (source_field m) r)
  end.

(** Modelled from the spec: the MAP step of the missing procedure
    body, section 4.3.  For each approved mapping targeting the target
    table, the column it fills: a partially populated target-shaped
    row. *)
Definition map_row (target : string) (store : list row) (r : source_row)
    : list (string * value) :=
  map (fun m => (target_column m, map_value m r)) (usable target store).

(** Modelled from the spec: the interface [transform] of section 6,
    whose body is missing from the sources.  Section 7: no approved
    mapping is a configuration error reported before any write; else
    the run of section 4.3, MAP over the rows READ, then the steps
    that follow. *)
Definition transform (source_table target_table source_schema : string)
    (batch_size : Z) (apply_rules advance_watermark : bool)
    (store : list row) : string :=
  match usable target_table store with
  | [] => no_approved_mappings target_table
  | _ => finish target_table apply_rules advance_watermark
           (map (map_row target_table store)
                (read source_table source_schema batch_size))
  end.

End Engine.

End Transform.

(* ===================================================================== *)
(** ** Table [transformation_rules] and page: Rules Engine *)
(* ===================================================================== *)

Module Rules.

Record row := mk_row {
  rule_id : string;
  rule_name : string;
  rule_type : string;
  target_table : option string;
  target_column : option string;
  rule_logic : string;
  priority : Z;
  error_action : string;
  active : bool;
  created_timestamp : Z;
  description : option string
}.

Inductive cond :=
| RuleTypeEq (s : string)
| TargetTableEq (s : string)
| TargetTableIsNull
| ActiveEq (b : bool)
| CTrue
| CAnd (c d : cond)
| COr (c d : cond).

(** A comparison with NULL is not true, so the row is not selected. *)
Fixpoint holds (c : cond) (r : row) : bool :=
  match c with
  | RuleTypeEq s => String.eqb (rule_type r) s
  | TargetTableEq s =>
      match target_table r with
      | Some t => String.eqb t s
      | None => false
      end
  | TargetTableIsNull =>
      match target_table r with
      | Some _ => false
      | None => true
      end
  | ActiveEq b => Bool.eqb (active r) b
  | CTrue => true
  | CAnd c d => andb (holds c r) (holds d r)
  | COr c d => orb (holds c r) (holds d r)
  end.

(** [ORDER BY priority, created_timestamp DESC]. *)
Definition by_priority_then_created_desc (a b : row) : bool :=
  orb (Z.ltb (priority a) (priority b))
      (andb (Z.eqb (priority a) (priority b))
            (Z.leb (created_timestamp b) (created_timestamp a))).

(** [ORDER BY priority]. *)
Definition by_priority (a b : row) : bool := Z.leb (priority a) (priority b).

End Rules.

Module RulesPage.
Import Rules.

(** *** Tab: All Transformation Rules *)

Inductive active_filter := All | Active_Only | Inactive_Only.

(** [" AND ".join(where_clauses) if where_clauses else "1=1"]. *)
Definition join_and (cs : list cond) : cond :=
  match cs with
  | [] => CTrue
  | c :: rest => fold_left CAnd rest c
  end.

Definition where_clause (filter_type filter_table : string)
    (filter_active : active_filter) : cond :=
  join_and
    ((if negb (String.eqb filter_type "(All Types)")
      then [RuleTypeEq (Sql.literal filter_type)] else [])
     ++ (if negb (String.eqb filter_table "(All Tables)")
         then [TargetTableEq (Sql.literal filter_table)] else [])
     ++ match filter_active with
        | All => []
        | Active_Only => [ActiveEq true]
        | Inactive_Only => [ActiveEq false]
        end).

Definition rules_df (filter_type filter_table : string)
    (filter_active : active_filter) (rows : list row) : list row :=
  order_by by_priority_then_created_desc
    (filter (holds (where_clause filter_type filter_table filter_active)) rows).

(** *** Tab: Test Rules *)

Definition rules_for_table_df (test_target_table : string)
    (rows : list row) : list row :=
  order_by by_priority
    (filter (holds (CAnd (COr (TargetTableEq (Sql.literal test_target_table))
                              TargetTableIsNull)
                         (ActiveEq true)))
            rows).

End RulesPage.

(* ===================================================================== *)
(** ** Page: Field Mapper, the counters above the frame *)
(* ===================================================================== *)

Module MapperCounts.
Import FieldMappings.

(** [mappings_df['IS_DUPLICATE'].sum()]. *)
Definition duplicate_count (df : list row) : nat :=
  List.length (filter (fun flag : bool => flag) (Mapper.duplicated_keep_false df)).

(** [(~display_df['APPROVED']).sum()]. *)
Definition unapproved_count (df : list row) : nat :=
  List.length (filter (fun r => negb (approved r)) df).

End MapperCounts.

(* ===================================================================== *)
(** ** A metadata table behind [execute_query] *)
(* ===================================================================== *)

(** The tables the remaining tabs write to are handled alike: the
    statements are INSERT, UPDATE and DELETE on one table, a refused
    statement leaves the table as it was. *)
Module Table.

Inductive stmt (assign cond : Type) :=
| Insert (cols : list assign)
| Update (sets : list assign) (where_ : cond)
| Delete (where_ : cond).
Arguments Insert {assign cond} cols.
Arguments Update {assign cond} sets where_.
Arguments Delete {assign cond} where_.

Section Engine.

Context {row assign cond : Type}.

(** One [column = value] applied to a row, and a condition read on a
    row. *)
Variable assign1 : assign -> row -> row.
Variable holds : cond -> row -> bool.

(** The row an INSERT starts from (the column defaults), and the engine
    refusing a statement. *)
Variable fresh : list row -> row.
Variable engine_error : stmt assign cond -> list row -> option string.

Definition assign_all (l : list assign) (r : row) : row :=
  fold_left (fun acc a => assign1 a acc) l r.

Definition exec (q : stmt assign cond) (rows : list row) : list row :=
  match q with
  | Insert cols => rows ++ [assign_all cols (fresh rows)]
  | Update sets w =>
      map (fun r => if holds w r then assign_all sets r else r) rows
  | Delete w => filter (fun r => negb (holds w r)) rows
  end.

Definition execute_query (q : stmt assign cond) (rows : list row) : list row :=
  match engine_error q rows with
  | Some _ => rows
  | None => exec q rows
  end.

Definition execute_all (qs : list (stmt assign cond)) (rows : list row)
    : list row :=
  fold_left (fun acc q => execute_query q acc) qs rows.

End Engine.

End Table.

(* ===================================================================== *)
(** ** Table [known_field_mappings] and tab: Known Mappings *)
(* ===================================================================== *)

Module KnownMappings.
Import Py.

Record row := mk_row {
  mapping_id : Z;
  source_field : string;
  target_field : string;
  description : option string;
  active : bool;
  created_timestamp : Z
}.

Inductive assign :=
| SourceField (s : string)
| TargetField (s : string)
| Description (v : option string)
| Active (b : bool).

Inductive cond :=
| MappingIdEq (k : idcell).

Abbreviation stmt := (Table.stmt assign cond).

Definition holds (c : cond) (r : row) : bool :=
  match c with
  | MappingIdEq k => idcell_eqb (Id (mapping_id r)) k
  end.

Definition assign1 (a : assign) (r : row) : row :=
  match a with
  | SourceField s =>
      mk_row (mapping_id r) s (target_field r) (description r) (active r)
             (created_timestamp r)
  | TargetField s =>
      mk_row (mapping_id r) (source_field r) s (description r) (active r)
             (created_timestamp r)
  | Description v =>
      mk_row (mapping_id r) (source_field r) (target_field r) v (active r)
             (created_timestamp r)
  | Active b =>
      mk_row (mapping_id r) (source_field r) (target_field r)
             (description r) b (created_timestamp r)
  end.

Definition execute_all (fresh : list row -> row)
    (engine_error : stmt -> list row -> option string)
    (qs : list stmt) (rows : list row) : list row :=
  Table.execute_all assign1 holds fresh engine_error qs rows.

(** [SELECT ... ORDER BY created_timestamp DESC]. *)
Definition newest_first (rows : list row) : list row :=
  order_by (fun a b => Z.leb (created_timestamp b) (created_timestamp a)) rows.

End KnownMappings.

Module KnownPage.
Import Py.
Import KnownMappings.

(** A row of the editor frame; CREATED_TIMESTAMP is shown but never
    read by the handler. *)
Record editor_row := mk_editor_row {
  MAPPING_ID : idcell;
  SOURCE_FIELD : cell;
  TARGET_FIELD : cell;
  DESCRIPTION : cell;
  ACTIVE : option bool
}.

Definition editor_row_of (r : row) : editor_row :=
  mk_editor_row (Id (mapping_id r)) (CText (source_field r))
                (CText (target_field r)) (Mapper.cell_of (description r))
                (Some (active r)).

Definition known_mappings_df (rows : list row) : list editor_row :=
  map editor_row_of (newest_first rows).

Definition original_ids (known_mappings_df : list editor_row) : list idcell :=
  map MAPPING_ID known_mappings_df.

Definition edited_ids (edited_df : list editor_row) : list idcell :=
  map MAPPING_ID edited_df.

(** [original_ids - edited_ids], listed in frame order. *)
Definition deleted_ids (known_mappings_df edited_df : list editor_row)
    : list idcell :=
  filter (fun i => negb (id_in i (edited_ids edited_df)))
         (original_ids known_mappings_df).

(** The statement issued for a row removed in the editor. *)
Definition delete_query (mapping_id : idcell) : stmt :=
  Table.Update [Active false] (MappingIdEq mapping_id).

(** [description_sql]: the quoted description, NULL for a missing or
    empty one. *)
Definition description_sql (c : cell) : option string :=
  let description :=
    if notna c then Some (Sql.double_quotes (cell_str c)) else None in
  match description with
  | Some d => if truthy d then Some (Sql.literal d) else None
  | None => None
  end.

(** The comparison of the editable fields. *)
Definition changed (orig_row row : editor_row) : bool :=
  orb (orb (orb (negb (String.eqb (cell_str (SOURCE_FIELD row))
                                  (cell_str (SOURCE_FIELD orig_row))))
                (negb (String.eqb (cell_str (TARGET_FIELD row))
                                  (cell_str (TARGET_FIELD orig_row)))))
           (negb (String.eqb (cell_str (DESCRIPTION row))
                             (cell_str (DESCRIPTION orig_row)))))
      (negb (Bool.eqb (Mapper.py_bool (ACTIVE row))
                      (Mapper.py_bool (ACTIVE orig_row)))).

(** The body of the first loop over [edited_df.iterrows()]: rows that
    carry an id of the original frame. *)
Definition update_row (known_mappings_df : list editor_row) (row : editor_row)
    : list stmt :=
  match MAPPING_ID row with
  | IdNaN => []
  | Id mapping_id =>
      if id_in (Id mapping_id) (original_ids known_mappings_df) then
        match find (fun o => idcell_eqb (MAPPING_ID o) (Id mapping_id))
                   known_mappings_df with
        | Some orig_row =>
            if changed orig_row row then
              [Table.Update
                 [ SourceField (Mapper.escaped (upper (cell_str (SOURCE_FIELD row))));
                   TargetField (Mapper.escaped (upper (cell_str (TARGET_FIELD row))));
                   Description (description_sql (DESCRIPTION row));
                   Active (Designer.keyword_bool
                             (Designer.py_bool_str (Mapper.py_bool (ACTIVE row)))) ]
                 (MappingIdEq (Id mapping_id))]
            else []
        | None => []
        end
      else []
  end.

(** The body of the second loop: rows the editor added. *)
Definition insert_row (row : editor_row) : list stmt :=
  if Designer.isna_id (MAPPING_ID row) then
    if andb (notna (SOURCE_FIELD row)) (notna (TARGET_FIELD row)) then
      [Table.Insert
         [ SourceField (Mapper.escaped (upper (cell_str (SOURCE_FIELD row))));
           TargetField (Mapper.escaped (upper (cell_str (TARGET_FIELD row))));
           Description (description_sql (DESCRIPTION row));
           Active true ]]
    else []
  else [].

(** The Save Changes handler: deactivations, then the two loops. *)
Definition save_known_mappings (known_mappings_df edited_df : list editor_row)
    : list stmt :=
  map delete_query (deleted_ids known_mappings_df edited_df)
  ++ flat_map (update_row known_mappings_df) edited_df
  ++ flat_map insert_row edited_df.

(** What the handler ends with: [st.success] or [st.info]. *)
Inductive notice := Updated_successfully | No_changes_detected.

(** [changes_made] is set wherever a statement is issued. *)
Definition save_notice (known_mappings_df edited_df : list editor_row)
    : notice :=
  if truthy_list (save_known_mappings known_mappings_df edited_df)
  then Updated_successfully else No_changes_detected.



End KnownPage.

(* ===================================================================== *)
(** ** More Python string methods *)
(* ===================================================================== *)

Module PyStr.

(** [s.replace(old, new)] for one-character [old] and [new]. *)
Fixpoint replace_char (old new : ascii) (s : string) : string :=
  match s with
  | EmptyString => EmptyString
  | String c rest =>
      String (if Ascii.eqb c old then new else c) (replace_char old new rest)
  end.

(** [s.isascii()]: every character lies below 128.  On such text
    [Py.upper], [Py.strip] and [lower] are Python's [str.upper()],
    [str.strip()] and [str.lower()]. *)
Definition isascii (s : string) : bool :=
  forallb (fun c => Nat.ltb (nat_of_ascii c) 128) (list_ascii_of_string s).

(** [str.lower()] on ASCII text: the letters A to Z are lowered. *)
Definition lower_char (c : ascii) : ascii :=
  let n := nat_of_ascii c in
  if (andb (Nat.leb 65 n) (Nat.leb n 90)) then ascii_of_nat (n + 32) else c.

Fixpoint lower (s : string) : string :=
  match s with
  | EmptyString => EmptyString
  | String c rest => String (lower_char c) (lower rest)
  end.

(** The part of a path after its last slash. *)
Fixpoint basename (p : string) : string :=
  match p with
  | EmptyString => EmptyString
  | String c rest =>
      if Py.contains "/" rest then basename rest
      else if Ascii.eqb c "/" then rest else p
  end.

(** A text cut at its last dot: what is before it, and the dot with
    what follows; without a dot the second part is empty. *)
Fixpoint split_last_dot (p : string) : string * string :=
  match p with
  | EmptyString => (EmptyString, EmptyString)
  | String c rest =>
      let '(root, ext) := split_last_dot rest in
      match ext with
      | EmptyString =>
          if Ascii.eqb c "." then (EmptyString, p) else (String c root, ext)
      | _ => (String c root, ext)
      end
  end.

(** [os.path.splitext(p)] for POSIX paths: the extension starts at the
    last dot, if that dot lies after the last slash and the file name
    before it does not consist of dots only. *)
Definition splitext (p : string) : string * string :=
  let '(root, ext) := split_last_dot p in
  if andb (negb (Py.contains "/" ext))
          (existsb (fun c => negb (Ascii.eqb c "."))
                   (list_ascii_of_string (basename root)))
  then (root, ext) else (p, EmptyString).

End PyStr.

(* ===================================================================== *)
(** ** Table [llm_prompt_templates] and tab: Prompt Templates *)
(* ===================================================================== *)

Module PromptTemplates.

Record row := mk_row {
  template_id : string;
  template_name : string;
  template_text : string;
  description : option string;
  active : bool;
  created_timestamp : Z;
  updated_timestamp : Z
}.

Inductive assign :=
| TemplateId (s : string)
| TemplateName (s : string)
| TemplateText (s : string)
| Description (v : option string)
| Active (b : bool)
| UpdatedTimestampNow.

Inductive cond :=
| TemplateIdEq (s : string).

Abbreviation stmt := (Table.stmt assign cond).

Definition holds (c : cond) (r : row) : bool :=
  match c with
  | TemplateIdEq s => String.eqb (template_id r) s
  end.

Definition assign1 (now : Z) (a : assign) (r : row) : row :=
  match a with
  | TemplateId s =>
      mk_row s (template_name r) (template_text r) (description r)
             (active r) (created_timestamp r) (updated_timestamp r)
  | TemplateName s =>
      mk_row (template_id r) s (template_text r) (description r)
             (active r) (created_timestamp r) (updated_timestamp r)
  | TemplateText s =>
      mk_row (template_id r) (template_name r) s (description r)
             (active r) (created_timestamp r) (updated_timestamp r)
  | Description v =>
      mk_row (template_id r) (template_name r) (template_text r) v
             (active r) (created_timestamp r) (updated_timestamp r)
  | Active b =>
      mk_row (template_id r) (template_name r) (template_text r)
             (description r) b (created_timestamp r) (updated_timestamp r)
  | UpdatedTimestampNow =>
      mk_row (template_id r) (template_name r) (template_text r)
             (description r) (active r) (created_timestamp r) now
  end.

Definition execute_all (now : Z) (fresh : list row -> row)
    (engine_error : stmt -> list row -> option string)
    (qs : list stmt) (rows : list row) : list row :=
  Table.execute_all (assign1 now) holds fresh engine_error qs rows.

End PromptTemplates.

Module PromptsPage.
Import Py.
Import PromptTemplates.

(** [prompts_df['TEMPLATE_ID'].tolist()] of the frame read with
    [ORDER BY template_id]: the options of the select box. *)
Definition prompt_options (rows : list row) : list string :=
  map template_id
      (order_by (fun a b => String.leb (template_id a) (template_id b)) rows).

Record edit_prompt_form := mk_edit_form {
  edit_name : string;
  edit_text : string;
  edit_description : string;
  edit_active : bool
}.

Record add_prompt_template_form := mk_add_form {
  new_template_id : string;
  new_template_name : string;
  new_template_text : string;
  new_template_desc : string
}.

(** The Update Template button. *)
Definition update_submitted (selected_prompt_id : string)
    (f : edit_prompt_form) : list stmt :=
  if orb (negb (truthy (edit_name f))) (negb (truthy (edit_text f)))
  then []
  else
    [Table.Update
       [ TemplateName (Mapper.escaped (edit_name f));
         TemplateText (Mapper.escaped (edit_text f));
         Description (Mapper.escaped_or_null (edit_description f));
         Active (Designer.keyword_bool (Designer.py_bool_str (edit_active f)));
         UpdatedTimestampNow ]
       (TemplateIdEq (Sql.literal selected_prompt_id))].

(** The Delete Template button. *)
Definition delete_submitted (selected_prompt_id : string) : list stmt :=
  if String.eqb selected_prompt_id "DEFAULT_FIELD_MAPPING" then []
  else [Table.Delete (TemplateIdEq (Sql.literal selected_prompt_id))].

Definition safe_id (new_template_id : string) : string :=
  Sql.double_quotes (PyStr.replace_char " " "_" (upper new_template_id)).

(** The Add Prompt Template button. *)
Definition add_submitted (f : add_prompt_template_form) : list stmt :=
  if orb (orb (negb (truthy (new_template_id f)))
              (negb (truthy (new_template_name f))))
         (negb (truthy (new_template_text f)))
  then []
  else
    [Table.Insert
       [ TemplateId (Sql.literal (safe_id (new_template_id f)));
         TemplateName (Mapper.escaped (new_template_name f));
         TemplateText (Mapper.escaped (new_template_text f));
         Description (Mapper.escaped_or_null (new_template_desc f));
         Active true ]].




End PromptsPage.

(* ===================================================================== *)
(** ** Table [transformation_rules]: the statements that write to it *)
(* ===================================================================== *)

Module RulesTable.

(** A stored rule: the columns the listings read, and the two they do
    not. *)
Record row := mk_row {
  rule : Rules.row;
  rule_parameters : option string;
  updated_timestamp : Z
}.

Inductive assign :=
| RuleId (s : string)
| RuleName (s : string)
| RuleType (s : string)
| TargetTable (v : option string)
| TargetColumn (v : option string)
| RuleLogic (s : string)
| RuleParameters (v : option string)
| Priority (z : Z)
| ErrorAction (s : string)
| Description (v : option string)
| Active (b : bool)
| UpdatedTimestampNow.

Inductive cond :=
| RuleIdEq (s : string).

Abbreviation stmt := (Table.stmt assign cond).

Definition holds (c : cond) (r : row) : bool :=
  match c with
  | RuleIdEq s => String.eqb (Rules.rule_id (rule r)) s
  end.

Definition assign_rule (a : assign) (r : Rules.row) : Rules.row :=
  match a with
  | RuleId s =>
      Rules.mk_row s (Rules.rule_name r) (Rules.rule_type r)
        (Rules.target_table r) (Rules.target_column r) (Rules.rule_logic r)
        (Rules.priority r) (Rules.error_action r) (Rules.active r)
        (Rules.created_timestamp r) (Rules.description r)
  | RuleName s =>
      Rules.mk_row (Rules.rule_id r) s (Rules.rule_type r)
        (Rules.target_table r) (Rules.target_column r) (Rules.rule_logic r)
        (Rules.priority r) (Rules.error_action r) (Rules.active r)
        (Rules.created_timestamp r) (Rules.description r)
  | RuleType s =>
      Rules.mk_row (Rules.rule_id r) (Rules.rule_name r) s
        (Rules.target_table r) (Rules.target_column r) (Rules.rule_logic r)
        (Rules.priority r) (Rules.error_action r) (Rules.active r)
        (Rules.created_timestamp r) (Rules.description r)
  | TargetTable v =>
      Rules.mk_row (Rules.rule_id r) (Rules.rule_name r) (Rules.rule_type r)
        v (Rules.target_column r) (Rules.rule_logic r)
        (Rules.priority r) (Rules.error_action r) (Rules.active r)
        (Rules.created_timestamp r) (Rules.description r)
  | TargetColumn v =>
      Rules.mk_row (Rules.rule_id r) (Rules.rule_name r) (Rules.rule_type r)
        (Rules.target_table r) v (Rules.rule_logic r)
        (Rules.priority r) (Rules.error_action r) (Rules.active r)
        (Rules.created_timestamp r) (Rules.description r)
  | RuleLogic s =>
      Rules.mk_row (Rules.rule_id r) (Rules.rule_name r) (Rules.rule_type r)
        (Rules.target_table r) (Rules.target_column r) s
        (Rules.priority r) (Rules.error_action r) (Rules.active r)
        (Rules.created_timestamp r) (Rules.description r)
  | Priority z =>
      Rules.mk_row (Rules.rule_id r) (Rules.rule_name r) (Rules.rule_type r)
        (Rules.target_table r) (Rules.target_column r) (Rules.rule_logic r)
        z (Rules.error_action r) (Rules.active r)
        (Rules.created_timestamp r) (Rules.description r)
  | ErrorAction s =>
      Rules.mk_row (Rules.rule_id r) (Rules.rule_name r) (Rules.rule_type r)
        (Rules.target_table r) (Rules.target_column r) (Rules.rule_logic r)
        (Rules.priority r) s (Rules.active r)
        (Rules.created_timestamp r) (Rules.description r)
  | Description v =>
      Rules.mk_row (Rules.rule_id r) (Rules.rule_name r) (Rules.rule_type r)
        (Rules.target_table r) (Rules.target_column r) (Rules.rule_logic r)
        (Rules.priority r) (Rules.error_action r) (Rules.active r)
        (Rules.created_timestamp r) v
  | Active b =>
      Rules.mk_row (Rules.rule_id r) (Rules.rule_name r) (Rules.rule_type r)
        (Rules.target_table r) (Rules.target_column r) (Rules.rule_logic r)
        (Rules.priority r) (Rules.error_action r) b
        (Rules.created_timestamp r) (Rules.description r)
  | RuleParameters _ => r
  | UpdatedTimestampNow => r
  end.

Definition assign1 (now : Z) (a : assign) (r : row) : row :=
  mk_row (assign_rule a (rule r))
         (match a with
          | RuleParameters v => v
          | _ => rule_parameters r
          end)
         (match a with
          | UpdatedTimestampNow => now
          | _ => updated_timestamp r
          end).

Definition execute_all (now : Z) (fresh : list row -> row)
    (engine_error : stmt -> list row -> option string)
    (qs : list stmt) (rows : list row) : list row :=
  Table.execute_all (assign1 now) holds fresh engine_error qs rows.

(** The columns the two listings select. *)
Definition listed (rows : list row) : list Rules.row := map rule rows.

End RulesTable.

(* ===================================================================== *)
(** ** Rules Engine: the Add Rule and Edit / Delete tabs *)
(* ===================================================================== *)

Module RulesForms.
Import Py.
Import RulesTable.

Section Forms.

(** [json.loads(text)] returns, or raises. *)
Variable json_loads : string -> result unit.

Record add_rule_form := mk_add_form {
  rule_id : string;
  rule_name : string;
  rule_type : string;
  selected_table : string;
  target_column : string;
  rule_logic : string;
  priority : Z;
  error_action : string;
  active : bool;
  description : string;
  rule_parameters_ : string
}.

Record edit_rule_form := mk_edit_form {
  edit_rule_name : string;
  edit_rule_type : string;
  edit_target_table : string;
  edit_target_column : string;
  edit_rule_logic : string;
  edit_priority : Z;
  edit_error_action : string;
  edit_active : bool;
  edit_description : string;
  edit_rule_parameters : string
}.

(** ['{x.upper()}' if x else NULL]. *)
Definition upper_or_null (x : string) : option string :=
  if truthy x then Some (Sql.literal (upper x)) else None.

(** [params_value] of the Add Rule tab, or [None] where [st.stop()]
    ends the script. *)
Definition params_value (rule_parameters : string)
    : option (option string) :=
  if truthy rule_parameters then
    match json_loads rule_parameters with
    | Ok _ => Some (Some (Sql.literal rule_parameters))
    | Raise _ => None
    end
  else Some None.

(** The Create Rule button.  Name, logic and description have their
    quotes doubled; rule id, rule type, target table, target column,
    parameters and error action are interpolated between quotes
    unescaped: the statement is this one when these texts hold no
    quote and no backslash. *)
Definition add_rule_submit (f : add_rule_form) : list stmt :=
  if orb (orb (negb (truthy (rule_id f))) (negb (truthy (rule_name f))))
         (negb (truthy (rule_logic f)))
  then []
  else
    match params_value (rule_parameters_ f) with
    | None => []
    | Some params =>
        [Table.Insert
           [ RuleId (Sql.literal (upper (rule_id f)));
             RuleName (Mapper.escaped (rule_name f));
             RuleType (Sql.literal (rule_type f));
             TargetTable (upper_or_null (selected_table f));
             TargetColumn (upper_or_null (target_column f));
             RuleLogic (Mapper.escaped (rule_logic f));
             RuleParameters params;
             Priority (priority f);
             ErrorAction (Sql.literal (error_action f));
             Description (Mapper.escaped_or_null (description f));
             Active (Designer.keyword_bool (Designer.py_bool_str (active f))) ]]
    end.

(** [params_value] of the Edit tab: the text None counts as empty. *)
Definition edit_params_value (edit_rule_parameters : string)
    : option (option string) :=
  if andb (truthy edit_rule_parameters)
          (negb (String.eqb edit_rule_parameters "None"))
  then
    match json_loads edit_rule_parameters with
    | Ok _ => Some (Some (Sql.literal edit_rule_parameters))
    | Raise _ => None
    end
  else Some None.

(** The Update Rule button.  Name, logic and description have their
    quotes doubled; the selected id, rule type, target table, target
    column, parameters and error action are interpolated between
    quotes unescaped: the statement is this one when these texts hold
    no quote and no backslash; a target column such as
    [x', rule_id = 'y] spells a longer SET list. *)
Definition update_submitted (selected_rule_id : string) (f : edit_rule_form)
    : list stmt :=
  if orb (negb (truthy (edit_rule_name f))) (negb (truthy (edit_rule_logic f)))
  then []
  else
    match edit_params_value (edit_rule_parameters f) with
    | None => []
    | Some params =>
        [Table.Update
           [ RuleName (Mapper.escaped (edit_rule_name f));
             RuleType (Sql.literal (edit_rule_type f));
             TargetTable (upper_or_null (edit_target_table f));
             TargetColumn (upper_or_null (edit_target_column f));
             RuleLogic (Mapper.escaped (edit_rule_logic f));
             RuleParameters params;
             Priority (edit_priority f);
             ErrorAction (Sql.literal (edit_error_action f));
             Description (Mapper.escaped_or_null (edit_description f));
             Active (Designer.keyword_bool
                       (Designer.py_bool_str (edit_active f)));
             UpdatedTimestampNow ]
           (RuleIdEq (Sql.literal selected_rule_id))]
    end.

(** The Delete Rule button. *)
Definition delete_submitted (selected_rule_id : string) : list stmt :=
  [Table.Delete (RuleIdEq (Sql.literal selected_rule_id))].

End Forms.

End RulesForms.

(* ===================================================================== *)
(** ** Target Table Designer: the table selector and the drop dialogue *)
(* ===================================================================== *)

Module TableSelector.
Import Py.

(** [st.session_state['selected_table']]: the key is missing, or it
    holds [None] or a name. *)
Inductive slot :=
| Missing
| Stored (v : option string).

(** [st.session_state.get('selected_table')]. *)
Definition get (s : slot) : option string :=
  match s with
  | Missing => None
  | Stored v => v
  end.

(** [current_table in table_list], [current_table != '__NEW__']. *)
Definition in_list (v : option string) (table_list : list string) : bool :=
  match v with
  | Some t => existsb (String.eqb t) table_list
  | None => false
  end.

Definition is_new (v : option string) : bool :=
  match v with
  | Some t => String.eqb t "__NEW__"
  | None => false
  end.

(** The initialisation of the selection; with no table listed the
    block is skipped. *)
Definition initialise (table_list : list string) (s : slot) : slot :=
  match table_list with
  | [] => s
  | first_table :: _ =>
      if orb (match s with Missing => true | Stored _ => false end)
             (andb (negb (in_list (get s) table_list))
                   (negb (is_new (get s))))
      then Stored (Some first_table)
      else s
  end.

(** [table_list.index(x)] for an [x] of the list. *)
Fixpoint index (x : string) (table_list : list string) : nat :=
  match table_list with
  | [] => 0
  | t :: rest => if String.eqb t x then 0 else S (index x rest)
  end.

(** The preselected radio button. *)
Definition current_index (table_list : list string)
    (current_table : option string) : nat :=
  match current_table with
  | Some t => if in_list current_table table_list then index t table_list else 0
  | None => 0
  end.

(** The state the drop dialogue works on: the selection and the tables
    with a pending [confirm_delete_...] flag. *)
Record session_state := mk_state {
  selected_table : slot;
  confirm_delete : list string
}.

(** What the dialogue shows: [st.error] or [st.success]. *)
Inductive shown :=
| Error_ (text : string)
| Success_ (text : string).

Section Drop.

Variable DB_SILVER : string.
Variable collect : string -> result (list Session.row_dict).

Definition drop_call (table_name : string) : string :=
  "CALL " ++ DB_SILVER ++ ".drop_silver_table('" ++ table_name ++ "', TRUE)".

(** The Yes, Delete button. *)
Definition confirm_yes (table_name : string) (st : session_state)
    : shown * session_state :=
  let result := Session.execute_procedure collect (drop_call table_name) in
  if contains "Error" result then (Error_ result, st)
  else (Success_ result,
        mk_state (Stored None)
                 (filter (fun t => negb (String.eqb t table_name))
                         (confirm_delete st))).

End Drop.

End TableSelector.

(* ===================================================================== *)
(** ** Field Mapper: the model list of the LLM tab, and File Coverage *)
(* ===================================================================== *)

Module LlmTab.
Import Py.

(** ['arctic' in model.lower()]. *)
Definition is_arctic (model : string) : bool :=
  contains "arctic" (PyStr.lower model).

(** The list of the select box: the models the procedure reports, or
    the three fallback models, with snowflake-arctic put in front when
    no arctic model is among them. *)
Definition available_models (models_df : list string) : list string :=
  let available_models :=
    if truthy_list models_df then models_df
    else ["snowflake-arctic"; "claude-3-5-sonnet"; "llama3.1-70b"] in
  if negb (existsb is_arctic available_models)
  then "snowflake-arctic" :: available_models
  else available_models.

(** The loop that looks for the default selection: the index of the
    first arctic model from position [i] on, if there is one. *)
Fixpoint first_arctic (i : nat) (models : list string) : option nat :=
  match models with
  | [] => None
  | model :: rest => if is_arctic model then Some i else first_arctic (S i) rest
  end.

Definition default_model_index (available_models : list string) : nat :=
  match first_arctic 0 available_models with
  | Some i => i
  | None => 0
  end.

End LlmTab.

Module Coverage.

(** [[col for col in all_cols if col not in mapped_cols]]. *)
Definition unmapped (all_cols mapped_cols : list string) : list string :=
  filter (fun col => negb (existsb (String.eqb col) mapped_cols)) all_cols.

(** The number in the header of the unmapped list:
    [len(all_cols) - len(mapped_cols)]. *)
Definition unmapped_header (all_cols mapped_cols : list string) : Z :=
  Z.of_nat (List.length all_cols) - Z.of_nat (List.length mapped_cols).

(** The lines of the mapped list: [zip(mapped_cols, target_cols)]. *)
Definition mapped_lines (mapped_cols target_cols : list string)
    : list (string * string) :=
  combine mapped_cols target_cols.

End Coverage.

(* ===================================================================== *)
(** ** Configuration files on the stage *)
(* ===================================================================== *)

(** Both applications start by reading [custom.config] or
    [default.config] from a stage into a dict of defaults. *)
Module Config.
Import Py.

Definition double_quote : ascii := ascii_of_nat 34.

(** [s.strip(c)] for a one-character argument. *)
Fixpoint lstrip_char (c : ascii) (s : string) : string :=
  match s with
  | EmptyString => EmptyString
  | String d rest => if Ascii.eqb d c then lstrip_char c rest else s
  end.

Fixpoint rstrip_char (c : ascii) (s : string) : string :=
  match s with
  | EmptyString => EmptyString
  | String d rest =>
      match rstrip_char c rest with
      | EmptyString => if Ascii.eqb d c then EmptyString else String d EmptyString
      | r => String d r
      end
  end.

Definition strip_char (c : ascii) (s : string) : string :=
  rstrip_char c (lstrip_char c s).

(** [s.split(sep, 1)] unpacked into two names: the text before the
    first separator and the text after it; without a separator the
    unpacking raises. *)
Fixpoint split_once (sep : ascii) (s : string) : option (string * string) :=
  match s with
  | EmptyString => None
  | String d rest =>
      if Ascii.eqb d sep then Some (EmptyString, rest)
      else match split_once sep rest with
           | Some (before, after) => Some (String d before, after)
           | None => None
           end
  end.

(** A dict with string keys, in insertion order. *)
Definition dict := list (string * string).

(** [config[key] = value]. *)
Fixpoint set (key value : string) (config : dict) : dict :=
  match config with
  | [] => [(key, value)]
  | (k, v) :: rest =>
      if String.eqb k key then (k, value) :: rest
      else (k, v) :: set key value rest
  end.

(** [config.get(key)]. *)
Fixpoint get (config : dict) (key : string) : option string :=
  match config with
  | [] => None
  | (k, v) :: rest => if String.eqb k key then Some v else get rest key
  end.

(** [key in config]. *)
Definition has_key (config : dict) (key : string) : bool :=
  match get config key with
  | Some _ => true
  | None => false
  end.

Definition keys (config : dict) : list string := map fst config.

(** One line of a config file: the key and the value it sets, if it is
    neither blank nor a comment and holds an equals sign. *)
Definition parse_line (text : string) : option (string * string) :=
  let line := strip text in
  if andb (andb (truthy line) (negb (String.prefix "#" line)))
          (contains "=" line)
  then
    match split_once "=" line with
    | Some (key, value) =>
        Some (strip key,
              strip_char "'" (strip_char double_quote (strip value)))
    | None => None
    end
  else None.

Section Parse.

(** What a parsed line does to the dict. *)
Variable update : string -> string -> dict -> dict.

(** The loop over the rows of a file.  A NULL line has no [strip]: the
    loop dies there, with the dict as the lines before left it. *)
Fixpoint parse_rows (rows : list (option string)) (config : dict)
    : dict * bool :=
  match rows with
  | [] => (config, true)
  | None :: _ => (config, false)
  | Some text :: rest =>
      parse_rows rest
        (match parse_line text with
         | Some (key, value) => update key value config
         | None => config
         end)
  end.

End Parse.

End Config.

Module SilverConfig.
Import Py.
Import Config.

Definition defaults : dict :=
  [ ("DATABASE_NAME", "db_ingest_pipeline");
    ("SCHEMA_NAME", "BRONZE");
    ("SILVER_SCHEMA_NAME", "SILVER");
    ("WAREHOUSE_NAME", "COMPUTE_WH");
    ("SILVER_STAGE_NAME", "SILVER_STAGE");
    ("SILVER_CONFIG_STAGE_NAME", "SILVER_CONFIG");
    ("SILVER_STREAMLIT_STAGE_NAME", "SILVER_STREAMLIT");
    ("DEFAULT_LLM_MODEL", "SNOWFLAKE-ARCTIC");
    ("DEFAULT_BATCH_SIZE", "10000");
    ("SILVER_TRANSFORM_SCHEDULE_MINUTES", "15");
    ("SILVER_STREAMLIT_APP_NAME", "SILVER_DATA_MANAGER") ].

Section Load.

(** The stage read [SELECT $1 as line FROM
    @{database}.PUBLIC.CONFIG_STAGE/{config_file} ...]: the LINE value
    of every row, or an exception. *)
Variable read_stage : string -> string -> result (list (option string)).

(** The body of the loop over [config_files]: the dict it leaves, and
    whether it reached [break]. *)
Definition try_file (config_file : string) (config : dict) : dict * bool :=
  match get config "DATABASE_NAME" with
  | None => (config, false)
  | Some database =>
      match read_stage database config_file with
      | Raise _ => (config, false)
      | Ok result =>
          if truthy_list result then
            let '(parsed, finished) := parse_rows set result config in
            if finished then (set "_config_source" config_file parsed, true)
            else (parsed, false)
          else (config, false)
      end
  end.

Fixpoint try_files (config_files : list string) (config : dict) : dict :=
  match config_files with
  | [] => config
  | config_file :: rest =>
      let '(config', found) := try_file config_file config in
      if found then config' else try_files rest config'
  end.

Definition load_config_from_stage : dict :=
  try_files ["custom.config"; "default.config"] defaults.

(** [config.get('_config_source', 'default')], shown in the sidebar. *)
Definition config_source : string :=
  match get load_config_from_stage "_config_source" with
  | Some source => source
  | None => "default"
  end.

End Load.

End SilverConfig.

Module BronzeConfig.
Import Py.
Import Config.

Definition defaults : dict :=
  [ ("DATABASE_NAME", "db_ingest_pipeline");
    ("SCHEMA_NAME", "BRONZE");
    ("WAREHOUSE_NAME", "COMPUTE_WH");
    ("SRC_STAGE_NAME", "SRC");
    ("COMPLETED_STAGE_NAME", "COMPLETED");
    ("ERROR_STAGE_NAME", "ERROR");
    ("ARCHIVE_STAGE_NAME", "ARCHIVE");
    ("DISCOVER_TASK_NAME", "discover_files_task");
    ("PROCESS_TASK_NAME", "process_files_task");
    ("MOVE_SUCCESS_TASK_NAME", "move_successful_files_task");
    ("MOVE_FAILED_TASK_NAME", "move_failed_files_task");
    ("ARCHIVE_TASK_NAME", "archive_old_files_task");
    ("DISCOVER_TASK_SCHEDULE_MINUTES", "60") ].

(** [if key in config: config[key] = value]. *)
Definition set_known (key value : string) (config : dict) : dict :=
  if has_key config key then set key value config else config.

Section Load.

(** The stage read [SELECT $1 FROM @CONFIG_STAGE/{config_file}]: the
    first value of every row, or an exception. *)
Variable read_stage : string -> result (list (option string)).

(** The body of the loop over the two file names: the dict it leaves,
    and whether it reached [break]. *)
Definition try_file (config_file : string) (config : dict) : dict * bool :=
  match read_stage config_file with
  | Raise _ => (config, false)
  | Ok result => parse_rows set_known result config
  end.

Fixpoint try_files (config_files : list string) (config : dict) : dict :=
  match config_files with
  | [] => config
  | config_file :: rest =>
      let '(config', found) := try_file config_file config in
      if found then config' else try_files rest config'
  end.

Definition load_config_from_stage : dict :=
  try_files ["custom.config"; "default.config"] defaults.

End Load.

End BronzeConfig.

(* ===================================================================== *)
(** ** Bronze application: the Upload Files page *)
(* ===================================================================== *)

Module BronzeUpload.
Import Py.

(** What the handlers read of an uploaded file. *)
Record uploaded_file := mk_file {
  name : string;
  size : Z
}.

Definition valid_extensions : list string := [".csv"; ".xlsx"; ".xls"].

(** The second component of the result of [validate_file]; the text
    of the two rejections is built from these. *)
Inductive verdict :=
| Valid
| Invalid_file_type (file_ext : string)
| File_too_large (size : Z).

Definition validate_file (file : uploaded_file) : bool * verdict :=
  let file_ext := PyStr.lower (snd (PyStr.splitext (name file))) in
  if negb (existsb (String.eqb file_ext) valid_extensions)
  then (false, Invalid_file_type file_ext)
  else
    let max_size := 100 * 1024 * 1024 in
    if Z.gtb (size file) max_size then (false, File_too_large (size file))
    else (true, Valid).

Section Upload.

(** The body of the [try] of [upload_file_to_stage] up to the result of
    [session.file.put]: the statuses of the rows it returns for the
    file and the stage path, or the exception raised on the way. *)
Variable put : uploaded_file -> string -> result (list string).

Definition stage_path (stage_name : string) (tpa_folder : option string)
    : string :=
  match tpa_folder with
  | Some folder =>
      if truthy folder then ("@" ++ stage_name ++ "/" ++ folder)%string
      else ("@" ++ stage_name)%string
  | None => ("@" ++ stage_name)%string
  end.

Definition upload_file_to_stage (file : uploaded_file) (stage_name : string)
    (tpa_folder : option string) : bool * string :=
  match put file (stage_path stage_name tpa_folder) with
  | Raise msg => (false, ("Upload error: " ++ msg)%string)
  | Ok put_result =>
      match put_result with
      | status :: _ =>
          if orb (String.eqb status "UPLOADED") (String.eqb status "SKIPPED")
          then (true, "Upload successful")
          else (false, ("Upload failed: " ++ status)%string)
      | [] => (false, "Upload failed: No result returned")
      end
  end.

(** The counters of the upload loop, with the files handed to
    [upload_file_to_stage] so far. *)
Record tally := mk_tally {
  success_count : nat;
  failed_count : nat;
  handed_over : list uploaded_file
}.

(** The loop over [uploaded_files]. *)
Fixpoint upload_loop (stage_name : string) (tpa_folder : option string)
    (uploaded_files : list uploaded_file) (t : tally) : tally :=
  match uploaded_files with
  | [] => t
  | file :: rest =>
      let '(is_valid, _) := validate_file file in
      if negb is_valid then
        upload_loop stage_name tpa_folder rest
          (mk_tally (success_count t) (S (failed_count t)) (handed_over t))
      else
        let '(success, _) := upload_file_to_stage file stage_name tpa_folder in
        upload_loop stage_name tpa_folder rest
          (if success
           then mk_tally (S (success_count t)) (failed_count t)
                         (handed_over t ++ [file])
           else mk_tally (success_count t) (S (failed_count t))
                         (handed_over t ++ [file]))
  end.

(** The Upload to Snowflake button: the counters shown, and whether
    the discovery task is executed afterwards. *)
Definition upload_button (stage_name : string) (tpa_folder : option string)
    (uploaded_files : list uploaded_file) (process_immediately : bool)
    : tally * bool :=
  let t := upload_loop stage_name tpa_folder uploaded_files (mk_tally 0 0 []) in
  (t, andb (Nat.ltb 0 (success_count t)) process_immediately).

End Upload.

End BronzeUpload.

(* ===================================================================== *)
(** ** The header: the TPA selector *)
(* ===================================================================== *)

Module TpaHeader.
Import Py.

(** [tpa_options = {f"{name}": code for code, name in tpa_list}]: a
    name that occurs twice keeps its place and takes the later code. *)
Definition tpa_options (tpa_list : list (string * string)) : Config.dict :=
  fold_left (fun options '(code, name) => Config.set name code options)
            tpa_list [].

(** [list(tpa_options.keys())] and [list(tpa_options.values())]. *)
Definition option_names (tpa_list : list (string * string)) : list string :=
  map fst (tpa_options tpa_list).

Definition option_codes (tpa_list : list (string * string)) : list string :=
  map snd (tpa_options tpa_list).

(** [st.session_state.selected_tpa] after the initialisation: a missing
    key is set to the code of the first TPA. *)
Definition initialise (tpa_list : list (string * string))
    (s : TableSelector.slot) : option string :=
  match s with
  | TableSelector.Missing =>
      match tpa_list with
      | (code, _) :: _ => Some code
      | [] => None
      end
  | TableSelector.Stored v => v
  end.

(** The [index] argument of the select box. *)
Definition default_index (tpa_list : list (string * string))
    (selected_tpa : option string) : nat :=
  match selected_tpa with
  | Some code =>
      if existsb (String.eqb code) (option_codes tpa_list)
      then TableSelector.index code (option_codes tpa_list)
      else 0
  | None => 0
  end.

(** [st.session_state.selected_tpa = tpa_options[selected_tpa_name]]
    for the name the select box returns. *)
Definition selected_tpa (tpa_list : list (string * string))
    (selected_tpa_name : string) : option string :=
  Config.get (tpa_options tpa_list) selected_tpa_name.

End TpaHeader.

(* ===================================================================== *)
(** ** Vocabulary of the properties *)
(* ===================================================================== *)

(** [sub] occurs in [s]. *)
Definition occurs_in (sub s : string) : Prop :=
  exists before after, s = (before ++ sub ++ after)%string.

(** *** Target Table Designer *)

(** The row a soft delete leaves behind: [r] with the active flag
    cleared and the update timestamp moved to [now]. *)
Definition soft_deleted (now : Z) (r : TargetSchemas.row) : TargetSchemas.row :=
  TargetSchemas.mk_row
    (TargetSchemas.schema_id r) (TargetSchemas.table_name r)
    (TargetSchemas.column_name r) (TargetSchemas.data_type r)
    (TargetSchemas.nullable r) (TargetSchemas.default_value r)
    (TargetSchemas.description r) false
    (TargetSchemas.created_timestamp r) now.

(** Two rows carry the same column definition: they agree on everything
    but the active flag and the update timestamp. *)
Definition same_definition (r r' : TargetSchemas.row) : Prop :=
  TargetSchemas.schema_id r' = TargetSchemas.schema_id r
  /\ TargetSchemas.table_name r' = TargetSchemas.table_name r
  /\ TargetSchemas.column_name r' = TargetSchemas.column_name r
  /\ TargetSchemas.data_type r' = TargetSchemas.data_type r
  /\ TargetSchemas.nullable r' = TargetSchemas.nullable r
  /\ TargetSchemas.default_value r' = TargetSchemas.default_value r
  /\ TargetSchemas.description r' = TargetSchemas.description r
  /\ TargetSchemas.created_timestamp r' = TargetSchemas.created_timestamp r.

(** The three statements the Save Changes handler can issue. *)
Inductive save_stmt (edit edited : list Designer.editor_row)
    : TargetSchemas.stmt -> Prop :=
| save_soft_delete i :
    In i (Designer.deleted_ids edit edited) ->
    save_stmt edit edited
      (TargetSchemas.Update
         [TargetSchemas.Active false; TargetSchemas.UpdatedTimestampNow]
         (TargetSchemas.SchemaIdEq i))
| save_insert t c d dv ds :
    save_stmt edit edited
      (TargetSchemas.Insert
         [TargetSchemas.TableName t; TargetSchemas.ColumnName c;
          TargetSchemas.DataType d; TargetSchemas.Nullable true;
          TargetSchemas.DefaultValue dv; TargetSchemas.Description ds;
          TargetSchemas.Active true])
| save_update i c d dv ds :
    In i (Designer.edited_ids edited) ->
    save_stmt edit edited
      (TargetSchemas.Update
         [TargetSchemas.ColumnName c; TargetSchemas.DataType d;
          TargetSchemas.Nullable true; TargetSchemas.DefaultValue dv;
          TargetSchemas.Description ds; TargetSchemas.UpdatedTimestampNow]
         (TargetSchemas.SchemaIdEq i)).

(** [new] keeps every row of [old] in place, changed at most as [R]
    allows, and every row it adds satisfies [Q]. *)
Definition tracks (R : TargetSchemas.row -> TargetSchemas.row -> Prop)
    (Q : TargetSchemas.row -> Prop) (old new : list TargetSchemas.row) : Prop :=
  exists kept added,
    new = kept ++ added /\ Forall2 R old kept /\ Forall Q added.

(** The active column entries of a table. *)
Definition active_columns (t : string) (rows : list TargetSchemas.row)
    : list TargetSchemas.row :=
  filter (TargetSchemas.holds
            (TargetSchemas.CAnd (TargetSchemas.TableNameEq t)
                                (TargetSchemas.ActiveEq true)))
         rows.

(** A standard metadata entry of table [t]. *)
Definition standard_entry (t name type : string) (null : bool)
    (default : option string) (r : TargetSchemas.row) : Prop :=
  TargetSchemas.table_name r = t
  /\ TargetSchemas.column_name r = name
  /\ TargetSchemas.data_type r = type
  /\ TargetSchemas.nullable r = null
  /\ TargetSchemas.default_value r = default
  /\ TargetSchemas.active r = true.


(** A statement respects [R] on stored rows and [Q] on added rows. *)
Definition preserved_by (now : Z)
    (R : TargetSchemas.row -> TargetSchemas.row -> Prop)
    (Q : TargetSchemas.row -> Prop) (q : TargetSchemas.stmt) : Prop :=
  match q with
  | TargetSchemas.Insert cols =>
      forall r0, Q (TargetSchemas.assign_all now cols r0)
  | TargetSchemas.Update sets w =>
      (forall r r', TargetSchemas.holds w r' = true -> R r r' ->
                    R r (TargetSchemas.assign_all now sets r'))
      /\ (forall r', TargetSchemas.holds w r' = true -> Q r' ->
                     Q (TargetSchemas.assign_all now sets r'))
  end.


(** What a Save Changes run may do to the stored row [r] when the editor
    row of id [k] was deleted: nothing touches its id or table; if it is
    the row of id [k], it is left alone or soft-deleted. *)
Definition kept_or_soft_deleted (k now : Z) (r r' : TargetSchemas.row) : Prop :=
  TargetSchemas.schema_id r' = TargetSchemas.schema_id r
  /\ TargetSchemas.table_name r' = TargetSchemas.table_name r
  /\ (TargetSchemas.schema_id r = k -> r' = r \/ r' = soft_deleted now r).

Definition surely_soft_deleted (k now : Z) (r r' : TargetSchemas.row) : Prop :=
  TargetSchemas.schema_id r' = TargetSchemas.schema_id r
  /\ TargetSchemas.table_name r' = TargetSchemas.table_name r
  /\ (TargetSchemas.schema_id r = k -> r' = soft_deleted now r).


(** What a Save Changes run may leave of a stored row: a nullable
    column, or the column definition it found. *)
Definition nullable_or_untouched (r r' : TargetSchemas.row) : Prop :=
  TargetSchemas.nullable r' = true \/ same_definition r r'.

Definition is_nullable (r : TargetSchemas.row) : Prop :=
  TargetSchemas.nullable r = true.

Definition same_id (r r' : TargetSchemas.row) : Prop :=
  TargetSchemas.schema_id r' = TargetSchemas.schema_id r.

Definition same_id_nullable_at (k : Z) (r r' : TargetSchemas.row) : Prop :=
  TargetSchemas.schema_id r' = TargetSchemas.schema_id r
  /\ (TargetSchemas.schema_id r = k -> TargetSchemas.nullable r' = true).


(** *** Field Mapper *)

(** Two mapping stores that differ only in unapproved mappings: the
    same rows in the same order, except that either side may hold
    unapproved rows the other lacks. *)
Inductive same_except_unapproved
    : list FieldMappings.row -> list FieldMappings.row -> Prop :=
| seu_nil : same_except_unapproved [] []
| seu_both r l1 l2 :
    same_except_unapproved l1 l2 ->
    same_except_unapproved (r :: l1) (r :: l2)
| seu_left r l1 l2 :
    FieldMappings.approved r = false ->
    same_except_unapproved l1 l2 ->
    same_except_unapproved (r :: l1) l2
| seu_right r l1 l2 :
    FieldMappings.approved r = false ->
    same_except_unapproved l1 l2 ->
    same_except_unapproved l1 (r :: l2).





(** A statement that keeps [P] on stored rows and gives it to the rows
    it adds. *)
Definition keeps (now : Z) (P : FieldMappings.row -> Prop)
    (q : FieldMappings.stmt) : Prop :=
  match q with
  | FieldMappings.Insert cols =>
      forall r0, P (FieldMappings.assign_all now cols r0)
  | FieldMappings.Update sets _ =>
      forall r, P r -> P (FieldMappings.assign_all now sets r)
  | FieldMappings.Delete _ => True
  end.


(** *** Rules Engine page *)

(** The order the specification asks of a rule listing: priority
    ascending, and among equal priorities the earlier-created first. *)
Definition earlier_created_first (l : list Rules.row) : Prop :=
  forall i j a b,
    (i < j)%nat ->
    nth_error l i = Some a -> nth_error l j = Some b ->
    Rules.priority a <= Rules.priority b
    /\ (Rules.priority a = Rules.priority b ->
        Rules.created_timestamp a <= Rules.created_timestamp b).

(** The order of the All Transformation Rules listing: priority
    ascending, and among equal priorities the later-created first. *)
Definition priority_then_newest (a b : Rules.row) : Prop :=
  Rules.priority a < Rules.priority b
  \/ (Rules.priority a = Rules.priority b
      /\ Rules.created_timestamp b <= Rules.created_timestamp a).

Definition priority_ascending (a b : Rules.row) : Prop :=
  Rules.priority a <= Rules.priority b.

(** *** Field Mapper, the editor *)



(** [r'] is the mapping [r], whatever happened to its approval,
    transformation and description. *)
Definition same_mapping (r r' : FieldMappings.row) : Prop :=
  FieldMappings.mapping_id r' = FieldMappings.mapping_id r
  /\ FieldMappings.source_table r' = FieldMappings.source_table r
  /\ FieldMappings.source_field r' = FieldMappings.source_field r
  /\ FieldMappings.target_table r' = FieldMappings.target_table r
  /\ FieldMappings.target_column r' = FieldMappings.target_column r
  /\ FieldMappings.mapping_method r' = FieldMappings.mapping_method r
  /\ FieldMappings.confidence_score r' = FieldMappings.confidence_score r
  /\ FieldMappings.created_timestamp r' = FieldMappings.created_timestamp r
  /\ FieldMappings.tpa r' = FieldMappings.tpa r.

(** The two statements Save Changes in the mappings editor can issue. *)
Inductive editor_stmt (now : Z) (display_df edited_df : list Mapper.editor_row)
    : FieldMappings.stmt -> Prop :=
| editor_delete i :
    In i (Mapper.deleted_ids display_df edited_df) ->
    editor_stmt now display_df edited_df
      (FieldMappings.Delete (FieldMappings.MappingIdEq i))
| editor_update sets i :
    In i (map Mapper.MAPPING_ID edited_df) ->
    (forall r, same_mapping r (FieldMappings.assign_all now sets r)) ->
    editor_stmt now display_df edited_df
      (FieldMappings.Update sets (FieldMappings.MappingIdEq i)).

(** *** Tables behind [execute_query] *)

Section TableVocabulary.

Context {row assign cond : Type}.
Variable assign1 : assign -> row -> row.
Variable holds : cond -> row -> bool.


(** A statement that removes nothing, changes stored rows at most as
    [R] allows and adds only rows with [Q]. *)
Definition stmt_tracks (R : row -> row -> Prop) (Q : row -> Prop)
    (q : Table.stmt assign cond) : Prop :=
  match q with
  | Table.Insert cols => forall r0, Q (Table.assign_all assign1 cols r0)
  | Table.Update sets w =>
      (forall r r', holds w r' = true -> R r r' ->
                    R r (Table.assign_all assign1 sets r'))
      /\ (forall r', holds w r' = true -> Q r' ->
                     Q (Table.assign_all assign1 sets r'))
  | Table.Delete _ => False
  end.

(** A statement that leaves the rows with [h] alone, and does not move
    a row in or out of [h]. *)
Definition stmt_spares (h : row -> bool) (q : Table.stmt assign cond) : Prop :=
  match q with
  | Table.Insert cols =>
      forall r0, h (Table.assign_all assign1 cols r0) = false
  | Table.Update sets w =>
      (forall r, h r = true -> holds w r = false)
      /\ (forall r, h (Table.assign_all assign1 sets r) = h r)
  | Table.Delete w => forall r, h r = true -> holds w r = false
  end.

(** [new] keeps every row of [old] in place, changed at most as [R]
    allows, and every row it adds satisfies [Q]. *)
Definition table_tracks (R : row -> row -> Prop) (Q : row -> Prop)
    (old new : list row) : Prop :=
  exists kept added,
    new = kept ++ added /\ Forall2 R old kept /\ Forall Q added.

End TableVocabulary.

(** *** Known Mappings *)

(** The known mapping [r] with its active flag cleared. *)
Definition deactivated (r : KnownMappings.row) : KnownMappings.row :=
  KnownMappings.mk_row
    (KnownMappings.mapping_id r) (KnownMappings.source_field r)
    (KnownMappings.target_field r) (KnownMappings.description r) false
    (KnownMappings.created_timestamp r).


Definition deactivated_or_kept (k : Z) (r r' : KnownMappings.row) : Prop :=
  KnownMappings.mapping_id r' = KnownMappings.mapping_id r
  /\ (KnownMappings.mapping_id r = k -> r' = r \/ r' = deactivated r).

Definition surely_deactivated (k : Z) (r r' : KnownMappings.row) : Prop :=
  KnownMappings.mapping_id r' = KnownMappings.mapping_id r
  /\ (KnownMappings.mapping_id r = k -> r' = deactivated r).

(** Field names are stored in upper case. *)
Definition upper_case (s : string) : Prop := Py.upper s = s.


(** The statements Save Changes of the Known Mappings tab can issue. *)
Inductive known_stmt (known_mappings_df edited_df : list KnownPage.editor_row)
    : KnownMappings.stmt -> Prop :=
| known_deactivate i :
    In i (KnownPage.deleted_ids known_mappings_df edited_df) ->
    known_stmt known_mappings_df edited_df
      (Table.Update [KnownMappings.Active false] (KnownMappings.MappingIdEq i))
| known_update s t d a i :
    In i (KnownPage.edited_ids edited_df) ->
    known_stmt known_mappings_df edited_df
      (Table.Update
         [KnownMappings.SourceField (Py.upper s);
          KnownMappings.TargetField (Py.upper t);
          KnownMappings.Description d; KnownMappings.Active a]
         (KnownMappings.MappingIdEq i))
| known_insert s t d :
    known_stmt known_mappings_df edited_df
      (Table.Insert
         [KnownMappings.SourceField (Py.upper s);
          KnownMappings.TargetField (Py.upper t);
          KnownMappings.Description d; KnownMappings.Active true]).

(** *** Prompt Templates and Rules *)

(** A text without a quote: interpolated between quotes unescaped, it
    is read by the engine as the literal of that very text. *)
Definition quote_free (s : string) : Prop := Py.contains "'" s = false.


(** The rule is another one than the rule selected in the Edit tab. *)
Definition other_rule (selected_rule_id : string) (r : RulesTable.row) : bool :=
  negb (String.eqb (Rules.rule_id (RulesTable.rule r)) selected_rule_id).

(** [r'] is the stored rule [r], edited or not. *)
Definition same_rule (r r' : RulesTable.row) : Prop :=
  Rules.rule_id (RulesTable.rule r') = Rules.rule_id (RulesTable.rule r)
  /\ Rules.created_timestamp (RulesTable.rule r')
     = Rules.created_timestamp (RulesTable.rule r).

(** *** Configuration files *)

(** The pairs the lines of a file set, in file order. *)
Definition assignments (rows : list (option string)) : list (string * string) :=
  flat_map (fun row => match row with
                       | Some text => match Config.parse_line text with
                                      | Some kv => [kv]
                                      | None => []
                                      end
                       | None => []
                       end) rows.

(** The value of the last pair that sets [key]. *)
Fixpoint last_value (key : string) (pairs : list (string * string))
    : option string :=
  match pairs with
  | [] => None
  | (k, v) :: rest =>
      match last_value key rest with
      | Some later => Some later
      | None => if String.eqb k key then Some v else None
      end
  end.

(** The stage has nothing to read under this name: the read raises, or
    returns no row. *)
Definition unreadable (read : Py.result (list (option string))) : Prop :=
  match read with
  | Py.Raise _ => True
  | Py.Ok rows => rows = []
  end.

(* ===================================================================== *)
(** *** Interpolated texts *)

(** A text of ASCII characters: on it [Py.upper], [Py.strip] and
    [PyStr.lower] are Python's [str.upper()], [str.strip()] and
    [str.lower()]. *)
Definition ascii_text (s : string) : Prop := PyStr.isascii s = true.

(** A text without a backslash: between quotes the engine finds no
    escape sequence in it. *)
Definition backslash_free (s : string) : Prop :=
  Py.contains (String Sql.backslash EmptyString) s = false.

(** A text that an unescaped interpolation ['{x}'] carries whole: no
    quote ends the literal early and no backslash escapes a
    character. *)
Definition whole_literal (s : string) : Prop :=
  quote_free s /\ backslash_free s.

(** The texts the create-new-table form puts between quotes unescaped
    (lines 585 to 590 of the script). *)
Definition form_texts (f : Designer.new_table_form) : list string :=
  [ Designer.new_table_name f; Designer.first_column_name f;
    Designer.first_data_type f; Designer.first_default_value f;
    Designer.first_description f ].

(** The cells of a row of the column editor that Save Changes puts
    between quotes unescaped (lines 740 to 745 and 776 to 780). *)
Definition editor_row_texts (row : Designer.editor_row) : list string :=
  map Py.cell_str
      [ Designer.Column_Name row; Designer.Data_Type row;
        Designer.Default row; Designer.Description_ row ].

(** The texts of the Add Rule form that reach the statement between
    quotes unescaped (lines 2125 and 2141 to 2149), and those whose
    quotes are doubled first (lines 2131 to 2133). *)
Definition add_rule_unescaped (f : RulesForms.add_rule_form) : list string :=
  [ RulesForms.rule_id f; RulesForms.rule_type f;
    RulesForms.selected_table f; RulesForms.target_column f;
    RulesForms.rule_parameters_ f; RulesForms.error_action f ].

Definition add_rule_escaped (f : RulesForms.add_rule_form) : list string :=
  [ RulesForms.rule_name f; RulesForms.rule_logic f;
    RulesForms.description f ].

(** The same for the Edit Rule form (lines 2299 and 2312 to 2318;
    lines 2305 to 2307). *)
Definition edit_rule_unescaped (f : RulesForms.edit_rule_form) : list string :=
  [ RulesForms.edit_rule_type f; RulesForms.edit_target_table f;
    RulesForms.edit_target_column f; RulesForms.edit_rule_parameters f;
    RulesForms.edit_error_action f ].

Definition edit_rule_escaped (f : RulesForms.edit_rule_form) : list string :=
  [ RulesForms.edit_rule_name f; RulesForms.edit_rule_logic f;
    RulesForms.edit_description f ].

(** The texts of the Add Prompt Template form, all of them with their
    quotes doubled (lines 1566 to 1569). *)
Definition template_texts (f : PromptsPage.add_prompt_template_form)
    : list string :=
  [ PromptsPage.new_template_id f; PromptsPage.new_template_name f;
    PromptsPage.new_template_text f; PromptsPage.new_template_desc f ].



(* ===================================================================== *)
(** *** Target Table Designer: the two claims on what a run leaves *)

(** After Save Changes no edited column is left NOT NULL: a stored row
    whose id is that of an editor row that differs from its original
    is nullable. *)
Definition edited_columns_nullable (edit edited : list Designer.editor_row)
    (stored : list TargetSchemas.row) : Prop :=
  forall row original r',
    In row edited ->
    find (fun o => Py.idcell_eqb (Designer.ID o) (Designer.ID row)) edit
    = Some original ->
    Designer.has_changes original row = true ->
    In r' stored ->
    Py.Id (TargetSchemas.schema_id r') = Designer.ID row ->
    TargetSchemas.nullable r' = true.

(** Whenever a procedure was called, the table [t] had five active
    column entries. *)
Definition five_entries_at_creation (t : string) (st : Designer.run_state)
    : Prop :=
  forall text found outcome,
    In (text, found, outcome) (Designer.calls st) ->
    List.length (active_columns t found) = 5%nat.

(* ===================================================================== *)
(** ** Sample data *)
(* ===================================================================== *)

(** A session that knows one procedure call. *)
Definition sample_call : string :=
  "CALL db.SILVER.sync_table_with_metadata('CUSTOMER')".

Definition sample_collect (text : string) : Py.result (list Session.row_dict) :=
  if String.eqb text sample_call
  then Py.Ok [[("SYNC_TABLE_WITH_METADATA", Py.VStr "Recreated CUSTOMER")]]
  else Py.Raise "SQL compilation error".

(** A table CUSTOMER of two columns, the second of them declared
    NOT NULL, and an engine that accepts every statement. *)
Definition sample_now : Z := 100.

Definition sample_fresh (rows : list TargetSchemas.row) : TargetSchemas.row :=
  TargetSchemas.mk_row (Z.of_nat (List.length rows) + 1)
                       EmptyString EmptyString EmptyString true
                       None None true sample_now sample_now.

Definition sample_accepts (q : TargetSchemas.stmt)
    (rows : list TargetSchemas.row) : option string := None.

Definition customer_id : TargetSchemas.row :=
  TargetSchemas.mk_row 1 "CUSTOMER" "ID" "VARCHAR(50)" true None None
                       true 10 10.

Definition customer_name : TargetSchemas.row :=
  TargetSchemas.mk_row 2 "CUSTOMER" "NAME" "VARCHAR(100)" false None
                       (Some "Full name") true 10 10.

Definition customer_rows : list TargetSchemas.row := [customer_id; customer_name].

(** The editor frame after the user removed the ID row. *)
Definition customer_without_id : list Designer.editor_row :=
  [Designer.editor_row_of customer_name].

(** The editor frame after the user retyped NAME and added a row. *)
Definition customer_edited : list Designer.editor_row :=
  [ Designer.editor_row_of customer_id;
    Designer.mk_editor_row (Py.Id 2) (Py.CText "name") (Py.CText "VARCHAR(200)")
                           Py.CNone (Py.CText "Full name");
    Designer.mk_editor_row Py.IdNaN (Py.CText "email") (Py.CText "VARCHAR(200)")
                           (Py.CText "(None)") Py.CNone ].


(** A create-new-table form. *)
Definition orders_form : Designer.new_table_form :=
  Designer.mk_form "orders" "id" "NUMBER(38,0)" false "(None)" EmptyString.

(** An engine that refuses a statement whose description holds an
    apostrophe, as Snowflake refuses the text the designer spells for
    it: the apostrophe ends the literal, and what follows is no SQL. *)
Definition sample_refuses_apostrophe (q : TargetSchemas.stmt)
    (rows : list TargetSchemas.row) : option string :=
  let broken (a : TargetSchemas.assign) :=
    match a with
    | TargetSchemas.Description (Some d) => Py.contains "'" d
    | _ => false
    end in
  match q with
  | TargetSchemas.Insert cols | TargetSchemas.Update cols _ =>
      if existsb broken cols then Some "SQL compilation error: syntax error"
      else None
  end.

(** The editor frame after the user retyped the description of NAME,
    with an apostrophe. *)
Definition customer_described : list Designer.editor_row :=
  [ Designer.editor_row_of customer_id;
    Designer.mk_editor_row (Py.Id 2) (Py.CText "NAME")
                           (Py.CText "VARCHAR(100)") Py.CNone
                           (Py.CText "Customer's full name") ].

(** The create-new-table form with an apostrophe in the description of
    the first column, and a form that names the table CUSTOMER, which
    has entries already. *)
Definition orders_described : Designer.new_table_form :=
  Designer.mk_form "orders" "id" "NUMBER(38,0)" false "(None)"
                   "The order's number".

Definition customer_again : Designer.new_table_form :=
  Designer.mk_form "customer" "email" "VARCHAR(200)" true "(None)"
                   EmptyString.

(** Two mappings of table CUSTOMER: a pending fuzzy proposal, and a
    manual mapping ALICE approved at time 50. *)
Definition mapping_pending : FieldMappings.row :=
  FieldMappings.mk_row 1 "RAW_DATA_TABLE" "CUST_NAME" "CUSTOMER" "NAME"
    "ML_PATTERN" 0.8 false None None (Some "UPPER(CUST_NAME)") None 10 10 None.

Definition mapping_alice : FieldMappings.row :=
  FieldMappings.mk_row 2 "RAW_DATA_TABLE" "CUST_ID" "CUSTOMER" "ID"
    "MANUAL" 1.0 true (Some "ALICE") (Some 50) None (Some "old") 20 50 None.

Definition mapping_rows : list FieldMappings.row :=
  [mapping_pending; mapping_alice].

Definition mapping_fresh (rows : list FieldMappings.row) : FieldMappings.row :=
  FieldMappings.mk_row (Z.of_nat (List.length rows) + 1)
    EmptyString EmptyString EmptyString EmptyString EmptyString 0
    false None None None None sample_now sample_now None.

Definition mapping_accepts (q : FieldMappings.stmt)
    (rows : list FieldMappings.row) : option string := None.

(** The editor frame after the user removed the pending row and
    retyped the description of the approved one. *)
Definition mappings_edited : list Mapper.editor_row :=
  [Mapper.mk_editor_row (Py.Id 2) (Some true) Py.CNone (Py.CText "new")].

Definition bob : Py.result string := Py.Ok "BOB".

(** A manual entry for a pair the store already holds. *)
Definition manual_form : Mapper.manual_mapping_form :=
  Mapper.mk_form "cust_id" "RAW_DATA_TABLE" "customer" "id"
                 EmptyString EmptyString.

Definition sample_preview (text : string) : list Session.row_dict := [].

(** A transformation run over one Bronze row: values are texts, the
    cast keeps them, the only expression known raises the case, and
    the result lists the mapped columns. *)
Definition sample_source_row : Type := list (string * string).

Definition sample_extract (field : string) (r : sample_source_row) : string :=
  match find (fun kv => String.eqb (fst kv) field) r with
  | Some kv => snd kv
  | None => EmptyString
  end.

Definition sample_cast (table column value : string) : string := value.

Definition sample_evaluate (expression value : string) : string :=
  Py.upper value.

Definition sample_read (source_table source_schema : string) (batch_size : Z)
    : list sample_source_row :=
  [[("CUST_ID", "7"); ("CUST_NAME", "bob")]].

Definition sample_no_mappings (target : string) : string :=
  ("No approved mappings for " ++ target)%string.

Definition sample_finish (target : string) (apply_rules advance_watermark : bool)
    (mapped : list (list (string * string))) : string :=
  (target ++ ": "
   ++ String.concat "; "
        (map (fun r => String.concat ", "
                         (map (fun kv => fst kv ++ "=" ++ snd kv) r))
             mapped))%string.


(** Two active rules of equal priority, created at times 10 and 20. *)
Definition rule_old : Rules.row :=
  Rules.mk_row "R1" "id present" "DATA_QUALITY" (Some "CUSTOMER") (Some "ID")
    "ID IS NOT NULL" 5 "REJECT" true 10 None.

Definition rule_new : Rules.row :=
  Rules.mk_row "R2" "trim name" "STANDARDIZATION" (Some "CUSTOMER")
    (Some "NAME") "TRIM(NAME)" 5 "LOG" true 20 None.


(** Two known mappings, and an engine that accepts every statement. *)
Definition known_dob : KnownMappings.row :=
  KnownMappings.mk_row 1 "DOB" "DATE_OF_BIRTH" None true 10.

Definition known_zip : KnownMappings.row :=
  KnownMappings.mk_row 2 "ZIP" "POSTAL_CODE" (Some "US only") true 20.

Definition known_rows : list KnownMappings.row := [known_dob; known_zip].

Definition known_fresh (rows : list KnownMappings.row) : KnownMappings.row :=
  KnownMappings.mk_row (Z.of_nat (List.length rows) + 1)
                       EmptyString EmptyString None true sample_now.

Definition known_accepts (q : KnownMappings.stmt)
    (rows : list KnownMappings.row) : option string := None.

(** The editor frame after the user removed DOB, retyped ZIP in lower
    case and added a row. *)
Definition known_edited : list KnownPage.editor_row :=
  [ KnownPage.mk_editor_row (Py.Id 2) (Py.CText "zip code")
                            (Py.CText "postal_code") (Py.CText "US only")
                            (Some true);
    KnownPage.mk_editor_row Py.IdNaN (Py.CText "ssn") (Py.CText "tax_id")
                            Py.CNone None ].


(** The default prompt template and a custom one. *)
Definition template_default : PromptTemplates.row :=
  PromptTemplates.mk_row "DEFAULT_FIELD_MAPPING" "Default" "Map {source_fields}"
                         None true 10 10.

Definition template_custom : PromptTemplates.row :=
  PromptTemplates.mk_row "CUSTOM_V1" "Custom" "Match {target_columns}"
                         None true 20 20.

Definition template_rows : list PromptTemplates.row :=
  [template_default; template_custom].

Definition template_fresh (rows : list PromptTemplates.row)
    : PromptTemplates.row :=
  PromptTemplates.mk_row EmptyString EmptyString EmptyString None true
                         sample_now sample_now.

Definition template_accepts (q : PromptTemplates.stmt)
    (rows : list PromptTemplates.row) : option string := None.

Definition template_form : PromptsPage.add_prompt_template_form :=
  PromptsPage.mk_add_form "custom mapping v2" "Custom 2" "Map it" EmptyString.

(** The stored rules, a JSON reader that accepts the empty object only,
    and an Add Rule form with the target table left blank. *)
Definition stored_rules : list RulesTable.row :=
  [ RulesTable.mk_row rule_old None 10; RulesTable.mk_row rule_new None 20 ].

Definition rule_fresh (rows : list RulesTable.row) : RulesTable.row :=
  RulesTable.mk_row
    (Rules.mk_row EmptyString EmptyString EmptyString None None EmptyString
                  100 "LOG" true sample_now None)
    None sample_now.

Definition rule_accepts (q : RulesTable.stmt) (rows : list RulesTable.row)
    : option string := None.

Definition sample_json_loads (text : string) : Py.result unit :=
  if String.eqb text "{}" then Py.Ok tt
  else Py.Raise "Expecting value".

Definition global_rule_form : RulesForms.add_rule_form :=
  RulesForms.mk_add_form "std001" "Trim everything" "STANDARDIZATION"
                         EmptyString EmptyString "TRIM" 100 "LOG" true
                         EmptyString "{}".

Definition rule_edit_form : RulesForms.edit_rule_form :=
  RulesForms.mk_edit_form "id present" "DATA_QUALITY" "customer" "id"
                          "ID IS NOT NULL" 1 "REJECT" false EmptyString
                          "None".

(** A session in which every procedure call fails. *)
Definition failing_collect (text : string) : Py.result (list Session.row_dict) :=
  Py.Raise "SQL access control error".

Definition designer_state : TableSelector.session_state :=
  TableSelector.mk_state (TableSelector.Stored (Some "CUSTOMER")) ["CUSTOMER"].

(** A stage that holds a custom.config of three lines, and a stage
    that holds nothing. *)
Definition custom_config : list (option string) :=
  [ Some "# deployment settings";
    Some "DATABASE_NAME = analytics";
    Some "SILVER_SCHEMA_NAME=CURATED" ].

Definition sample_stage (database config_file : string)
    : Py.result (list (option string)) :=
  if String.eqb config_file "custom.config" then Py.Ok custom_config
  else Py.Raise "File not found".

Definition empty_stage (database config_file : string)
    : Py.result (list (option string)) :=
  Py.Raise "Stage does not exist".

(** An uploaded spreadsheet, and a stage that takes every file. *)
Definition claims_file : BronzeUpload.uploaded_file :=
  BronzeUpload.mk_file "claims_2024.CSV" 2048.

Definition sample_put (file : BronzeUpload.uploaded_file) (stage_path : string)
    : Py.result (list string) := Py.Ok ["UPLOADED"].

(** Two TPAs, as (code, name). *)
Definition tpa_list_sample : list (string * string) :=
  [("ACME", "Acme Health"); ("BETA", "Beta Benefits")].

(* ===================================================================== *)
(** ** SQL text: a literal with doubled quotes reads back as written *)
(* ===================================================================== *)

Lemma literal_double_quotes (x : string) :
  Sql.literal (Sql.double_quotes x) = x.
Proof.
  induction x as [|c rest IH]; cbn [Sql.double_quotes]; [reflexivity|].
  destruct (Ascii.eqb c "'") eqn:Hc.
  - apply Ascii.eqb_eq in Hc. subst c. cbn. now rewrite IH.
  - cbn [Sql.literal]. rewrite Hc. now rewrite IH.
Qed.

Lemma escaped_id (x : string) : Mapper.escaped x = x.
Proof. apply literal_double_quotes. Qed.

Lemma contains_char_cons (a c : ascii) (rest : string) :
  Py.contains (String a EmptyString) (String c rest)
  = orb (Ascii.eqb c a) (Py.contains (String a EmptyString) rest).
Proof.
  cbn [Py.contains String.prefix].
  destruct (ascii_dec a c) as [->|Hne].
  - rewrite Ascii.eqb_refl. now destruct rest.
  - destruct (Ascii.eqb_spec c a) as [->|_]; [contradiction|reflexivity].
Qed.

Lemma literal_quote_free (s : string) : quote_free s -> Sql.literal s = s.
Proof.
  unfold quote_free. induction s as [|c rest IH]; [reflexivity|].
  rewrite contains_char_cons. intros H. apply orb_false_iff in H.
  destruct H as [Hc Hrest]. cbn [Sql.literal]. rewrite Hc.
  now rewrite (IH Hrest).
Qed.

Lemma upper_char_quote (c : ascii) :
  Ascii.eqb (Py.upper_char c) "'" = Ascii.eqb c "'".
Proof. destruct c as [[] [] [] [] [] [] [] []]; reflexivity. Qed.

Lemma quote_free_upper (s : string) : quote_free s -> quote_free (Py.upper s).
Proof.
  unfold quote_free. induction s as [|c rest IH]; [reflexivity|].
  cbn [Py.upper]. rewrite !contains_char_cons, upper_char_quote.
  intros H. apply orb_false_iff in H. destruct H as [Hc Hrest].
  now rewrite Hc, (IH Hrest).
Qed.

(** A text without quote is stored in upper case as it reads. *)
Lemma literal_upper (s : string) :
  quote_free s -> Sql.literal (Py.upper s) = Py.upper s.
Proof. intros H. apply literal_quote_free. now apply quote_free_upper. Qed.

(* ===================================================================== *)
(** ** Session wrappers: outcome strings *)
(* ===================================================================== *)

Lemma prefix_iff (sub s : string) :
  String.prefix sub s = true <-> exists rest, s = (sub ++ rest)%string.
Proof.
  revert s. induction sub as [|a sub IH]; intros s.
  - destruct s; simpl; split; intros; eauto.
  - destruct s as [|b s]; simpl.
    + split; [discriminate | intros [rest H]; discriminate].
    + destruct (ascii_dec a b) as [Hab|Hab].
      * subst b. rewrite IH. split; intros [rest H]; exists rest.
        -- now rewrite H.
        -- now inversion H.
      * split; [discriminate | intros [rest H]; inversion H; congruence].
Qed.

Lemma occurs_at_head (sub s : string) :
  String.prefix sub s = true -> occurs_in sub s.
Proof.
  intros Hp. apply prefix_iff in Hp. destruct Hp as [rest H].
  exists EmptyString, rest. exact H.
Qed.

Lemma contains_iff (sub s : string) :
  Py.contains sub s = true <-> occurs_in sub s.
Proof.
  induction s as [|c s IH]; cbn [Py.contains];
    destruct (String.prefix sub _) eqn:Hp.
  - split; [intros _; now apply occurs_at_head | reflexivity].
  - split; [discriminate |].
    intros (before & after & H).
    destruct before; cbn [append] in H; [|discriminate].
    assert (String.prefix sub EmptyString = true) by (apply prefix_iff; eauto).
    congruence.
  - split; [intros _; now apply occurs_at_head | reflexivity].
  - rewrite IH. split.
    + intros (before & after & H). exists (String c before), after.
      cbn [append]. now rewrite H.
    + intros (before & after & H). destruct before as [|d before].
      * cbn [append] in H.
        assert (String.prefix sub (String c s) = true)
          by (apply prefix_iff; eauto).
        congruence.
      * cbn [append] in H. inversion H. exists before, after. reflexivity.
Qed.

(** C7. The designer shows the success banner after
    [sync_table_with_metadata] exactly when the outcome string contains
    "Successfully" or contains "Recreated"; every other outcome string
    gets the warning banner. *)
Theorem sync_outcome_classification (outcome : string) :
  (Session.classify_sync outcome = Session.Success <->
   occurs_in "Successfully" outcome \/ occurs_in "Recreated" outcome)
  /\ (Session.classify_sync outcome = Session.Warning <->
      ~ (occurs_in "Successfully" outcome \/ occurs_in "Recreated" outcome)).
Proof.
  unfold Session.classify_sync.
  rewrite <- !contains_iff, <- orb_true_iff.
  destruct (orb _ _); split; split; intros H;
    solve [reflexivity | discriminate | congruence].
Qed.

(** C8. [execute_procedure] always yields a string: the text of the
    first value of the first row, the fixed success text when no row
    comes back, and ["Error: "] followed by the message for whatever
    exception the call or the reading of its result raises. *)
Theorem execute_procedure_outcome
    (collect : string -> Py.result (list Session.row_dict))
    (proc_call : string) :
  (forall msg, collect proc_call = Py.Raise msg ->
     Session.execute_procedure collect proc_call = ("Error: " ++ msg)%string)
  /\ (collect proc_call = Py.Ok [] ->
      Session.execute_procedure collect proc_call
      = "Procedure executed successfully")
  /\ (forall r0 rest v vs,
        collect proc_call = Py.Ok (r0 :: rest) ->
        Session.values r0 = v :: vs ->
        Session.execute_procedure collect proc_call = Py.str v)
  /\ (forall msg,
        Session.execute_procedure_try collect proc_call = Py.Raise msg ->
        Session.execute_procedure collect proc_call = ("Error: " ++ msg)%string)
  /\ (forall s,
        Session.execute_procedure_try collect proc_call = Py.Ok s ->
        Session.execute_procedure collect proc_call = s).
Proof.
  unfold Session.execute_procedure, Session.execute_procedure_try.
  repeat split.
  - intros msg H. now rewrite H.
  - intros H. now rewrite H.
  - intros r0 rest v vs H Hv. rewrite H. simpl. now rewrite Hv.
  - intros msg H. now rewrite H.
  - intros s H. now rewrite H.
Qed.

Lemma execute_procedure_outcome_witness :
  Session.execute_procedure sample_collect sample_call = "Recreated CUSTOMER"
  /\ Session.execute_procedure sample_collect "CALL nothing()"
     = "Error: SQL compilation error".
Proof.
  split.
  - apply (proj1 (proj2 (proj2
             (execute_procedure_outcome sample_collect sample_call)))
             [("SYNC_TABLE_WITH_METADATA", Py.VStr "Recreated CUSTOMER")] []
             (Py.VStr "Recreated CUSTOMER") []); reflexivity.
  - apply (proj1 (execute_procedure_outcome sample_collect "CALL nothing()")).
    reflexivity.
Defined.

(* ===================================================================== *)
(** ** Target Table Designer: what a handler run does to the metadata *)
(* ===================================================================== *)

Section DesignerFacts.
Import TargetSchemas.
Import Designer.

Variable DB_SILVER : string.
Variable now : Z.
Variable fresh : list row -> row.
Variable engine_error : stmt -> list row -> option string.
Variable collect : string -> Py.result (list Session.row_dict).

Lemma id_in_iff (k : Z) (ids : list Py.idcell) :
  Py.id_in (Py.Id k) ids = true <-> In (Py.Id k) ids.
Proof.
  unfold Py.id_in. rewrite existsb_exists. split.
  - intros [x [Hin Heq]]. destruct x as [|z]; simpl in Heq; [discriminate|].
    apply Z.eqb_eq in Heq. now subst.
  - intros Hin. exists (Py.Id k). split; [assumption | apply Z.eqb_refl].
Qed.

Lemma deleted_not_edited (edit edited : list editor_row) (k : Z) :
  In (Py.Id k) (deleted_ids edit edited) -> ~ In (Py.Id k) (edited_ids edited).
Proof.
  unfold deleted_ids. rewrite filter_In. intros [_ H] Hin.
  apply id_in_iff in Hin. rewrite Hin in H. discriminate.
Qed.

Lemma save_row_stmts (selected : string) (edit edited : list editor_row)
    (row : editor_row) (qs : list stmt) :
  In row edited ->
  save_row selected edit row = Py.Ok qs ->
  Forall (save_stmt edit edited) qs.
Proof.
  intros Hin. unfold save_row.
  destruct (orb _ _).
  - destruct (andb _ _); intros H; inversion H; subst; repeat constructor.
  - destruct (find _ edit) as [original_row|]; [|intros H; inversion H; constructor].
    destruct (has_changes original_row row); [|intros H; inversion H; constructor].
    destruct (Py.cell_upper (Column_Name row)) as [name|msg]; simpl;
      intros H; inversion H; subst.
    repeat constructor. unfold edited_ids. now apply in_map.
Qed.

Lemma save_rows_stmts (selected : string) (edit edited part : list editor_row) :
  incl part edited ->
  Forall (save_stmt edit edited) (fst (save_rows selected edit part)).
Proof.
  induction part as [|row rest IH]; intros Hincl; simpl; [constructor|].
  destruct (save_row selected edit row) as [qs|msg] eqn:Hrow; [|constructor].
  destruct (save_rows selected edit rest) as [more exn] eqn:Hrest. simpl.
  apply Forall_app. split.
  - eapply save_row_stmts; [|exact Hrow]. apply Hincl. now left.
  - simpl in IH. apply IH. intros x Hx. apply Hincl. now right.
Qed.

Lemma delete_stmts (edit edited : list editor_row) :
  Forall (save_stmt edit edited)
         (map delete_query (deleted_ids edit edited)).
Proof.
  apply Forall_forall. intros q Hq. apply in_map_iff in Hq.
  destruct Hq as [i [<- Hi]]. now constructor.
Qed.

(** Every statement of a Save Changes run is one of the three. *)
Lemma save_changes_stmts (selected : string) (edit edited : list editor_row)
    (q : stmt) :
  In (Query q) (save_changes DB_SILVER selected edit edited) ->
  save_stmt edit edited q.
Proof.
  unfold save_changes.
  pose proof (save_rows_stmts selected edit edited edited (incl_refl _)) as Hrows.
  pose proof (delete_stmts edit edited) as Hdel.
  destruct (save_rows selected edit edited) as [changes exn]. simpl in Hrows.
  assert (Hall : Forall (save_stmt edit edited)
                        (map delete_query (deleted_ids edit edited)
                         ++ changes))
    by (apply Forall_app; split; assumption).
  assert (Hq : In (Query q)
                  (map Query (map delete_query (deleted_ids edit edited)
                              ++ changes)) -> save_stmt edit edited q).
  { intros Hin. apply in_map_iff in Hin. destruct Hin as [q' [Heq Hin]].
    inversion Heq; subst. rewrite Forall_forall in Hall. now apply Hall. }
  destruct exn; [exact Hq|].
  destruct (Py.truthy_list _); [|exact Hq].
  intros Hin. apply in_app_or in Hin. destruct Hin as [Hin|[Hin|[]]].
  - now apply Hq.
  - discriminate.
Qed.

(** The soft delete of a deleted editor row is among them. *)
Lemma save_changes_soft_delete (selected : string)
    (edit edited : list editor_row) (k : Z) :
  In (Py.Id k) (deleted_ids edit edited) ->
  In (Query (Update [Active false; UpdatedTimestampNow]
                    (SchemaIdEq (Py.Id k))))
     (save_changes DB_SILVER selected edit edited).
Proof.
  intros Hk. unfold save_changes.
  destruct (save_rows selected edit edited) as [changes exn].
  assert (Hin : In (Query (Update [Active false; UpdatedTimestampNow]
                                  (SchemaIdEq (Py.Id k))))
                   (map Query (map delete_query (deleted_ids edit edited)
                               ++ changes))).
  { apply in_map. apply in_or_app. left.
    apply (in_map delete_query _ _ Hk). }
  destruct exn; [exact Hin|].
  destruct (Py.truthy_list _); [|exact Hin].
  apply in_or_app. now left.
Qed.

Lemma Forall2_map_r (R : row -> row -> Prop) (f : row -> row)
    (old kept : list row) :
  (forall r r', R r r' -> R r (f r')) ->
  Forall2 R old kept -> Forall2 R old (map f kept).
Proof.
  intros Hf H. induction H; simpl; constructor; auto.
Qed.

Lemma tracks_refl (R : row -> row -> Prop) (Q : row -> Prop) (rows : list row) :
  (forall r, R r r) -> tracks R Q rows rows.
Proof.
  intros Hr. exists rows, []. rewrite app_nil_r. repeat split.
  - induction rows; constructor; auto.
  - constructor.
Qed.

Lemma tracks_exec (R : row -> row -> Prop) (Q : row -> Prop) (q : stmt)
    (old new : list row) :
  preserved_by now R Q q ->
  tracks R Q old new -> tracks R Q old (exec now fresh q new).
Proof.
  intros Hq (kept & added & -> & HR & HQ). destruct q as [cols|sets w]; simpl.
  - exists kept, (added ++ [assign_all now cols (fresh (kept ++ added))]).
    rewrite app_assoc. repeat split; [assumption|].
    apply Forall_app. split; [assumption|]. constructor; [apply Hq | constructor].
  - destruct Hq as [HqR HqQ]. rewrite map_app.
    eexists _, _. repeat split.
    + apply Forall2_map_r; [|exact HR].
      intros r r' Hrr'. destruct (holds w r') eqn:Hw; auto.
    + apply Forall_forall. intros x Hx. apply in_map_iff in Hx.
      destruct Hx as [r' [<- Hin]]. rewrite Forall_forall in HQ.
      destruct (holds w r') eqn:Hw; auto.
Qed.

Lemma tracks_execute (R : row -> row -> Prop) (Q : row -> Prop) (q : stmt)
    (old new : list row) :
  preserved_by now R Q q ->
  tracks R Q old new ->
  tracks R Q old (execute_query now fresh engine_error q new).
Proof.
  intros Hq Ht. unfold execute_query.
  destruct (engine_error q new); [assumption | now apply tracks_exec].
Qed.

Lemma tracks_fold (R : row -> row -> Prop) (Q : row -> Prop) (ops : list op)
    (old : list row) (st : run_state) :
  (forall q, In (Query q) ops -> preserved_by now R Q q) ->
  tracks R Q old (metadata st) ->
  tracks R Q old
    (metadata (fold_left (step now fresh engine_error collect) ops st)).
Proof.
  revert st. induction ops as [|o ops IH]; intros st Hops Ht; simpl; [assumption|].
  apply IH.
  - intros q Hq. apply Hops. now right.
  - destruct o as [q|text]; simpl; [|assumption].
    apply tracks_execute; [|assumption]. apply Hops. now left.
Qed.

(** A statement the engine accepts moves the run from [R] to the
    stronger [R']; the statements after it keep [R']. *)
Lemma tracks_fold_from (R R' : row -> row -> Prop) (Q : row -> Prop)
    (ops : list op) (q : stmt) (old : list row) (st : run_state) :
  In (Query q) ops ->
  (forall q', In (Query q') ops -> preserved_by now R Q q') ->
  (forall q', In (Query q') ops -> preserved_by now R' Q q') ->
  (forall rows, engine_error q rows = None) ->
  (forall new, tracks R Q old new -> tracks R' Q old (exec now fresh q new)) ->
  tracks R Q old (metadata st) ->
  tracks R' Q old
    (metadata (fold_left (step now fresh engine_error collect) ops st)).
Proof.
  intros Hin HR HR' Hok Hest Ht.
  apply in_split in Hin. destruct Hin as (l1 & l2 & ->).
  rewrite fold_left_app. simpl. apply tracks_fold.
  - intros q' Hq'. apply HR'. apply in_or_app. right. now right.
  - unfold execute_query. rewrite Hok. apply Hest. apply tracks_fold; [|assumption].
    intros q' Hq'. apply HR. apply in_or_app. now left.
Qed.

Lemma Forall2_nth_error (R : row -> row -> Prop) (old kept : list row)
    (i : nat) (r : row) :
  Forall2 R old kept -> nth_error old i = Some r ->
  exists r', nth_error kept i = Some r' /\ R r r'.
Proof.
  intros H. revert i. induction H as [|a b l l' Hab H IH]; intros i Hi.
  - destruct i; discriminate.
  - destruct i as [|i]; simpl in *.
    + inversion Hi; subst. eauto.
    + now apply IH.
Qed.

Lemma tracks_nth_error (R : row -> row -> Prop) (Q : row -> Prop)
    (old new : list row) (i : nat) (r : row) :
  tracks R Q old new -> nth_error old i = Some r ->
  exists r', nth_error new i = Some r' /\ R r r'.
Proof.
  intros (kept & added & -> & HR & _) Hi.
  destruct (Forall2_nth_error R old kept i r HR Hi) as [r' [Hr' HRr]].
  exists r'. split; [|assumption].
  rewrite nth_error_app1; [assumption|].
  apply nth_error_Some. congruence.
Qed.

Lemma tracks_length (R : row -> row -> Prop) (Q : row -> Prop)
    (old new : list row) :
  tracks R Q old new -> (List.length old <= List.length new)%nat.
Proof.
  intros (kept & added & -> & HR & _).
  apply Forall2_length in HR. rewrite length_app. lia.
Qed.

Lemma tracks_all (R : row -> row -> Prop) (Q : row -> Prop)
    (old new : list row) (i : nat) (r' : row) :
  tracks R Q old new -> nth_error new i = Some r' ->
  (exists r, nth_error old i = Some r /\ R r r') \/ Q r'.
Proof.
  intros (kept & added & -> & HR & HQ) Hi.
  destruct (Nat.lt_ge_cases i (List.length kept)) as [Hlt|Hge].
  - left. rewrite nth_error_app1 in Hi by assumption.
    assert (Hold : (i < List.length old)%nat)
      by (rewrite (Forall2_length HR); assumption).
    apply nth_error_Some in Hold.
    destruct (nth_error old i) as [r|] eqn:Hr; [|contradiction].
    destruct (Forall2_nth_error R old kept i r HR Hr) as [r'' [Hr'' HRr]].
    exists r. split; [reflexivity|]. congruence.
  - right. rewrite nth_error_app2 in Hi by assumption.
    apply nth_error_In in Hi. rewrite Forall_forall in HQ. now apply HQ.
Qed.


Lemma soft_delete_assign (r : row) :
  assign_all now [Active false; UpdatedTimestampNow] r = soft_deleted now r.
Proof. reflexivity. Qed.

Lemma soft_deleted_twice (r : row) :
  soft_deleted now (soft_deleted now r) = soft_deleted now r.
Proof. reflexivity. Qed.

Lemma holds_schema_id (i : Py.idcell) (r : row) :
  holds (SchemaIdEq i) r = true -> i = Py.Id (schema_id r).
Proof.
  cbn [holds]. destruct i as [|k]; cbn [Py.idcell_eqb]; [discriminate|].
  intros H. apply Z.eqb_eq in H. now subst.
Qed.

Lemma save_stmt_keeps (edit edited : list editor_row) (k : Z) (q : stmt) :
  In (Py.Id k) (deleted_ids edit edited) ->
  save_stmt edit edited q ->
  preserved_by now (kept_or_soft_deleted k now) (fun _ => True) q.
Proof.
  intros Hk Hq.
  destruct Hq as [k' Hk'|t c d dv ds|k' c d dv ds Hk']; cbn [preserved_by].
  - split; [|trivial]. intros r r' Hw (Hid & Htab & Hrow).
    rewrite soft_delete_assign. repeat split; try assumption.
    intros Hr. right. destruct (Hrow Hr) as [->| ->]; reflexivity.
  - trivial.
  - split; [|trivial]. intros r r' Hw (Hid & Htab & Hrow).
    apply holds_schema_id in Hw. repeat split; try assumption.
    intros Hr. exfalso. apply (deleted_not_edited edit edited k Hk).
    replace (Py.Id k) with k'; [assumption|]. subst k'. f_equal. congruence.
Qed.

Lemma save_stmt_keeps_soft (edit edited : list editor_row) (k : Z) (q : stmt) :
  In (Py.Id k) (deleted_ids edit edited) ->
  save_stmt edit edited q ->
  preserved_by now (surely_soft_deleted k now) (fun _ => True) q.
Proof.
  intros Hk Hq.
  destruct Hq as [k' Hk'|t c d dv ds|k' c d dv ds Hk']; cbn [preserved_by].
  - split; [|trivial]. intros r r' Hw (Hid & Htab & Hrow).
    rewrite soft_delete_assign. repeat split; try assumption.
    intros Hr. rewrite (Hrow Hr). reflexivity.
  - trivial.
  - split; [|trivial]. intros r r' Hw (Hid & Htab & Hrow).
    apply holds_schema_id in Hw. repeat split; try assumption.
    intros Hr. exfalso. apply (deleted_not_edited edit edited k Hk).
    replace (Py.Id k) with k'; [assumption|]. subst k'. f_equal. congruence.
Qed.

Lemma soft_delete_establishes (k : Z) (old new : list row) :
  tracks (kept_or_soft_deleted k now) (fun _ => True) old new ->
  tracks (surely_soft_deleted k now) (fun _ => True) old
         (exec now fresh (Update [Active false; UpdatedTimestampNow]
                                 (SchemaIdEq (Py.Id k))) new).
Proof.
  intros (kept & added & -> & HR & HQ). cbn [exec]. rewrite map_app.
  eexists _, _. repeat split.
  - clear HQ.
    induction HR as [|r r' l l' (Hid & Htab & Hrow) HR IH]; cbn [map];
      constructor; [|assumption].
    cbn [holds Py.idcell_eqb].
    destruct (Z.eqb_spec (schema_id r') k) as [Heq|Hne].
    + rewrite soft_delete_assign. repeat split; try assumption.
      intros Hr. destruct (Hrow Hr) as [->| ->]; reflexivity.
    + repeat split; try assumption. intros Hr. congruence.
  - apply Forall_forall. trivial.
Qed.

(** C6. Removing a column in the designer removes no row from
    [target_schemas].  Over the whole Save Changes run every stored row
    stays at its place with its id and table name; the row of the
    deleted column keeps table name, column name, type, nullability,
    default, description and creation time, and differs from what it
    was at most in the active flag, now FALSE, and the update
    timestamp.  The statement issued for the deletion changes the rows
    of that id in this way and no other row. *)
Theorem soft_delete_keeps_row (selected : string)
    (edit edited : list editor_row) (rows : list row) (k : Z) :
  In (Py.Id k) (deleted_ids edit edited) ->
  (List.length rows
   <= List.length (saved DB_SILVER now fresh engine_error collect
                         selected edit edited rows))%nat
  /\ (forall i r, nth_error rows i = Some r ->
        exists r',
          nth_error (saved DB_SILVER now fresh engine_error collect
                           selected edit edited rows) i = Some r'
          /\ schema_id r' = schema_id r /\ table_name r' = table_name r)
  /\ (forall i r, nth_error rows i = Some r -> schema_id r = k ->
        nth_error (saved DB_SILVER now fresh engine_error collect
                         selected edit edited rows) i = Some r
        \/ nth_error (saved DB_SILVER now fresh engine_error collect
                            selected edit edited rows) i
           = Some (soft_deleted now r))
  /\ ((forall q d, engine_error q d = None) ->
      forall i r, nth_error rows i = Some r -> schema_id r = k ->
        nth_error (saved DB_SILVER now fresh engine_error collect
                         selected edit edited rows) i
        = Some (soft_deleted now r))
  /\ (execute_query now fresh engine_error (delete_query (Py.Id k)) rows = rows
      \/ execute_query now fresh engine_error (delete_query (Py.Id k)) rows
         = map (fun r => if Z.eqb (schema_id r) k then soft_deleted now r
                         else r) rows).
Proof.
  intros Hk. unfold saved, run.
  assert (Hweak : tracks (kept_or_soft_deleted k now) (fun _ => True) rows
            (metadata (fold_left (step now fresh engine_error collect)
                         (save_changes DB_SILVER selected edit edited)
                         (mk_state rows [])))).
  { apply tracks_fold.
    - intros q Hq. eapply save_stmt_keeps; [exact Hk|].
      eapply save_changes_stmts; exact Hq.
    - apply tracks_refl. intros r. repeat split. now left. }
  repeat split.
  - eapply tracks_length; exact Hweak.
  - intros i r Hi.
    destruct (tracks_nth_error _ _ _ _ i r Hweak Hi) as [r' [Hr' (Hid & Htab & _)]].
    eauto.
  - intros i r Hi Hr.
    destruct (tracks_nth_error _ _ _ _ i r Hweak Hi) as [r' [Hr' (_ & _ & Hrow)]].
    destruct (Hrow Hr) as [->| ->]; [now left | now right].
  - intros Hok i r Hi Hr.
    assert (Hstrong : tracks (surely_soft_deleted k now) (fun _ => True) rows
              (metadata (fold_left (step now fresh engine_error collect)
                           (save_changes DB_SILVER selected edit edited)
                           (mk_state rows [])))).
    { eapply tracks_fold_from
        with (R := kept_or_soft_deleted k now)
             (q := Update [Active false; UpdatedTimestampNow]
                          (SchemaIdEq (Py.Id k))).
      - now apply save_changes_soft_delete.
      - intros q Hq. eapply save_stmt_keeps; [exact Hk|].
        eapply save_changes_stmts; exact Hq.
      - intros q Hq. eapply save_stmt_keeps_soft; [exact Hk|].
        eapply save_changes_stmts; exact Hq.
      - intros d. apply Hok.
      - apply soft_delete_establishes.
      - apply tracks_refl. intros r0. repeat split. now left. }
    destruct (tracks_nth_error _ _ _ _ i r Hstrong Hi) as [r' [Hr' (_ & _ & Hrow)]].
    rewrite Hr'. f_equal. now apply Hrow.
  - unfold execute_query.
    destruct (engine_error _ rows); [left | right]; reflexivity.
Qed.

Lemma save_stmt_nullable (edit edited : list editor_row) (q : stmt) :
  save_stmt edit edited q ->
  preserved_by now nullable_or_untouched is_nullable q.
Proof.
  intros Hq.
  destruct Hq as [k' Hk'|t c d dv ds|k' c d dv ds Hk']; cbn [preserved_by].
  - split.
    + intros r r' _ [Hn|Hsame]; rewrite soft_delete_assign.
      * left. exact Hn.
      * right. unfold same_definition in *. simpl. exact Hsame.
    + intros r' _ Hn. rewrite soft_delete_assign. exact Hn.
  - intros r0. reflexivity.
  - split.
    + intros r r' _ _. left. reflexivity.
    + intros r' _ _. reflexivity.
Qed.

Lemma save_stmt_same_id (edit edited : list editor_row) (q : stmt) :
  save_stmt edit edited q -> preserved_by now same_id is_nullable q.
Proof.
  intros Hq.
  destruct Hq as [k' Hk'|t c d dv ds|k' c d dv ds Hk']; cbn [preserved_by].
  - split; [intros r r' _ H; exact H | intros r' _ H; exact H].
  - intros r0. reflexivity.
  - split; [intros r r' _ H; exact H | intros r' _ _; reflexivity].
Qed.

Lemma save_stmt_nullable_at (edit edited : list editor_row) (k : Z) (q : stmt) :
  save_stmt edit edited q ->
  preserved_by now (same_id_nullable_at k) is_nullable q.
Proof.
  intros Hq.
  destruct Hq as [k' Hk'|t c d dv ds|k' c d dv ds Hk']; cbn [preserved_by].
  - split; [intros r r' _ H; exact H | intros r' _ H; exact H].
  - intros r0. reflexivity.
  - split; [|intros r' _ _; reflexivity].
    intros r r' _ [Hid _]. split; [exact Hid | intros _; reflexivity].
Qed.

Lemma edit_establishes (k : Z) (c d : string) (dv ds : option string)
    (old new : list row) :
  tracks same_id is_nullable old new ->
  tracks (same_id_nullable_at k) is_nullable old
         (exec now fresh
               (Update [ColumnName c; DataType d; Nullable true;
                        DefaultValue dv; Description ds; UpdatedTimestampNow]
                       (SchemaIdEq (Py.Id k))) new).
Proof.
  intros (kept & added & -> & HR & HQ). cbn [exec]. rewrite map_app.
  eexists _, _. repeat split.
  - clear HQ.
    induction HR as [|r r' l l' Hid HR IH]; cbn [map]; constructor;
      [|assumption].
    cbn [holds Py.idcell_eqb].
    destruct (Z.eqb_spec (schema_id r') k) as [Heq|Hne].
    + split; [exact Hid | intros _; reflexivity].
    + split; [exact Hid | intros Hr; unfold same_id in Hid; congruence].
  - apply Forall_forall. intros x Hx. apply in_map_iff in Hx.
    destruct Hx as [r' [<- Hin]]. rewrite Forall_forall in HQ.
    destruct (holds (SchemaIdEq (Py.Id k)) r'); [reflexivity | now apply HQ].
Qed.

Lemma find_original (edit : list editor_row) (row original : editor_row) :
  find (fun o => Py.idcell_eqb (ID o) (ID row)) edit = Some original ->
  exists k, ID row = Py.Id k
            /\ Py.id_in (Py.Id k) (original_ids edit) = true.
Proof.
  intros Hfind. apply find_some in Hfind. destruct Hfind as [Hin Heq].
  destruct (ID original) as [|o] eqn:Ho; [discriminate|].
  destruct (ID row) as [|k]; [discriminate|].
  cbn [Py.idcell_eqb] in Heq. apply Z.eqb_eq in Heq. subst o.
  exists k. split; [reflexivity|]. apply id_in_iff.
  unfold original_ids. rewrite <- Ho. now apply in_map.
Qed.

(** A loop that runs to its end has issued the statements of every
    row of the frame. *)
Lemma save_rows_issued (selected : string) (edit edited : list editor_row)
    (row : editor_row) :
  snd (save_rows selected edit edited) = None ->
  In row edited ->
  exists qs, save_row selected edit row = Py.Ok qs
             /\ incl qs (fst (save_rows selected edit edited)).
Proof.
  induction edited as [|x rest IH]; intros Hend Hin; [contradiction|].
  cbn [save_rows] in Hend |- *.
  destruct (save_row selected edit x) as [qs|msg] eqn:Hx; [|discriminate].
  destruct (save_rows selected edit rest) as [more exn]. cbn [fst snd] in *.
  destruct Hin as [->|Hin].
  - exists qs. split; [exact Hx|]. apply incl_appl, incl_refl.
  - destruct (IH Hend Hin) as (qs' & Hrow & Hincl).
    exists qs'. split; [exact Hrow|]. now apply incl_appr.
Qed.

Lemma save_changes_issues (selected : string) (edit edited : list editor_row)
    (q : stmt) :
  In q (fst (save_rows selected edit edited)) ->
  In (Query q) (save_changes DB_SILVER selected edit edited).
Proof.
  intros Hq. unfold save_changes.
  destruct (save_rows selected edit edited) as [changes exn].
  cbn [fst] in Hq.
  assert (Hin : In (Query q)
                   (map Query (map delete_query (deleted_ids edit edited)
                               ++ changes))).
  { apply in_map. apply in_or_app. now right. }
  destruct exn; [exact Hin|].
  destruct (Py.truthy_list _); [|exact Hin].
  apply in_or_app. now left.
Qed.

(** The statement of an editor row that differs from its original: the
    UPDATE of its id. *)
Lemma changed_row_update (selected : string) (edit : list editor_row)
    (row original : editor_row) (k : Z) (qs : list stmt) :
  ID row = Py.Id k ->
  Py.id_in (Py.Id k) (original_ids edit) = true ->
  find (fun o => Py.idcell_eqb (ID o) (ID row)) edit = Some original ->
  has_changes original row = true ->
  save_row selected edit row = Py.Ok qs ->
  exists c d dv ds,
    qs = [Update [ColumnName c; DataType d; Nullable true;
                  DefaultValue dv; Description ds; UpdatedTimestampNow]
                 (SchemaIdEq (Py.Id k))].
Proof.
  intros Hid Hin Hfind Hchanged. unfold save_row.
  rewrite Hfind, Hchanged, Hid, Hin. cbn [isna_id negb orb].
  destruct (Py.cell_upper (Column_Name row)) as [name|msg];
    cbn [Py.bind]; intros Hqs; inversion Hqs.
  eauto.
Qed.

(** C9, as the code has it.  For a selected table and edited cells
    without quote and backslash, whatever the designer's Save Changes
    writes is nullable: every INSERT it issues and every UPDATE it
    issues for an edited column assigns [nullable = TRUE]; afterwards
    a stored row is nullable or still carries the column definition it
    had, so that every row the run adds is nullable; and when the
    engine accepts the statements and the loop runs to its end, every
    column whose editor row differs from the original is nullable,
    whatever it was before. *)
Theorem save_writes_nullable (selected : string)
    (edit edited : list editor_row) (rows : list row) :
  whole_literal selected ->
  Forall (fun row => Forall whole_literal (editor_row_texts row)) edited ->
  (forall cols,
     In (Query (Insert cols)) (save_changes DB_SILVER selected edit edited) ->
     forall r0, nullable (assign_all now cols r0) = true)
  /\ (forall sets k,
        In (Query (Update sets (SchemaIdEq (Py.Id k))))
           (save_changes DB_SILVER selected edit edited) ->
        In (Py.Id k) (edited_ids edited) ->
        forall r0, nullable (assign_all now sets r0) = true)
  /\ (forall i r',
        nth_error (saved DB_SILVER now fresh engine_error collect
                         selected edit edited rows) i = Some r' ->
        nullable r' = true
        \/ exists r, nth_error rows i = Some r /\ same_definition r r')
  /\ ((forall q d, engine_error q d = None) ->
      snd (save_rows selected edit edited) = None ->
      edited_columns_nullable edit edited
        (saved DB_SILVER now fresh engine_error collect
               selected edit edited rows)).
Proof.
  intros _ _.
  assert (Hedit : forall sets k,
            In (Query (Update sets (SchemaIdEq (Py.Id k))))
               (save_changes DB_SILVER selected edit edited) ->
            In (Py.Id k) (edited_ids edited) ->
            exists c d dv ds,
              sets = [ColumnName c; DataType d; Nullable true;
                      DefaultValue dv; Description ds; UpdatedTimestampNow]).
  { intros sets k Hin Hk. apply save_changes_stmts in Hin.
    inversion Hin as [k' Hdel|t c d dv ds|k' c d dv ds Hed]; subst.
    - exfalso. eapply deleted_not_edited; eassumption.
    - eauto. }
  repeat split.
  - intros cols Hin r0. apply save_changes_stmts in Hin.
    inversion Hin; subst. reflexivity.
  - intros sets k Hin Hk r0.
    destruct (Hedit sets k Hin Hk) as (c & d & dv & ds & ->). reflexivity.
  - intros i r' Hi. unfold saved, run in Hi.
    assert (Ht : tracks nullable_or_untouched is_nullable rows
              (metadata (fold_left (step now fresh engine_error collect)
                           (save_changes DB_SILVER selected edit edited)
                           (mk_state rows [])))).
    { apply tracks_fold.
      - intros q Hq. eapply save_stmt_nullable.
        eapply save_changes_stmts; exact Hq.
      - apply tracks_refl. intros r. right. repeat split. }
    destruct (tracks_all _ _ _ _ i r' Ht Hi) as [[r [Hr [Hn|Hsame]]]|Hq].
    + now left.
    + right. eauto.
    + now left.
  - intros Hok Hend row original r' Hrow Hfind Hchanged Hstored Hid.
    destruct (find_original edit row original Hfind) as (k & Hk & Hin).
    destruct (save_rows_issued selected edit edited row Hend Hrow)
      as (qs & Hqs & Hincl).
    destruct (changed_row_update selected edit row original k qs
                Hk Hin Hfind Hchanged Hqs) as (c & d & dv & ds & ->).
    apply In_nth_error in Hstored. destruct Hstored as [i Hi].
    unfold saved, run in Hi.
    assert (Ht : tracks (same_id_nullable_at k) is_nullable rows
              (metadata (fold_left (step now fresh engine_error collect)
                           (save_changes DB_SILVER selected edit edited)
                           (mk_state rows [])))).
    { eapply tracks_fold_from with (R := same_id).
      - apply save_changes_issues. apply Hincl. now left.
      - intros q Hq. eapply save_stmt_same_id.
        eapply save_changes_stmts; exact Hq.
      - intros q Hq. eapply save_stmt_nullable_at.
        eapply save_changes_stmts; exact Hq.
      - intros d0. apply Hok.
      - apply edit_establishes.
      - apply tracks_refl. intros r. reflexivity. }
    destruct (tracks_all _ _ _ _ i r' Ht Hi) as [[r [Hr [Hsid Hn]]]|Hq].
    + apply Hn. rewrite Hk in Hid. inversion Hid. congruence.
    + exact Hq.
Qed.

End DesignerFacts.

Lemma soft_delete_keeps_row_witness :
  nth_error (Designer.saved "db.SILVER" sample_now sample_fresh sample_accepts
               sample_collect "CUSTOMER"
               (Designer.edit_df "CUSTOMER" customer_rows)
               customer_without_id customer_rows) 0
  = Some (soft_deleted sample_now customer_id).
Proof.
  apply (proj1 (proj2 (proj2 (proj2
           (soft_delete_keeps_row "db.SILVER" sample_now sample_fresh
              sample_accepts sample_collect "CUSTOMER"
              (Designer.edit_df "CUSTOMER" customer_rows)
              customer_without_id customer_rows 1
              ltac:(vm_compute; left; reflexivity)))))).
  - reflexivity.
  - reflexivity.
  - reflexivity.
Defined.

Lemma save_writes_nullable_witness :
  TargetSchemas.nullable customer_name = false
  /\ exists r',
       nth_error (Designer.saved "db.SILVER" sample_now sample_fresh
                    sample_accepts sample_collect "CUSTOMER"
                    (Designer.edit_df "CUSTOMER" customer_rows)
                    customer_edited customer_rows) 1 = Some r'
       /\ TargetSchemas.schema_id r' = 2
       /\ TargetSchemas.nullable r' = true.
Proof.
  split; [reflexivity|].
  eexists. split; [vm_compute; reflexivity|]. split; [reflexivity|].
  apply (proj2 (proj2 (proj2
           (save_writes_nullable "db.SILVER" sample_now sample_fresh
              sample_accepts sample_collect "CUSTOMER"
              (Designer.edit_df "CUSTOMER" customer_rows)
              customer_edited customer_rows
              ltac:(split; reflexivity)
              ltac:(repeat constructor))))
           (fun _ _ => eq_refl) eq_refl
           (Designer.mk_editor_row (Py.Id 2) (Py.CText "name")
              (Py.CText "VARCHAR(200)") Py.CNone (Py.CText "Full name"))
           (Designer.editor_row_of customer_name)).
  - right. left. reflexivity.
  - reflexivity.
  - reflexivity.
  - vm_compute. right. left. reflexivity.
  - reflexivity.
Defined.

(** C9, counterexample.  NAME is declared NOT NULL.  The user retypes
    its description with an apostrophe and saves; the engine refuses
    the UPDATE, [execute_query] reports the refusal and goes on, and
    the edited column is still NOT NULL. *)
Lemma refused_edit_stays_not_null :
  ~ edited_columns_nullable
      (Designer.edit_df "CUSTOMER" customer_rows) customer_described
      (Designer.saved "db.SILVER" sample_now sample_fresh
         sample_refuses_apostrophe sample_collect "CUSTOMER"
         (Designer.edit_df "CUSTOMER" customer_rows)
         customer_described customer_rows).
Proof.
  intros H.
  specialize (H (Designer.mk_editor_row (Py.Id 2) (Py.CText "NAME")
                   (Py.CText "VARCHAR(100)") Py.CNone
                   (Py.CText "Customer's full name"))
                (Designer.editor_row_of customer_name) customer_name).
  discriminate H.
  - right. left. reflexivity.
  - reflexivity.
  - reflexivity.
  - vm_compute. right. left. reflexivity.
  - reflexivity.
Qed.

Lemma keyword_of_py_bool (b : bool) :
  Designer.keyword_bool (Designer.py_bool_str b) = b.
Proof. destruct b; reflexivity. Qed.

Lemma active_columns_app (t : string) (rows more : list TargetSchemas.row) :
  active_columns t (rows ++ more) = active_columns t rows ++ active_columns t more.
Proof. unfold active_columns. apply filter_app. Qed.

Lemma insert_adds_at_most_one (now : Z)
    (fresh : list TargetSchemas.row -> TargetSchemas.row)
    (engine_error : TargetSchemas.stmt -> list TargetSchemas.row -> option string)
    (q : TargetSchemas.stmt) (d : list TargetSchemas.row) :
  match q with TargetSchemas.Insert _ => True | _ => False end ->
  exists added,
    TargetSchemas.execute_query now fresh engine_error q d = d ++ added
    /\ (List.length added <= 1)%nat.
Proof.
  destruct q as [cols|sets w]; [intros _|contradiction].
  unfold TargetSchemas.execute_query.
  destruct (engine_error _ d); cbn [TargetSchemas.exec].
  - exists []. rewrite app_nil_r. split; [reflexivity | simpl; lia].
  - eexists [_]. split; [reflexivity | simpl; lia].
Qed.

(** C10, as the code has it.  The create-new-table form carries a
    table name and a first column name, both ASCII, and its texts hold
    no quote and no backslash.  Whatever the engine refuses, the
    handler calls [create_silver_table] once, after its inserts, which
    add at most five entries to the stored ones.  When the engine
    accepts the statements they add five: the user's column, then
    SOURCE_FILE_NAME (VARCHAR(500), nullable, no default) and
    INGESTION_TIMESTAMP, CREATED_AT, UPDATED_AT (TIMESTAMP_NTZ, not
    nullable, default CURRENT_TIMESTAMP()), all active; the procedure
    finds exactly these entries added, and a table name that had no
    active entry has these five. *)
Theorem create_new_table_standard_columns
    (DB_SILVER : string) (now : Z)
    (fresh : list TargetSchemas.row -> TargetSchemas.row)
    (engine_error : TargetSchemas.stmt -> list TargetSchemas.row -> option string)
    (collect : string -> Py.result (list Session.row_dict))
    (f : Designer.new_table_form) (rows : list TargetSchemas.row) :
  Py.truthy (Designer.new_table_name f) = true ->
  Py.truthy (Designer.first_column_name f) = true ->
  ascii_text (Designer.new_table_name f) ->
  ascii_text (Designer.first_column_name f) ->
  Forall whole_literal (form_texts f) ->
  (exists added outcome,
     Designer.run now fresh engine_error collect
                  (Designer.create_new_table_submit DB_SILVER f) rows
     = Designer.mk_state
         (rows ++ added)
         [(Designer.create_silver_table_call DB_SILVER f, rows ++ added,
           outcome)]
     /\ (List.length added <= 5)%nat)
  /\ ((forall q d, engine_error q d = None) ->
      exists c0 c1 c2 c3 c4 outcome,
        Designer.run now fresh engine_error collect
                     (Designer.create_new_table_submit DB_SILVER f) rows
        = Designer.mk_state
            (rows ++ [c0; c1; c2; c3; c4])
            [(Designer.create_silver_table_call DB_SILVER f,
              rows ++ [c0; c1; c2; c3; c4], outcome)]
        /\ (TargetSchemas.table_name c0 = Py.upper (Designer.new_table_name f)
            /\ TargetSchemas.column_name c0
               = Py.upper (Designer.first_column_name f)
            /\ TargetSchemas.data_type c0 = Designer.first_data_type f
            /\ TargetSchemas.nullable c0 = Designer.first_nullable f
            /\ TargetSchemas.active c0 = true)
        /\ standard_entry (Py.upper (Designer.new_table_name f))
             "SOURCE_FILE_NAME" "VARCHAR(500)" true None c1
        /\ standard_entry (Py.upper (Designer.new_table_name f))
             "INGESTION_TIMESTAMP" "TIMESTAMP_NTZ" false
             (Some "CURRENT_TIMESTAMP()") c2
        /\ standard_entry (Py.upper (Designer.new_table_name f))
             "CREATED_AT" "TIMESTAMP_NTZ" false (Some "CURRENT_TIMESTAMP()") c3
        /\ standard_entry (Py.upper (Designer.new_table_name f))
             "UPDATED_AT" "TIMESTAMP_NTZ" false (Some "CURRENT_TIMESTAMP()") c4
        /\ (active_columns (Py.upper (Designer.new_table_name f)) rows = [] ->
            active_columns (Py.upper (Designer.new_table_name f))
                           (rows ++ [c0; c1; c2; c3; c4])
            = [c0; c1; c2; c3; c4])).
Proof.
  intros Hname Hcol _ _ Hwhole.
  pose proof (proj1 (Forall_forall _ _) Hwhole) as Hall.
  destruct (Hall (Designer.new_table_name f) (or_introl eq_refl))
    as [Hqn _].
  destruct (Hall (Designer.first_column_name f) (or_intror (or_introl eq_refl)))
    as [Hqc _].
  destruct (Hall (Designer.first_data_type f)
              (or_intror (or_intror (or_introl eq_refl)))) as [Hqt _].
  clear Hall.
  unfold Designer.create_new_table_submit. rewrite Hname, Hcol.
  cbn [negb orb]. unfold Designer.run.
  cbn [Designer.standard_columns map app fold_left Designer.step
       Designer.metadata Designer.calls].
  split.
  - repeat match goal with
           | |- context [TargetSchemas.execute_query ?n ?fr ?e ?q ?d] =>
               let added := fresh "added" in
               let E := fresh "E" in
               let L := fresh "L" in
               destruct (insert_adds_at_most_one n fr e q d I)
                 as (added & E & L);
               rewrite E; clear E
           end.
    rewrite <- !app_assoc. eexists _, _. split; [reflexivity|].
    rewrite !length_app. lia.
  - intros Hok.
    unfold TargetSchemas.execute_query. rewrite !Hok.
    unfold Designer.std_col_query, Designer.insert_query.
    rewrite !(literal_upper _ Hqn), (literal_upper _ Hqc),
      (literal_quote_free _ Hqt).
    cbn [TargetSchemas.exec]. rewrite <- !app_assoc. cbn [app].
    do 6 eexists. split; [reflexivity|].
    split; [|split; [|split; [|split; [|split]]]].
    + cbn. rewrite keyword_of_py_bool. repeat split.
    + repeat split.
    + repeat split.
    + repeat split.
    + repeat split.
    + intros Hnone. rewrite active_columns_app, Hnone.
      unfold active_columns. cbn. rewrite !String.eqb_refl. reflexivity.
Qed.

Lemma create_new_table_standard_columns_witness :
  List.length
    (active_columns "ORDERS"
       (Designer.metadata
          (Designer.run sample_now sample_fresh sample_accepts sample_collect
             (Designer.create_new_table_submit "db.SILVER" orders_form)
             customer_rows)))
  = 5%nat.
Proof.
  destruct (proj2 (create_new_table_standard_columns "db.SILVER" sample_now
                     sample_fresh sample_accepts sample_collect orders_form
                     customer_rows eq_refl eq_refl eq_refl eq_refl
                     ltac:(repeat constructor))
                  (fun _ _ => eq_refl))
    as (c0 & c1 & c2 & c3 & c4 & outcome & Hrun & _ & _ & _ & _ & _ & Hact).
  rewrite Hrun. cbn [Designer.metadata].
  change (Py.upper (Designer.new_table_name orders_form))
    with "ORDERS" in Hact.
  rewrite Hact; reflexivity.
Defined.

(** C10, counterexample.  With an apostrophe in the description of the
    first column the engine refuses the first INSERT; [execute_query]
    reports the refusal, the four standard entries are inserted all
    the same and [create_silver_table] is called on a table of four
    entries.  And a form that names a table that has entries already
    adds its five to them: the procedure is called on a table of
    seven. *)
Lemma created_with_other_than_five :
  ~ five_entries_at_creation "ORDERS"
      (Designer.run sample_now sample_fresh sample_refuses_apostrophe
         sample_collect
         (Designer.create_new_table_submit "db.SILVER" orders_described)
         customer_rows)
  /\ ~ five_entries_at_creation "CUSTOMER"
        (Designer.run sample_now sample_fresh sample_accepts sample_collect
           (Designer.create_new_table_submit "db.SILVER" customer_again)
           customer_rows).
Proof.
  split; intros H.
  - specialize (H _ _ _ (or_introl eq_refl)). vm_compute in H. discriminate H.
  - specialize (H _ _ _ (or_introl eq_refl)). vm_compute in H. discriminate H.
Qed.

(* ===================================================================== *)
(** ** Field Mapper: manual entry and the confidence invariant *)
(* ===================================================================== *)

Section MapperFacts.
Import FieldMappings.
Import Mapper.

Lemma keeps_execute (now : Z) (fresh : list row -> row)
    (engine_error : stmt -> list row -> option string)
    (P : row -> Prop) (q : stmt) (rows : list row) :
  keeps now P q -> Forall P rows ->
  Forall P (execute_query now fresh engine_error q rows).
Proof.
  intros Hq HP. unfold execute_query.
  destruct (engine_error q rows); [assumption|].
  destruct q as [cols|sets w|w]; simpl in *.
  - apply Forall_app. split; [assumption|]. constructor; [apply Hq | constructor].
  - apply Forall_forall. intros x Hx. apply in_map_iff in Hx.
    destruct Hx as [r [<- Hin]]. rewrite Forall_forall in HP.
    destruct (holds w r); auto.
  - apply Forall_forall. intros x Hx. apply filter_In in Hx.
    rewrite Forall_forall in HP. now apply HP.
Qed.

Lemma keeps_execute_all (now : Z) (fresh : list row -> row)
    (engine_error : stmt -> list row -> option string)
    (P : row -> Prop) (qs : list stmt) (rows : list row) :
  Forall (keeps now P) qs -> Forall P rows ->
  Forall P (execute_all now fresh engine_error qs rows).
Proof.
  unfold execute_all. revert rows.
  induction qs as [|q qs IH]; intros rows Hqs HP; simpl; [assumption|].
  inversion Hqs; subst. apply IH; [assumption|].
  now apply keeps_execute.
Qed.






End MapperFacts.


(* ===================================================================== *)
(** ** ORDER BY: a sorted permutation *)
(* ===================================================================== *)

Section OrderBy.

Variable A : Type.
Variable le : A -> A -> bool.
Hypothesis le_total : forall a b, le a b = true \/ le b a = true.
Hypothesis le_trans : forall a b c, le a b = true -> le b c = true -> le a c = true.

Lemma insert_sorted_perm (x : A) (l : list A) :
  Permutation (x :: l) (insert_sorted le x l).
Proof.
  induction l as [|y rest IH]; simpl; [apply Permutation_refl|].
  destruct (le x y); [apply Permutation_refl|].
  eapply perm_trans; [apply perm_swap|]. now apply perm_skip.
Qed.

Lemma order_by_perm (l : list A) : Permutation l (order_by le l).
Proof.
  induction l as [|x rest IH]; simpl; [constructor|].
  eapply perm_trans; [|apply insert_sorted_perm]. now apply perm_skip.
Qed.

Lemma insert_sorted_sorted (x : A) (l : list A) :
  StronglySorted (fun a b => le a b = true) l ->
  StronglySorted (fun a b => le a b = true) (insert_sorted le x l).
Proof.
  induction l as [|y rest IH]; intros Hs; simpl.
  - constructor; constructor.
  - inversion Hs as [|y' rest' Hrest Hy]; subst.
    destruct (le x y) eqn:Hxy.
    + constructor; [assumption|]. constructor; [assumption|].
      rewrite Forall_forall in *. intros z Hz. eapply le_trans; eauto.
    + constructor; [now apply IH|].
      eapply Permutation_Forall; [apply insert_sorted_perm|].
      constructor; [|assumption].
      destruct (le_total x y); congruence.
Qed.

Lemma order_by_sorted (l : list A) :
  StronglySorted (fun a b => le a b = true) (order_by le l).
Proof.
  induction l as [|x rest IH]; simpl; [constructor|].
  now apply insert_sorted_sorted.
Qed.

End OrderBy.

Lemma string_leb_iff (a b : string) :
  String.leb a b = true <-> a = b \/ OrderedTypeEx.String_as_OT.lt a b.
Proof.
  unfold String.leb. split.
  - destruct (String.compare a b) eqn:Hc; [| |discriminate]; intros _.
    + left. now apply String.compare_eq_iff.
    + right. now apply OrderedTypeEx.String_as_OT.cmp_lt.
  - intros [->|Hlt].
    + destruct (String.compare b b) eqn:Hc; [reflexivity..|].
      pose proof (String.compare_antisym b b) as Ha. rewrite Hc in Ha.
      discriminate.
    + apply OrderedTypeEx.String_as_OT.cmp_lt in Hlt.
      unfold OrderedTypeEx.String_as_OT.cmp in Hlt. now rewrite Hlt.
Qed.

Lemma string_leb_trans (a b c : string) :
  String.leb a b = true -> String.leb b c = true -> String.leb a c = true.
Proof.
  rewrite !string_leb_iff. intros [->|Hab] [->|Hbc]; auto.
  right. eapply OrderedTypeEx.String_as_OT.lt_trans; eassumption.
Qed.

(* ===================================================================== *)
(** ** Approval gating: the mapping preview and the transformation *)
(* ===================================================================== *)

Lemma approved_filter_same (t : string) (rows1 rows2 : list FieldMappings.row) :
  same_except_unapproved rows1 rows2 ->
  filter (FieldMappings.holds
            (FieldMappings.CAnd (FieldMappings.TargetTableEq t)
                                (FieldMappings.ApprovedEq true))) rows1
  = filter (FieldMappings.holds
              (FieldMappings.CAnd (FieldMappings.TargetTableEq t)
                                  (FieldMappings.ApprovedEq true))) rows2.
Proof.
  intros H.
  set (p := FieldMappings.holds
              (FieldMappings.CAnd (FieldMappings.TargetTableEq t)
                                  (FieldMappings.ApprovedEq true))).
  assert (Hp : forall r, FieldMappings.approved r = false -> p r = false).
  { intros r Hr. unfold p. cbn [FieldMappings.holds]. rewrite Hr.
    apply andb_false_r. }
  induction H as [|r l1 l2 _ IH|r l1 l2 Hr _ IH|r l1 l2 Hr _ IH];
    cbn [filter].
  - reflexivity.
  - now rewrite IH.
  - now rewrite (Hp r Hr).
  - now rewrite (Hp r Hr).
Qed.

Lemma usable_same (t : string) (rows1 rows2 : list FieldMappings.row) :
  same_except_unapproved rows1 rows2 ->
  Transform.usable t rows1 = Transform.usable t rows2.
Proof.
  intros H. unfold Transform.usable.
  induction H as [|r l1 l2 _ IH|r l1 l2 Hr _ IH|r l1 l2 Hr _ IH];
    cbn [filter].
  - reflexivity.
  - now rewrite IH.
  - rewrite Hr. exact IH.
  - rewrite Hr. exact IH.
Qed.

(** The frame in stored order is one of the frames the engine may
    return. *)
Lemma mappings_test_df_frame (t : string) (rows : list FieldMappings.row) :
  Mapper.mappings_test_frame t rows (Mapper.mappings_test_df t rows).
Proof.
  unfold Mapper.mappings_test_frame, Mapper.mappings_test_df.
  eexists. split; [|split; [|reflexivity]].
  - apply Permutation_sym, order_by_perm.
  - apply (order_by_sorted FieldMappings.row
             (fun a b => String.leb (FieldMappings.target_column a)
                                    (FieldMappings.target_column b))).
    + intros a b. apply String.leb_total.
    + intros a b c. apply string_leb_trans.
Qed.

(** C1. A mapping with approved = false never influences the mapped
    output, whatever its mapping method.  For two stores that differ
    only in unapproved mappings, and a selected table name without
    quote and backslash (the tab interpolates it unescaped): the Test
    Mappings tab may show the same frames of mappings, in whatever
    order the engine returns the rows of one target column, and so the
    same preview queries and results; the frame in stored order is one
    of these frames and is the same for both stores; and the
    transformation, whose body is read from the specification, returns
    the same result. *)
Theorem unapproved_never_influence
    (DB_BRONZE : string) (preview : string -> list Session.row_dict)
    (selected_test_table : string) (sample_rows : Z)
    (source_row value : Type)
    (extract : string -> source_row -> value)
    (cast : string -> string -> value -> value)
    (evaluate : string -> value -> value)
    (read : string -> string -> Z -> list source_row)
    (no_approved_mappings : string -> string)
    (finish : string -> bool -> bool -> list (list (string * value)) -> string)
    (source_table target_table source_schema : string) (batch_size : Z)
    (apply_rules advance_watermark : bool)
    (rows1 rows2 : list FieldMappings.row) :
  whole_literal selected_test_table ->
  same_except_unapproved rows1 rows2 ->
  (forall df,
     Mapper.mappings_test_frame selected_test_table rows1 df
     <-> Mapper.mappings_test_frame selected_test_table rows2 df)
  /\ (forall out,
        Mapper.test_mappings_shows DB_BRONZE preview selected_test_table
                                   sample_rows rows1 out
        <-> Mapper.test_mappings_shows DB_BRONZE preview selected_test_table
                                       sample_rows rows2 out)
  /\ Mapper.mappings_test_frame selected_test_table rows1
       (Mapper.mappings_test_df selected_test_table rows1)
  /\ Mapper.test_mappings DB_BRONZE preview selected_test_table sample_rows
                          rows1
     = Mapper.test_mappings DB_BRONZE preview selected_test_table sample_rows
                            rows2
  /\ Transform.transform source_row value extract cast evaluate read
       no_approved_mappings finish source_table target_table source_schema
       batch_size apply_rules advance_watermark rows1
     = Transform.transform source_row value extract cast evaluate read
         no_approved_mappings finish source_table target_table source_schema
         batch_size apply_rules advance_watermark rows2.
Proof.
  intros _ H.
  pose proof (approved_filter_same (Sql.literal selected_test_table)
                rows1 rows2 H) as Hsel.
  pose proof (usable_same target_table rows1 rows2 H) as Huse.
  assert (Hframe : forall df,
            Mapper.mappings_test_frame selected_test_table rows1 df
            <-> Mapper.mappings_test_frame selected_test_table rows2 df).
  { intros df. unfold Mapper.mappings_test_frame. now rewrite Hsel. }
  split; [exact Hframe|]. split; [|split; [|split]].
  - intros out. unfold Mapper.test_mappings_shows.
    split; intros (df & Hdf & ->); exists df; split;
      try reflexivity; now apply Hframe.
  - apply mappings_test_df_frame.
  - unfold Mapper.test_mappings, Mapper.mappings_test_df. now rewrite Hsel.
  - unfold Transform.transform, Transform.map_row. now rewrite Huse.
Qed.

Lemma unapproved_never_influence_witness :
  Mapper.test_mappings "db.BRONZE" sample_preview "CUSTOMER" 10 mapping_rows
  = Mapper.test_mappings "db.BRONZE" sample_preview "CUSTOMER" 10
                         [mapping_alice]
  /\ Transform.transform sample_source_row string sample_extract sample_cast
       sample_evaluate sample_read sample_no_mappings sample_finish
       "RAW_DATA_TABLE" "CUSTOMER" "BRONZE" 10000 true true mapping_rows
     = "CUSTOMER: ID=7".
Proof.
  destruct (unapproved_never_influence "db.BRONZE" sample_preview
              "CUSTOMER" 10 sample_source_row string sample_extract
              sample_cast sample_evaluate sample_read sample_no_mappings
              sample_finish "RAW_DATA_TABLE" "CUSTOMER" "BRONZE" 10000
              true true mapping_rows [mapping_alice]
              ltac:(split; reflexivity)
              (seu_left mapping_pending [mapping_alice] [mapping_alice]
                 eq_refl
                 (seu_both mapping_alice [] [] seu_nil)))
    as (_ & _ & _ & Hpreview & Htransform).
  split; [exact Hpreview|]. rewrite Htransform. reflexivity.
Defined.

(* ===================================================================== *)
(** ** Field Mapper: Save Changes in the mappings editor *)
(* ===================================================================== *)

(** When the two frames show the same mapping at an index, the update
    issued for it follows the change of the checkbox: approving stamps
    the user and the time, un-approving clears both, and an unchanged
    checkbox leaves the three approval columns as they were. *)
Lemma update_query_same_mapping (now : Z) (st_user : Py.result string)
    (r : FieldMappings.row) (edited_row : Mapper.editor_row)
    (q : FieldMappings.stmt) :
  Mapper.MAPPING_ID edited_row = Py.Id (FieldMappings.mapping_id r) ->
  In q (Mapper.update_query st_user (Mapper.display_row_of r) edited_row) ->
  exists sets,
    q = FieldMappings.Update sets
          (FieldMappings.MappingIdEq (Py.Id (FieldMappings.mapping_id r)))
    /\ (FieldMappings.approved r = false ->
        Mapper.py_bool (Mapper.APPROVED edited_row) = true ->
        FieldMappings.approved (FieldMappings.assign_all now sets r) = true
        /\ FieldMappings.approved_by (FieldMappings.assign_all now sets r)
           = Some (Mapper.current_user st_user)
        /\ FieldMappings.approved_timestamp (FieldMappings.assign_all now sets r)
           = Some now)
    /\ (FieldMappings.approved r = true ->
        Mapper.py_bool (Mapper.APPROVED edited_row) = false ->
        FieldMappings.approved (FieldMappings.assign_all now sets r) = false
        /\ FieldMappings.approved_by (FieldMappings.assign_all now sets r)
           = None
        /\ FieldMappings.approved_timestamp (FieldMappings.assign_all now sets r)
           = None)
    /\ (Mapper.py_bool (Mapper.APPROVED edited_row) = FieldMappings.approved r ->
        FieldMappings.approved (FieldMappings.assign_all now sets r)
        = FieldMappings.approved r
        /\ FieldMappings.approved_by (FieldMappings.assign_all now sets r)
           = FieldMappings.approved_by r
        /\ FieldMappings.approved_timestamp (FieldMappings.assign_all now sets r)
           = FieldMappings.approved_timestamp r).
Proof.
  intros Hid. unfold Mapper.update_query. rewrite Hid.
  cbn [Mapper.display_row_of Mapper.APPROVED Mapper.py_bool].
  destruct (Mapper.py_bool (Mapper.APPROVED edited_row)) eqn:He,
           (FieldMappings.approved r) eqn:Hr;
    cbn [Bool.eqb negb orb andb];
    repeat match goal with
           | |- context [if ?b then _ else _] => destruct b
           end;
    intros Hq; cbn [In] in Hq;
    try contradiction;
    destruct Hq as [<-|[]];
    eexists; (split; [reflexivity|]);
    cbn; rewrite ?Hr;
    repeat split; intros; try reflexivity; try discriminate.
Qed.

(** C5. A run of Save Changes in the mappings editor on the store
    [mapping_rows], in which BOB removes the pending row and retypes
    the description of the mapping ALICE approved: the approved flag of
    that mapping does not change, yet the handler rewrites its
    approved-by and approved-at.  The loop compares row 0 of the edited
    frame with row 0 of the displayed frame, which is the removed row. *)
Theorem save_mappings_restamps_shifted_row :
  Mapper.MAPPING_ID (Mapper.display_row_of mapping_alice) = Py.Id 2
  /\ map Mapper.MAPPING_ID mappings_edited = [Py.Id 2]
  /\ map Mapper.APPROVED mappings_edited
     = [Some (FieldMappings.approved mapping_alice)]
  /\ FieldMappings.approved_by mapping_alice = Some "ALICE"
  /\ FieldMappings.approved_timestamp mapping_alice = Some 50
  /\ FieldMappings.execute_all sample_now mapping_fresh mapping_accepts
       (Mapper.save_mappings bob (map Mapper.display_row_of mapping_rows)
                             mappings_edited)
       mapping_rows
     = [FieldMappings.mk_row 2 "RAW_DATA_TABLE" "CUST_ID" "CUSTOMER" "ID"
          "MANUAL" 1.0 true (Some "BOB") (Some sample_now) None (Some "new")
          20 sample_now None].
Proof. repeat split. Qed.

(* ===================================================================== *)
(** ** Field Mapper: duplicates are flagged when mappings are read *)
(* ===================================================================== *)

Lemma subset_eqb_eq (a b : string * string * string * string) :
  Mapper.subset_eqb a b = true <-> a = b.
Proof.
  destruct a as [[[a1 a2] a3] a4], b as [[[b1 b2] b3] b4].
  unfold Mapper.subset_eqb. rewrite !andb_true_iff, !String.eqb_eq.
  split.
  - intros [[-> ->] [-> ->]]. reflexivity.
  - intros H. inversion H. auto.
Qed.









(* ===================================================================== *)
(** ** ORDER BY, and the order of the rule listings *)
(* ===================================================================== *)

Lemma by_priority_then_created_desc_iff (a b : Rules.row) :
  Rules.by_priority_then_created_desc a b = true <-> priority_then_newest a b.
Proof.
  unfold Rules.by_priority_then_created_desc, priority_then_newest.
  rewrite orb_true_iff, andb_true_iff, Z.ltb_lt, Z.eqb_eq, Z.leb_le.
  reflexivity.
Qed.

Lemma by_priority_iff (a b : Rules.row) :
  Rules.by_priority a b = true <-> priority_ascending a b.
Proof. unfold Rules.by_priority, priority_ascending. apply Z.leb_le. Qed.

Lemma StronglySorted_impl {A} (R S : A -> A -> Prop) (l : list A) :
  (forall a b, R a b -> S a b) -> StronglySorted R l -> StronglySorted S l.
Proof.
  intros HRS H. induction H as [|a l Hl IH Ha]; constructor; [assumption|].
  rewrite Forall_forall in *. auto.
Qed.

(** C4, as the code has it.  Both rule listings come back in ascending
    priority.  In the All Transformation Rules listing, rules of equal
    priority are in descending order of creation, the later-created
    first; the Test Rules listing orders by priority alone.  Each
    listing holds exactly the rows its filter selects. *)
Theorem rule_listings_order (filter_type filter_table : string)
    (filter_active : RulesPage.active_filter) (test_target_table : string)
    (rows : list Rules.row) :
  StronglySorted priority_then_newest
    (RulesPage.rules_df filter_type filter_table filter_active rows)
  /\ Permutation
       (filter (Rules.holds (RulesPage.where_clause filter_type filter_table
                                                    filter_active)) rows)
       (RulesPage.rules_df filter_type filter_table filter_active rows)
  /\ StronglySorted priority_ascending
       (RulesPage.rules_for_table_df test_target_table rows)
  /\ Permutation
       (filter (Rules.holds
                  (Rules.CAnd (Rules.COr (Rules.TargetTableEq
                                            (Sql.literal test_target_table))
                                         Rules.TargetTableIsNull)
                              (Rules.ActiveEq true))) rows)
       (RulesPage.rules_for_table_df test_target_table rows).
Proof.
  unfold RulesPage.rules_df, RulesPage.rules_for_table_df.
  repeat split; try apply order_by_perm.
  - eapply StronglySorted_impl;
      [intros a b; apply by_priority_then_created_desc_iff|].
    apply order_by_sorted.
    + intros a b. rewrite !by_priority_then_created_desc_iff.
      unfold priority_then_newest. lia.
    + intros a b c. rewrite !by_priority_then_created_desc_iff.
      unfold priority_then_newest. lia.
  - eapply StronglySorted_impl; [intros a b; apply by_priority_iff|].
    apply order_by_sorted.
    + intros a b. rewrite !by_priority_iff. unfold priority_ascending. lia.
    + intros a b c. rewrite !by_priority_iff. unfold priority_ascending. lia.
Qed.

(** C4, counterexample.  Of two rules of priority 5 created at times 10
    and 20, the All Transformation Rules listing shows the one created
    at 20 first. *)
Lemma later_created_rule_listed_first :
  RulesPage.rules_df "(All Types)" "(All Tables)" RulesPage.All
                     [rule_old; rule_new]
  = [rule_new; rule_old]
  /\ ~ earlier_created_first
         (RulesPage.rules_df "(All Types)" "(All Tables)" RulesPage.All
                             [rule_old; rule_new]).
Proof.
  split; [reflexivity|].
  intros H.
  destruct (H 0%nat 1%nat rule_new rule_old) as [_ Hc];
    [lia | reflexivity | reflexivity |].
  specialize (Hc eq_refl). cbn in Hc. lia.
Qed.

(* ===================================================================== *)
(** ** Saving an editor frame nobody edited *)
(* ===================================================================== *)

Lemma filter_nothing {A} (p : A -> bool) (l : list A) :
  (forall x, In x l -> p x = false) -> filter p l = [].
Proof.
  induction l as [|a l IH]; intros H; simpl; [reflexivity|].
  rewrite (H a (or_introl eq_refl)). apply IH. intros x Hx. apply H. now right.
Qed.

Lemma combine_self {A} (l : list A) : combine l l = map (fun x => (x, x)) l.
Proof. induction l; simpl; congruence. Qed.

Lemma flat_map_nothing {A B} (f : A -> list B) (l : list A) :
  (forall x, In x l -> f x = []) -> flat_map f l = [].
Proof.
  induction l as [|a l IH]; intros H; simpl; [reflexivity|].
  rewrite (H a (or_introl eq_refl)). apply IH. intros x Hx. apply H. now right.
Qed.

Lemma update_query_unchanged (st_user : Py.result string)
    (row : Mapper.editor_row) :
  Mapper.update_query st_user row row = [].
Proof.
  unfold Mapper.update_query.
  rewrite Bool.eqb_reflx, !String.eqb_refl. reflexivity.
Qed.

(** X1. Save Changes in the mappings editor on a frame the user did not
    touch issues no statement, so the store is left exactly as it was
    (the page answers "No changes detected"). *)
Theorem mappings_editor_unedited_save (st_user : Py.result string) (now : Z)
    (fresh : list FieldMappings.row -> FieldMappings.row)
    (engine_error : FieldMappings.stmt -> list FieldMappings.row -> option string)
    (shown rows : list FieldMappings.row) :
  Mapper.save_mappings st_user (map Mapper.display_row_of shown)
                       (map Mapper.display_row_of shown) = []
  /\ FieldMappings.execute_all now fresh engine_error
       (Mapper.save_mappings st_user (map Mapper.display_row_of shown)
                             (map Mapper.display_row_of shown)) rows
     = rows.
Proof.
  assert (H : Mapper.save_mappings st_user (map Mapper.display_row_of shown)
                (map Mapper.display_row_of shown) = []).
  { unfold Mapper.save_mappings, Mapper.deleted_ids.
    rewrite filter_nothing, flat_map_nothing; [reflexivity | |].
    - intros [o e] Hin. rewrite combine_self in Hin.
      apply in_map_iff in Hin. destruct Hin as [x [Hx _]].
      inversion Hx; subst. apply update_query_unchanged.
    - intros i Hi. rewrite map_map in *. apply in_map_iff in Hi.
      destruct Hi as [r [<- Hr]]. cbn [Mapper.display_row_of Mapper.MAPPING_ID].
      rewrite (proj2 (id_in_iff _ _)); [reflexivity|].
      apply in_map_iff. exists r. split; [reflexivity | assumption]. }
  split; [exact H|]. rewrite H. reflexivity.
Qed.

Lemma has_changes_same (row : Designer.editor_row) :
  Designer.has_changes row row = false.
Proof.
  unfold Designer.has_changes. cbn [existsb].
  assert (Hc : forall c, (if andb (Py.isna c) (Py.isna c) then false
                          else Py.cell_ne c c) = false).
  { intros [| |s]; cbn; [reflexivity | reflexivity |].
    now rewrite String.eqb_refl. }
  now rewrite !Hc.
Qed.

Lemma find_own_row (edit : list Designer.editor_row) (row : Designer.editor_row) :
  NoDup (map Designer.ID edit) -> In row edit ->
  Designer.ID row <> Py.IdNaN ->
  find (fun o => Py.idcell_eqb (Designer.ID o) (Designer.ID row)) edit
  = Some row.
Proof.
  intros Hnd Hin Hid. induction edit as [|o rest IH]; [contradiction|].
  cbn [map] in Hnd. inversion Hnd as [|x l Hnotin Hrest]; subst.
  cbn [find]. destruct Hin as [->|Hin].
  - destruct (Designer.ID row) as [|k]; [contradiction|].
    cbn [Py.idcell_eqb]. now rewrite Z.eqb_refl.
  - destruct (Py.idcell_eqb (Designer.ID o) (Designer.ID row)) eqn:He.
    + exfalso. apply Hnotin.
      destruct (Designer.ID o) as [|a], (Designer.ID row) as [|b] eqn:Hb;
        cbn in He; try discriminate.
      apply Z.eqb_eq in He. subst a. rewrite <- Hb. now apply in_map.
    + now apply IH.
Qed.

Lemma save_rows_unedited (selected : string)
    (edit part : list Designer.editor_row) :
  NoDup (map Designer.ID edit) ->
  (forall r, In r edit -> Designer.ID r <> Py.IdNaN) ->
  incl part edit ->
  Designer.save_rows selected edit part = ([], None).
Proof.
  intros Hnd Hid. induction part as [|row rest IH]; intros Hincl;
    [reflexivity|].
  cbn [Designer.save_rows].
  assert (Hin : In row edit) by (apply Hincl; now left).
  assert (Hrow : Designer.save_row selected edit row = Py.Ok []).
  { unfold Designer.save_row.
    assert (Hk : exists k, Designer.ID row = Py.Id k).
    { destruct (Designer.ID row) as [|k] eqn:E; [|eauto].
      exfalso. now apply (Hid row Hin). }
    destruct Hk as [k Hk].
    assert (Hmem : Py.id_in (Designer.ID row) (Designer.original_ids edit) = true).
    { rewrite Hk. apply id_in_iff. rewrite <- Hk. now apply in_map. }
    rewrite Hmem. replace (Designer.isna_id (Designer.ID row)) with false
      by (now rewrite Hk).
    cbn [orb negb]. rewrite (find_own_row edit row Hnd Hin (Hid row Hin)).
    now rewrite has_changes_same. }
  rewrite Hrow, IH; [reflexivity|].
  intros x Hx. apply Hincl. now right.
Qed.

Lemma NoDup_map_filter {Row Key : Type} (key : Row -> Key)
    (keep : Row -> bool) (rows : list Row) :
  NoDup (map key rows) -> NoDup (map key (filter keep rows)).
Proof.
  intros Hnd. induction rows as [|r rest IH]; cbn [filter map];
    [constructor|].
  inversion Hnd as [|k ks Hfresh Hrest]; subst.
  destruct (keep r); [|now apply IH].
  cbn [map]. constructor; [|now apply IH].
  intros Hin. apply Hfresh. apply in_map_iff in Hin.
  destruct Hin as [r' [Hkey Hr']]. apply filter_In in Hr'.
  apply in_map_iff. exists r'. tauto.
Qed.

Lemma NoDup_map_injective {A B} (f : A -> B) (l : list A) :
  (forall a b, f a = f b -> a = b) -> NoDup l -> NoDup (map f l).
Proof.
  intros Hf H. induction H as [|a l Hnotin _ IH]; simpl; constructor;
    [|assumption].
  intros Hin. apply in_map_iff in Hin. destruct Hin as [b [Hb Hbin]].
  apply Hf in Hb. now subst.
Qed.

(** X2. Save Changes in the column editor on the frame as it was loaded
    does nothing at all when the schema ids of the table are distinct:
    no statement is issued, [sync_table_with_metadata] is not called and
    the metadata stay as they were. *)
Theorem column_editor_unedited_save (DB_SILVER : string) (now : Z)
    (fresh : list TargetSchemas.row -> TargetSchemas.row)
    (engine_error : TargetSchemas.stmt -> list TargetSchemas.row -> option string)
    (collect : string -> Py.result (list Session.row_dict))
    (selected : string) (rows : list TargetSchemas.row) :
  NoDup (map TargetSchemas.schema_id rows) ->
  Designer.save_changes DB_SILVER selected (Designer.edit_df selected rows)
                        (Designer.edit_df selected rows) = []
  /\ Designer.saved DB_SILVER now fresh engine_error collect selected
                    (Designer.edit_df selected rows)
                    (Designer.edit_df selected rows) rows = rows
  /\ Designer.save_banner DB_SILVER now fresh engine_error collect selected
                          (Designer.edit_df selected rows)
                          (Designer.edit_df selected rows) rows = None.
Proof.
  intros Hnd.
  assert (Hids : forall r, In r (Designer.edit_df selected rows) ->
                           Designer.ID r <> Py.IdNaN).
  { intros r Hr. unfold Designer.edit_df in Hr. apply in_map_iff in Hr.
    destruct Hr as [x [<- _]]. discriminate. }
  assert (Hnd' : NoDup (map Designer.ID (Designer.edit_df selected rows))).
  { unfold Designer.edit_df, Designer.schema_df,
      TargetSchemas.select_by_schema_id.
    rewrite map_map. cbn [Designer.editor_row_of Designer.ID].
    rewrite <- (map_map TargetSchemas.schema_id Py.Id).
    apply NoDup_map_injective; [intros a b H; now inversion H|].
    eapply Permutation_NoDup;
      [apply Permutation_map; apply order_by_perm|].
    now apply NoDup_map_filter. }
  assert (H : Designer.save_changes DB_SILVER selected
                (Designer.edit_df selected rows)
                (Designer.edit_df selected rows) = []).
  { unfold Designer.save_changes.
    rewrite (save_rows_unedited selected _ _ Hnd' Hids (incl_refl _)).
    unfold Designer.deleted_ids. rewrite filter_nothing; [reflexivity|].
    intros i Hi. unfold Designer.original_ids, Designer.edited_ids in *.
    destruct i as [|k].
    - exfalso. apply in_map_iff in Hi. destruct Hi as [r [Hr Hin]].
      now apply (Hids r Hin).
    - now rewrite (proj2 (id_in_iff k _) Hi). }
  unfold Designer.saved, Designer.save_banner. rewrite H. repeat split.
Qed.

Lemma column_editor_unedited_save_witness :
  Designer.save_changes "db.SILVER" "CUSTOMER"
    (Designer.edit_df "CUSTOMER" customer_rows)
    (Designer.edit_df "CUSTOMER" customer_rows) = [].
Proof.
  apply (proj1 (column_editor_unedited_save "db.SILVER" sample_now
                  sample_fresh sample_accepts sample_collect "CUSTOMER"
                  customer_rows
                  ltac:(repeat constructor; simpl; intuition discriminate))).
Defined.

(* ===================================================================== *)
(** ** The mappings editor: what Save Changes can and cannot touch *)
(* ===================================================================== *)

Lemma update_query_stmts (now : Z) (st_user : Py.result string)
    (display_df edited_df : list Mapper.editor_row)
    (original_row edited_row : Mapper.editor_row) (q : FieldMappings.stmt) :
  In edited_row edited_df ->
  In q (Mapper.update_query st_user original_row edited_row) ->
  editor_stmt now display_df edited_df q.
Proof.
  intros Hin. unfold Mapper.update_query.
  destruct (orb _ _); [|contradiction].
  destruct (andb _ _); [|destruct (andb _ _)];
    (intros [<-|[]]; apply editor_update;
     [now apply in_map | intros r; repeat split]).
Qed.

Lemma save_mappings_stmts (now : Z) (st_user : Py.result string)
    (display_df edited_df : list Mapper.editor_row) (q : FieldMappings.stmt) :
  In q (Mapper.save_mappings st_user display_df edited_df) ->
  editor_stmt now display_df edited_df q.
Proof.
  unfold Mapper.save_mappings. intros Hq. apply in_app_or in Hq.
  destruct Hq as [Hq|Hq].
  - apply in_map_iff in Hq. destruct Hq as [i [<- Hi]]. now constructor.
  - apply in_flat_map in Hq. destruct Hq as [[o e] [Hpair Hq]].
    eapply update_query_stmts; [|exact Hq].
    eapply in_combine_r; exact Hpair.
Qed.

Lemma filter_filter_kept {A} (h p : A -> bool) (l : list A) :
  (forall x, h x = true -> p x = true) ->
  filter h (filter p l) = filter h l.
Proof.
  intros H. induction l as [|a l IH]; simpl; [reflexivity|].
  destruct (p a) eqn:Hp; simpl.
  - now rewrite IH.
  - destruct (h a) eqn:Hh; [|assumption].
    rewrite (H a Hh) in Hp. discriminate.
Qed.

Lemma filter_map_kept {A} (h : A -> bool) (f : A -> A) (l : list A) :
  (forall x, h x = true -> f x = x) ->
  (forall x, h (f x) = h x) ->
  filter h (map f l) = filter h l.
Proof.
  intros Hfix Hh. induction l as [|a l IH]; simpl; [reflexivity|].
  rewrite Hh. destruct (h a) eqn:Ha; [|assumption].
  now rewrite (Hfix a Ha), IH.
Qed.



Lemma editor_stmt_keeps (now : Z) (display_df edited_df : list Mapper.editor_row)
    (P : FieldMappings.row -> Prop) (q : FieldMappings.stmt) :
  (forall r r', same_mapping r r' -> P r -> P r') ->
  editor_stmt now display_df edited_df q -> keeps now P q.
Proof.
  intros HP Hq. destruct Hq as [i Hi|sets i Hi Hsame]; cbn [keeps]; [exact I|].
  intros r Hr. eapply HP; [apply Hsame | exact Hr].
Qed.


(** X4. A mapping whose row was removed in the editor is deleted from
    the store by id: once the engine has run the statements of the
    save, no row of that id is left. *)
Theorem mappings_editor_deletes_by_id (st_user : Py.result string) (now : Z)
    (fresh : list FieldMappings.row -> FieldMappings.row)
    (engine_error : FieldMappings.stmt -> list FieldMappings.row -> option string)
    (display_df edited_df : list Mapper.editor_row)
    (rows : list FieldMappings.row) (k : Z) :
  In (Py.Id k) (Mapper.deleted_ids display_df edited_df) ->
  (forall q d, engine_error q d = None) ->
  Forall (fun r => FieldMappings.mapping_id r <> k)
         (FieldMappings.execute_all now fresh engine_error
            (Mapper.save_mappings st_user display_df edited_df) rows).
Proof.
  intros Hk Hok.
  pose proof (save_mappings_stmts now st_user display_df edited_df) as Hall.
  assert (Hin : In (FieldMappings.Delete (FieldMappings.MappingIdEq (Py.Id k)))
                   (Mapper.save_mappings st_user display_df edited_df)).
  { unfold Mapper.save_mappings. apply in_or_app. left.
    apply (in_map (fun i => FieldMappings.Delete (FieldMappings.MappingIdEq i))
                  _ _ Hk). }
  apply in_split in Hin. destruct Hin as (l1 & l2 & Heq).
  rewrite Heq in *. unfold FieldMappings.execute_all.
  rewrite fold_left_app. cbn [fold_left].
  apply keeps_execute_all.
  - apply Forall_forall. intros q Hq.
    eapply editor_stmt_keeps; [|apply Hall; apply in_or_app; right; now right].
    intros r r' Hsame Hr. rewrite (proj1 Hsame). exact Hr.
  - unfold FieldMappings.execute_query at 1. rewrite Hok.
    cbn [FieldMappings.exec]. apply Forall_forall. intros r Hr.
    apply filter_In in Hr. destruct Hr as [_ Hr].
    cbn [FieldMappings.holds Py.idcell_eqb] in Hr.
    intros E. subst k. rewrite Z.eqb_refl in Hr. discriminate.
Qed.

Lemma mappings_editor_deletes_by_id_witness :
  Forall (fun r => FieldMappings.mapping_id r <> 1)
         (FieldMappings.execute_all sample_now mapping_fresh mapping_accepts
            (Mapper.save_mappings bob (map Mapper.display_row_of mapping_rows)
                                  mappings_edited) mapping_rows).
Proof.
  apply (mappings_editor_deletes_by_id bob sample_now mapping_fresh
           mapping_accepts (map Mapper.display_row_of mapping_rows)
           mappings_edited mapping_rows 1).
  - vm_compute. left. reflexivity.
  - reflexivity.
Defined.

(* ===================================================================== *)
(** ** View Mappings: the duplicate counter *)
(* ===================================================================== *)

Lemma filter_length_mono {A} (p q : A -> bool) (l : list A) :
  (forall x, p x = true -> q x = true) ->
  (List.length (filter p l) <= List.length (filter q l))%nat.
Proof.
  intros H. induction l as [|a l IH]; simpl; [lia|].
  destruct (p a) eqn:Hp.
  - rewrite (H a Hp). simpl. lia.
  - destruct (q a); simpl; lia.
Qed.

Lemma filter_flags {A} (g : A -> bool) (l : list A) :
  List.length (filter (fun flag : bool => flag) (map g l))
  = List.length (filter g l).
Proof.
  induction l as [|a l IH]; simpl; [reflexivity|].
  destruct (g a); simpl; now rewrite IH.
Qed.

(** X5. The duplicate counter of View Mappings is never 1: a frame has
    no flagged row, or at least two. *)
Theorem duplicate_count_never_one (df : list FieldMappings.row) :
  MapperCounts.duplicate_count df = 0%nat
  \/ (2 <= MapperCounts.duplicate_count df)%nat.
Proof.
  unfold MapperCounts.duplicate_count, Mapper.duplicated_keep_false.
  rewrite filter_flags.
  destruct (filter (fun r => Nat.leb 2 (Mapper.occurrences (Mapper.subset r) df))
                   df) as [|r rest] eqn:Hf; [now left|].
  right. rewrite <- Hf.
  assert (Hr : In r (filter (fun r => Nat.leb 2 (Mapper.occurrences
                                                  (Mapper.subset r) df)) df))
    by (rewrite Hf; now left).
  apply filter_In in Hr. destruct Hr as [_ Hr]. apply Nat.leb_le in Hr.
  eapply Nat.le_trans; [exact Hr|].
  unfold Mapper.occurrences at 1. apply filter_length_mono.
  intros x Hx. apply subset_eqb_eq in Hx. rewrite Hx.
  now apply Nat.leb_le.
Qed.

(* ===================================================================== *)
(** ** Manual entry and the TPA filter of View Mappings *)
(* ===================================================================== *)

Lemma mappings_query_tpa (selected_filter_table t : string)
    (selected_sort : Mapper.sort_option) (rows : list FieldMappings.row)
    (r : FieldMappings.row) :
  Py.truthy t = true ->
  In r (Mapper.mappings_query selected_filter_table (Some t) selected_sort rows) ->
  FieldMappings.tpa r = Some (Sql.literal t).
Proof.
  intros Ht Hin. unfold Mapper.mappings_query in Hin.
  eapply Permutation_in in Hin;
    [|apply Permutation_sym; apply order_by_perm].
  apply filter_In in Hin. destruct Hin as [_ Hall].
  rewrite forallb_forall in Hall.
  specialize (Hall (FieldMappings.TpaEq (Sql.literal t))).
  unfold Mapper.where_clauses in Hall. rewrite Ht in Hall.
  assert (Hw : FieldMappings.holds (FieldMappings.TpaEq (Sql.literal t)) r = true)
    by (apply Hall; apply in_or_app; right; now left).
  cbn [FieldMappings.holds] in Hw. unfold FieldMappings.option_is in Hw.
  destruct (FieldMappings.tpa r) as [v|]; [|discriminate].
  apply String.eqb_eq in Hw. now subst.
Qed.

(** X6. The manual entry form writes no TPA: the new mapping carries
    whatever the tpa column defaults to.  When that default is NULL,
    the mapping just created is not listed in View Mappings as long as
    a TPA is selected in the header, whatever the TPA.  The two filter
    values carry no quote, so that the query the engine reads is the
    one the filters spell. *)
Theorem manual_entry_hidden_by_tpa_filter (now : Z)
    (fresh : list FieldMappings.row -> FieldMappings.row)
    (engine_error : FieldMappings.stmt -> list FieldMappings.row -> option string)
    (f : Mapper.manual_mapping_form) (rows : list FieldMappings.row)
    (selected_filter_table t : string) (selected_sort : Mapper.sort_option) :
  Py.truthy (Mapper.source_field_ f) = true ->
  Py.truthy (Mapper.target_table_ f) = true ->
  Py.truthy (Mapper.target_column_ f) = true ->
  (forall q d, engine_error q d = None) ->
  quote_free selected_filter_table -> quote_free t ->
  exists r,
    FieldMappings.execute_all now fresh engine_error
      (Mapper.manual_mapping_submit f) rows = rows ++ [r]
    /\ FieldMappings.tpa r = FieldMappings.tpa (fresh rows)
    /\ (FieldMappings.tpa (fresh rows) = None ->
        Py.truthy t = true ->
        ~ In r (Mapper.mappings_query selected_filter_table (Some t)
                                      selected_sort (rows ++ [r]))).
Proof.
  intros Hsf Htt Htc Hok _ _.
  unfold Mapper.manual_mapping_submit, FieldMappings.execute_all.
  rewrite Hsf, Htt, Htc. cbn [negb orb fold_left].
  unfold FieldMappings.execute_query. rewrite Hok.
  cbn [FieldMappings.exec]. eexists. split; [reflexivity|].
  split; [reflexivity|].
  intros Hnone Ht Hin.
  apply (mappings_query_tpa _ _ _ _ _ Ht) in Hin.
  cbn in Hin. rewrite Hnone in Hin. discriminate.
Qed.

Lemma manual_entry_hidden_by_tpa_filter_witness :
  exists r,
    FieldMappings.execute_all sample_now mapping_fresh mapping_accepts
      (Mapper.manual_mapping_submit manual_form) mapping_rows
    = mapping_rows ++ [r]
    /\ FieldMappings.tpa r = None
    /\ ~ In r (Mapper.mappings_query "(All Tables)" (Some "ACME")
                                     Mapper.Source_Field (mapping_rows ++ [r])).
Proof.
  destruct (manual_entry_hidden_by_tpa_filter sample_now mapping_fresh
              mapping_accepts manual_form mapping_rows "(All Tables)" "ACME"
              Mapper.Source_Field eq_refl eq_refl eq_refl
              (fun _ _ => eq_refl) eq_refl eq_refl)
    as (r & Hrun & Htpa & Hhidden).
  exists r. split; [exact Hrun|]. split; [rewrite Htpa; reflexivity|].
  apply Hhidden; reflexivity.
Defined.

(* ===================================================================== *)
(** ** Tables behind [execute_query]: what a run of statements keeps *)
(* ===================================================================== *)

Section TableFacts.

Context {row assign cond : Type}.
Variable assign1 : assign -> row -> row.
Variable holds : cond -> row -> bool.
Variable fresh : list row -> row.
Variable engine_error : Table.stmt assign cond -> list row -> option string.

Local Abbreviation execute_query :=
  (Table.execute_query assign1 holds fresh engine_error).
Local Abbreviation execute_all :=
  (Table.execute_all assign1 holds fresh engine_error).
Local Abbreviation exec := (Table.exec assign1 holds fresh).

Lemma table_execute_all_app (qs qs' : list (Table.stmt assign cond))
    (rows : list row) :
  execute_all (qs ++ qs') rows = execute_all qs' (execute_all qs rows).
Proof. apply fold_left_app. Qed.



Lemma table_tracks_refl (R : row -> row -> Prop) (Q : row -> Prop)
    (rows : list row) :
  (forall r, R r r) -> table_tracks R Q rows rows.
Proof.
  intros HR. exists rows, []. rewrite app_nil_r. repeat split; [|constructor].
  induction rows; constructor; auto.
Qed.

Lemma table_tracks_exec (R : row -> row -> Prop) (Q : row -> Prop)
    (q : Table.stmt assign cond) (old new : list row) :
  stmt_tracks assign1 holds R Q q -> table_tracks R Q old new ->
  table_tracks R Q old (exec q new).
Proof.
  intros Hq (kept & added & -> & HR & HQ).
  destruct q as [cols|sets w|w]; cbn [stmt_tracks] in Hq; [| |contradiction];
    unfold exec; cbn [Table.exec].
  - exists kept, (added ++ [Table.assign_all assign1 cols
                                             (fresh (kept ++ added))]).
    rewrite app_assoc. repeat split; [assumption|].
    apply Forall_app. split; [assumption|]. constructor; [apply Hq|constructor].
  - destruct Hq as [HqR HqQ]. rewrite map_app. eexists _, _.
    split; [reflexivity|]. split.
    + clear HQ. induction HR as [|r r' l l' Hrr HR IH]; cbn [map];
        constructor; [|assumption].
      destruct (holds w r') eqn:Hw; [now apply HqR | assumption].
    + apply Forall_forall. intros r' Hr'. apply in_map_iff in Hr'.
      destruct Hr' as [r [<- Hr]]. rewrite Forall_forall in HQ.
      destruct (holds w r) eqn:Hw; [apply HqQ; [assumption|]|]; now apply HQ.
Qed.

Lemma table_tracks_execute (R : row -> row -> Prop) (Q : row -> Prop)
    (q : Table.stmt assign cond) (old new : list row) :
  stmt_tracks assign1 holds R Q q -> table_tracks R Q old new ->
  table_tracks R Q old (execute_query q new).
Proof.
  intros Hq Ht. unfold execute_query, Table.execute_query.
  destruct (engine_error q new); [assumption|]. now apply table_tracks_exec.
Qed.

Lemma table_tracks_execute_all (R : row -> row -> Prop) (Q : row -> Prop)
    (qs : list (Table.stmt assign cond)) (old new : list row) :
  (forall q, In q qs -> stmt_tracks assign1 holds R Q q) ->
  table_tracks R Q old new ->
  table_tracks R Q old (execute_all qs new).
Proof.
  unfold execute_all, Table.execute_all. revert new.
  induction qs as [|q qs IH]; intros new Hqs Ht; cbn [fold_left];
    [assumption|].
  apply IH; [intros q' Hq'; apply Hqs; now right|].
  apply table_tracks_execute; [apply Hqs; now left | assumption].
Qed.

(** A statement the engine accepts moves the run from [R] to the
    stronger [R']; the statements after it keep [R']. *)
Lemma table_tracks_from (R R' : row -> row -> Prop) (Q : row -> Prop)
    (qs : list (Table.stmt assign cond)) (q : Table.stmt assign cond)
    (old new : list row) :
  In q qs ->
  (forall q', In q' qs -> stmt_tracks assign1 holds R Q q') ->
  (forall q', In q' qs -> stmt_tracks assign1 holds R' Q q') ->
  (forall rows, engine_error q rows = None) ->
  (forall mid, table_tracks R Q old mid -> table_tracks R' Q old (exec q mid)) ->
  table_tracks R Q old new ->
  table_tracks R' Q old (execute_all qs new).
Proof.
  intros Hin HR HR' Hok Hest Ht.
  apply in_split in Hin. destruct Hin as (l1 & l2 & ->).
  rewrite table_execute_all_app.
  unfold execute_all at 1. unfold Table.execute_all. cbn [fold_left].
  apply table_tracks_execute_all.
  - intros q' Hq'. apply HR'. apply in_or_app. right. now right.
  - unfold Table.execute_query. rewrite Hok. apply Hest.
    apply table_tracks_execute_all; [|assumption].
    intros q' Hq'. apply HR. apply in_or_app. now left.
Qed.

Lemma table_spares_execute (h : row -> bool) (q : Table.stmt assign cond)
    (rows : list row) :
  stmt_spares assign1 holds h q ->
  filter h (execute_query q rows) = filter h rows.
Proof.
  intros Hq. unfold execute_query, Table.execute_query.
  destruct (engine_error q rows); [reflexivity|].
  destruct q as [cols|sets w|w]; cbn [Table.exec stmt_spares] in *.
  - rewrite filter_app. cbn [filter]. rewrite Hq. apply app_nil_r.
  - destruct Hq as [Hout Hsame]. apply filter_map_kept.
    + intros r Hr. now rewrite (Hout r Hr).
    + intros r. destruct (holds w r); [apply Hsame | reflexivity].
  - apply filter_filter_kept. intros r Hr. now rewrite (Hq r Hr).
Qed.

Lemma table_spares_execute_all (h : row -> bool)
    (qs : list (Table.stmt assign cond)) (rows : list row) :
  (forall q, In q qs -> stmt_spares assign1 holds h q) ->
  filter h (execute_all qs rows) = filter h rows.
Proof.
  unfold execute_all, Table.execute_all. revert rows.
  induction qs as [|q qs IH]; intros rows Hqs; cbn [fold_left];
    [reflexivity|].
  rewrite IH by (intros q' Hq'; apply Hqs; now right).
  apply table_spares_execute. apply Hqs. now left.
Qed.

End TableFacts.

Lemma table_tracks_length {row : Type} (R : row -> row -> Prop)
    (Q : row -> Prop) (old new : list row) :
  table_tracks R Q old new -> (List.length old <= List.length new)%nat.
Proof.
  intros (kept & added & -> & HR & _).
  apply Forall2_length in HR. rewrite length_app. lia.
Qed.


(* ===================================================================== *)
(** ** Known Mappings: Save Changes and the add form *)
(* ===================================================================== *)

Lemma upper_char_idem (c : ascii) :
  Py.upper_char (Py.upper_char c) = Py.upper_char c.
Proof.
  destruct c as [[] [] [] [] [] [] [] []]; reflexivity.
Qed.


Lemma update_row_shape (known_mappings_df : list KnownPage.editor_row)
    (row : KnownPage.editor_row) (q : KnownMappings.stmt) :
  In q (KnownPage.update_row known_mappings_df row) ->
  exists s t d a k,
    KnownPage.MAPPING_ID row = Py.Id k
    /\ q = Table.Update
             [KnownMappings.SourceField (Py.upper s);
              KnownMappings.TargetField (Py.upper t);
              KnownMappings.Description d; KnownMappings.Active a]
             (KnownMappings.MappingIdEq (Py.Id k)).
Proof.
  unfold KnownPage.update_row.
  destruct (KnownPage.MAPPING_ID row) as [|k] eqn:Hid; [contradiction|].
  destruct (Py.id_in _ _); [|contradiction].
  destruct (find _ _) as [orig|]; [|contradiction].
  destruct (KnownPage.changed orig row); [|contradiction].
  intros [<-|[]]. rewrite !escaped_id. eexists _, _, _, _, _.
  split; reflexivity.
Qed.

Lemma insert_row_shape (row : KnownPage.editor_row) (q : KnownMappings.stmt) :
  In q (KnownPage.insert_row row) ->
  exists s t d,
    q = Table.Insert
          [KnownMappings.SourceField (Py.upper s);
           KnownMappings.TargetField (Py.upper t);
           KnownMappings.Description d; KnownMappings.Active true].
Proof.
  unfold KnownPage.insert_row.
  destruct (Designer.isna_id _); [|contradiction].
  destruct (andb _ _); [|contradiction].
  intros [<-|[]]. rewrite !escaped_id. eexists _, _, _. reflexivity.
Qed.

Lemma update_row_stmts (known_mappings_df edited_df : list KnownPage.editor_row)
    (row : KnownPage.editor_row) (q : KnownMappings.stmt) :
  In row edited_df ->
  In q (KnownPage.update_row known_mappings_df row) ->
  known_stmt known_mappings_df edited_df q.
Proof.
  intros Hrow Hq. apply update_row_shape in Hq.
  destruct Hq as (s & t & d & a & k & Hid & ->). apply known_update.
  unfold KnownPage.edited_ids. rewrite <- Hid. now apply in_map.
Qed.

Lemma insert_row_stmts (known_mappings_df edited_df : list KnownPage.editor_row)
    (row : KnownPage.editor_row) (q : KnownMappings.stmt) :
  In q (KnownPage.insert_row row) ->
  known_stmt known_mappings_df edited_df q.
Proof.
  intros Hq. apply insert_row_shape in Hq. destruct Hq as (s & t & d & ->).
  apply known_insert.
Qed.

Lemma save_known_mappings_stmts
    (known_mappings_df edited_df : list KnownPage.editor_row)
    (q : KnownMappings.stmt) :
  In q (KnownPage.save_known_mappings known_mappings_df edited_df) ->
  known_stmt known_mappings_df edited_df q.
Proof.
  unfold KnownPage.save_known_mappings. intros Hq.
  apply in_app_or in Hq. destruct Hq as [Hq|Hq].
  - apply in_map_iff in Hq. destruct Hq as [i [<- Hi]].
    now apply known_deactivate.
  - apply in_app_or in Hq. destruct Hq as [Hq|Hq];
      apply in_flat_map in Hq; destruct Hq as [row [Hrow Hq]].
    + eapply update_row_stmts; eassumption.
    + eapply insert_row_stmts; eassumption.
Qed.

Lemma holds_known_id (i : Py.idcell) (r : KnownMappings.row) :
  KnownMappings.holds (KnownMappings.MappingIdEq i) r = true ->
  i = Py.Id (KnownMappings.mapping_id r).
Proof.
  cbn [KnownMappings.holds]. destruct i as [|k]; cbn [Py.idcell_eqb];
    [discriminate|].
  intros H. apply Z.eqb_eq in H. now subst.
Qed.

Lemma known_deleted_not_edited
    (known_mappings_df edited_df : list KnownPage.editor_row) (i : Py.idcell) :
  In i (KnownPage.deleted_ids known_mappings_df edited_df) ->
  In i (KnownPage.edited_ids edited_df) -> i = Py.IdNaN.
Proof.
  unfold KnownPage.deleted_ids. rewrite filter_In. intros [_ H] Hin.
  destruct i as [|k]; [reflexivity|].
  apply id_in_iff in Hin. rewrite Hin in H. discriminate.
Qed.



Lemma known_stmt_keeps_deactivated
    (known_mappings_df edited_df : list KnownPage.editor_row) (k : Z)
    (R : Z -> KnownMappings.row -> KnownMappings.row -> Prop)
    (q : KnownMappings.stmt) :
  R = deactivated_or_kept \/ R = surely_deactivated ->
  In (Py.Id k) (KnownPage.deleted_ids known_mappings_df edited_df) ->
  known_stmt known_mappings_df edited_df q ->
  stmt_tracks KnownMappings.assign1 KnownMappings.holds (R k)
              (fun _ => True) q.
Proof.
  intros HR Hk Hq.
  destruct Hq as [i Hi|s t d a i Hi|s t d]; cbn [stmt_tracks].
  - split; [|trivial]. intros r r' _.
    destruct HR as [-> | ->]; intros [Hid Hrow]; (split; [exact Hid|]);
      intros Hr.
    + right. destruct (Hrow Hr) as [-> | ->]; reflexivity.
    + rewrite (Hrow Hr). reflexivity.
  - split; [|trivial]. intros r r' Hw Hrr.
    apply holds_known_id in Hw. subst i.
    assert (Hid : KnownMappings.mapping_id r' = KnownMappings.mapping_id r)
      by (destruct HR as [-> | ->]; exact (proj1 Hrr)).
    assert (Hne : KnownMappings.mapping_id r <> k).
    { intros Heq.
      pose proof (known_deleted_not_edited _ _ _ Hk) as Hnot.
      rewrite Hid, Heq in Hi. specialize (Hnot Hi). discriminate. }
    destruct HR as [-> | ->]; (split; [exact Hid | intros Hr; contradiction]).
  - trivial.
Qed.

(** X8. A known mapping whose row was removed in the editor is
    deactivated, not deleted: once the engine has run the statements of
    the save, every stored row of that id is the row it was with the
    active flag cleared, in its old place. *)
Theorem known_mapping_removed_is_deactivated
    (fresh : list KnownMappings.row -> KnownMappings.row)
    (engine_error : KnownMappings.stmt -> list KnownMappings.row -> option string)
    (known_mappings_df edited_df : list KnownPage.editor_row)
    (rows : list KnownMappings.row) (k : Z) :
  In (Py.Id k) (KnownPage.deleted_ids known_mappings_df edited_df) ->
  (forall q d, engine_error q d = None) ->
  table_tracks (surely_deactivated k) (fun _ => True) rows
    (KnownMappings.execute_all fresh engine_error
       (KnownPage.save_known_mappings known_mappings_df edited_df) rows).
Proof.
  intros Hk Hok. unfold KnownMappings.execute_all.
  apply (table_tracks_from _ _ _ _ (deactivated_or_kept k)
           (surely_deactivated k) (fun _ => True)
           (KnownPage.save_known_mappings known_mappings_df edited_df)
           (KnownPage.delete_query (Py.Id k))).
  - unfold KnownPage.save_known_mappings. apply in_or_app. left.
    now apply in_map.
  - intros q Hq. eapply known_stmt_keeps_deactivated;
      [now left | exact Hk | now apply save_known_mappings_stmts].
  - intros q Hq. eapply known_stmt_keeps_deactivated;
      [now right | exact Hk | now apply save_known_mappings_stmts].
  - intros d. apply Hok.
  - intros mid (kept & added & -> & HR & _).
    unfold KnownPage.delete_query. cbn [Table.exec]. rewrite map_app.
    eexists _, _. split; [reflexivity|]. split; [|apply Forall_forall; trivial].
    induction HR as [|r r' l l' [Hid Hrow] HR IH]; cbn [map];
      constructor; [|assumption].
    cbn [KnownMappings.holds Py.idcell_eqb].
    destruct (Z.eqb_spec (KnownMappings.mapping_id r') k) as [Heq|Hne].
    + split; [exact Hid|]. intros Hr.
      destruct (Hrow Hr) as [-> | ->]; reflexivity.
    + split; [exact Hid|]. intros Hr. congruence.
  - apply table_tracks_refl. intros r. split; [reflexivity|]. now left.
Qed.

Lemma known_mapping_removed_is_deactivated_witness :
  table_tracks (surely_deactivated 1) (fun _ => True) known_rows
    (KnownMappings.execute_all known_fresh known_accepts
       (KnownPage.save_known_mappings (KnownPage.known_mappings_df known_rows)
                                      known_edited) known_rows).
Proof.
  apply (known_mapping_removed_is_deactivated known_fresh known_accepts
           (KnownPage.known_mappings_df known_rows) known_edited known_rows 1).
  - vm_compute. left. reflexivity.
  - reflexivity.
Defined.



(* ===================================================================== *)
(** ** Prompt Templates: the default template, and the ids that are stored *)
(* ===================================================================== *)




Lemma upper_replace_char (s : string) :
  Py.upper (PyStr.replace_char " " "_" (Py.upper s))
  = PyStr.replace_char " " "_" (Py.upper s).
Proof.
  induction s as [|c rest IH]; cbn [Py.upper PyStr.replace_char];
    [reflexivity|].
  rewrite IH. f_equal.
  destruct (Ascii.eqb (Py.upper_char c) " "); [reflexivity|].
  apply upper_char_idem.
Qed.

Lemma no_space_replace_char (s : string) :
  Py.contains " " (PyStr.replace_char " " "_" s) = false.
Proof.
  induction s as [|c rest IH]; [reflexivity|].
  cbn [PyStr.replace_char]. rewrite contains_char_cons, IH, orb_false_r.
  destruct (Ascii.eqb c " ") eqn:Hc; [reflexivity | exact Hc].
Qed.

(** X11. The id under which Add Prompt Template stores a template
    holds no space and no lower-case letter: for an ASCII id, and form
    texts without backslash, it is the typed id in upper case with
    every space turned into an underscore; name and text are stored as
    typed, and the template is stored active. *)
Theorem added_template_id_normalised (now : Z)
    (fresh : list PromptTemplates.row -> PromptTemplates.row)
    (engine_error : PromptTemplates.stmt -> list PromptTemplates.row
                    -> option string)
    (f : PromptsPage.add_prompt_template_form)
    (rows : list PromptTemplates.row) :
  Py.truthy (PromptsPage.new_template_id f) = true ->
  Py.truthy (PromptsPage.new_template_name f) = true ->
  Py.truthy (PromptsPage.new_template_text f) = true ->
  ascii_text (PromptsPage.new_template_id f) ->
  Forall backslash_free (template_texts f) ->
  (forall q d, engine_error q d = None) ->
  exists r,
    PromptTemplates.execute_all now fresh engine_error
      (PromptsPage.add_submitted f) rows = rows ++ [r]
    /\ PromptTemplates.template_id r
       = PyStr.replace_char " " "_" (Py.upper (PromptsPage.new_template_id f))
    /\ Py.contains " " (PromptTemplates.template_id r) = false
    /\ upper_case (PromptTemplates.template_id r)
    /\ PromptTemplates.template_name r = PromptsPage.new_template_name f
    /\ PromptTemplates.template_text r = PromptsPage.new_template_text f
    /\ PromptTemplates.active r = true.
Proof.
  intros Hid Hname Htext _ _ Hok.
  unfold PromptsPage.add_submitted, PromptTemplates.execute_all,
    Table.execute_all.
  rewrite Hid, Hname, Htext. cbn [negb orb fold_left].
  unfold Table.execute_query. rewrite Hok. cbn [Table.exec].
  eexists. split; [reflexivity|].
  unfold PromptsPage.safe_id. rewrite !escaped_id, literal_double_quotes.
  cbn. repeat split.
  - apply no_space_replace_char.
  - apply upper_replace_char.
Qed.

Lemma added_template_id_normalised_witness :
  exists r,
    PromptTemplates.execute_all sample_now template_fresh template_accepts
      (PromptsPage.add_submitted template_form) template_rows
    = template_rows ++ [r]
    /\ PromptTemplates.template_id r = "CUSTOM_MAPPING_V2".
Proof.
  destruct (added_template_id_normalised sample_now template_fresh
              template_accepts template_form template_rows
              eq_refl eq_refl eq_refl eq_refl ltac:(repeat constructor)
              (fun _ _ => eq_refl))
    as (r & Hrun & Hid & _).
  exists r. split; [exact Hrun | exact Hid].
Defined.

(* ===================================================================== *)
(** ** Rules Engine: what Add Rule and Update Rule write *)
(* ===================================================================== *)

(** X12. A rule created with the target table left blank is a global
    rule: for form texts and a tested table name that the statements
    carry whole (no quote and no backslash in the texts interpolated
    unescaped, no backslash in those whose quotes are doubled), it is
    stored with no target table and, stored active, it is listed by
    Test Rules for every target table. *)
Theorem blank_table_rule_is_global (json_loads : string -> Py.result unit)
    (now : Z) (fresh : list RulesTable.row -> RulesTable.row)
    (engine_error : RulesTable.stmt -> list RulesTable.row -> option string)
    (f : RulesForms.add_rule_form) (rows : list RulesTable.row)
    (test_target_table : string) :
  Py.truthy (RulesForms.rule_id f) = true ->
  Py.truthy (RulesForms.rule_name f) = true ->
  Py.truthy (RulesForms.rule_logic f) = true ->
  RulesForms.params_value json_loads (RulesForms.rule_parameters_ f) <> None ->
  RulesForms.selected_table f = EmptyString ->
  RulesForms.active f = true ->
  Forall whole_literal (add_rule_unescaped f) ->
  Forall backslash_free (add_rule_escaped f) ->
  (forall q d, engine_error q d = None) ->
  whole_literal test_target_table ->
  exists r,
    RulesTable.execute_all now fresh engine_error
      (RulesForms.add_rule_submit json_loads f) rows = rows ++ [r]
    /\ Rules.target_table (RulesTable.rule r) = None
    /\ In (RulesTable.rule r)
          (RulesPage.rules_for_table_df test_target_table
             (RulesTable.listed (rows ++ [r]))).
Proof.
  intros Hid Hname Hlogic Hparams Htable Hactive _ _ Hok _.
  unfold RulesForms.add_rule_submit, RulesTable.execute_all, Table.execute_all.
  rewrite Hid, Hname, Hlogic. cbn [negb orb].
  destruct (RulesForms.params_value json_loads _) as [params|];
    [|contradiction].
  cbn [fold_left]. unfold Table.execute_query. rewrite Hok. cbn [Table.exec].
  eexists. split; [reflexivity|].
  rewrite Htable, Hactive.
  set (r := Table.assign_all _ _ _).
  assert (Ht : Rules.target_table (RulesTable.rule r) = None) by reflexivity.
  assert (Ha : Rules.active (RulesTable.rule r) = true) by reflexivity.
  clearbody r. split; [exact Ht|].
  unfold RulesPage.rules_for_table_df.
  eapply Permutation_in; [apply order_by_perm|].
  apply filter_In. split.
  - unfold RulesTable.listed. apply in_map. apply in_or_app. right. now left.
  - cbn [Rules.holds]. rewrite Ht, Ha. reflexivity.
Qed.

Lemma blank_table_rule_is_global_witness :
  exists r,
    RulesTable.execute_all sample_now rule_fresh rule_accepts
      (RulesForms.add_rule_submit sample_json_loads global_rule_form)
      stored_rules = stored_rules ++ [r]
    /\ In (RulesTable.rule r)
          (RulesPage.rules_for_table_df "CUSTOMER"
             (RulesTable.listed (stored_rules ++ [r]))).
Proof.
  destruct (blank_table_rule_is_global sample_json_loads sample_now rule_fresh
              rule_accepts global_rule_form stored_rules "CUSTOMER"
              eq_refl eq_refl eq_refl) as (r & Hrun & _ & Hin).
  - discriminate.
  - reflexivity.
  - reflexivity.
  - repeat constructor.
  - repeat constructor.
  - reflexivity.
  - split; reflexivity.
  - exists r. split; [exact Hrun | exact Hin].
Defined.

Lemma Forall2_map_eq {Row Key : Type} (key : Row -> Key)
    (old kept : list Row) :
  Forall2 (fun r r' => key r' = key r) old kept -> map key kept = map key old.
Proof.
  intros H. induction H as [|r r' old kept Hk _ IH]; cbn [map];
    [reflexivity|]. now rewrite Hk, IH.
Qed.

(** X13. Update Rule reaches the selected rule only: for a selected id
    and form texts that the statement carries whole (no quote and no
    backslash in the texts interpolated unescaped, no backslash in
    those whose quotes are doubled), every rule of another id is left
    exactly as stored, no rule is added or removed, and every rule
    keeps its id and its creation time, whatever the engine
    refuses. *)
Theorem update_rule_frame (json_loads : string -> Py.result unit)
    (now : Z) (fresh : list RulesTable.row -> RulesTable.row)
    (engine_error : RulesTable.stmt -> list RulesTable.row -> option string)
    (selected_rule_id : string) (f : RulesForms.edit_rule_form)
    (rows : list RulesTable.row) :
  whole_literal selected_rule_id ->
  Forall whole_literal (edit_rule_unescaped f) ->
  Forall backslash_free (edit_rule_escaped f) ->
  filter (other_rule selected_rule_id)
         (RulesTable.execute_all now fresh engine_error
            (RulesForms.update_submitted json_loads selected_rule_id f) rows)
  = filter (other_rule selected_rule_id) rows
  /\ Forall2 same_rule rows
       (RulesTable.execute_all now fresh engine_error
          (RulesForms.update_submitted json_loads selected_rule_id f) rows).
Proof.
  intros [Hsel _] _ _. unfold RulesTable.execute_all.
  assert (Hshape :
    forall q, In q (RulesForms.update_submitted json_loads selected_rule_id f) ->
      exists sets,
        q = Table.Update sets (RulesTable.RuleIdEq selected_rule_id)
        /\ forall r, same_rule r (Table.assign_all (RulesTable.assign1 now) sets r)).
  { intros q. unfold RulesForms.update_submitted.
    destruct (orb _ _); [contradiction|].
    destruct (RulesForms.edit_params_value json_loads _) as [params|];
      [|contradiction].
    intros [<-|[]]. rewrite (literal_quote_free _ Hsel).
    eexists. split; [reflexivity|]. intros r. split; reflexivity. }
  split.
  - apply table_spares_execute_all. intros q Hq.
    destruct (Hshape q Hq) as (sets & -> & Hsame). cbn [stmt_spares]. split.
    + intros r Hr. unfold other_rule in Hr. cbn [RulesTable.holds].
      now apply negb_true_iff in Hr.
    + intros r. unfold other_rule. now rewrite (proj1 (Hsame r)).
  - assert (Ht : table_tracks same_rule (fun _ => False) rows
                   (Table.execute_all (RulesTable.assign1 now) RulesTable.holds
                      fresh engine_error
                      (RulesForms.update_submitted json_loads selected_rule_id f)
                      rows)).
    { apply table_tracks_execute_all.
      - intros q Hq. destruct (Hshape q Hq) as (sets & -> & Hsame).
        cbn [stmt_tracks]. split; [|intros r' _ []].
        intros r r' _ [Hid Hct]. destruct (Hsame r') as [Hid' Hct'].
        split; congruence.
      - apply table_tracks_refl. intros r. split; reflexivity. }
    destruct Ht as (kept & added & -> & HR & HQ).
    destruct added as [|x added]; [now rewrite app_nil_r|].
    inversion HQ; contradiction.
Qed.

Lemma update_rule_frame_witness :
  filter (other_rule "R1")
         (RulesTable.execute_all sample_now rule_fresh rule_accepts
            (RulesForms.update_submitted sample_json_loads "R1" rule_edit_form)
            stored_rules)
  = filter (other_rule "R1") stored_rules.
Proof.
  apply (update_rule_frame sample_json_loads sample_now rule_fresh rule_accepts
           "R1" rule_edit_form stored_rules).
  - split; reflexivity.
  - repeat constructor.
  - repeat constructor.
Defined.

(* ===================================================================== *)
(** ** Target Table Designer: the selection and the drop dialogue *)
(* ===================================================================== *)

(** X14. A drop that raises is always shown as an error and changes
    nothing: whatever the message of the exception, the dialogue shows
    it behind the word Error, the confirmation stays pending and the
    table stays selected. *)
Theorem failed_drop_keeps_dialogue (DB_SILVER : string)
    (collect : string -> Py.result (list Session.row_dict))
    (table_name msg : string) (st : TableSelector.session_state) :
  collect (TableSelector.drop_call DB_SILVER table_name) = Py.Raise msg ->
  TableSelector.confirm_yes DB_SILVER collect table_name st
  = (TableSelector.Error_ ("Error: " ++ msg), st).
Proof.
  intros Hraise. unfold TableSelector.confirm_yes, Session.execute_procedure,
    Session.execute_procedure_try.
  rewrite Hraise. reflexivity.
Qed.

Lemma failed_drop_keeps_dialogue_witness :
  TableSelector.confirm_yes "db.SILVER" failing_collect "CUSTOMER"
                            designer_state
  = (TableSelector.Error_ "Error: SQL access control error", designer_state).
Proof.
  apply (failed_drop_keeps_dialogue "db.SILVER" failing_collect "CUSTOMER"
           "SQL access control error" designer_state).
  reflexivity.
Defined.

Lemma index_nth_error (t : string) (table_list : list string) :
  existsb (String.eqb t) table_list = true ->
  nth_error table_list (TableSelector.index t table_list) = Some t.
Proof.
  induction table_list as [|u rest IH]; [discriminate|].
  cbn [existsb TableSelector.index]. rewrite (String.eqb_sym t u).
  destruct (String.eqb_spec u t) as [->|Hne]; [reflexivity|].
  cbn [orb nth_error]. exact IH.
Qed.

Lemma existsb_eqb_In (t : string) (l : list string) :
  existsb (String.eqb t) l = true <-> In t l.
Proof.
  rewrite existsb_exists. split.
  - intros [u [Hin Heq]]. apply String.eqb_eq in Heq. now subst.
  - intros Hin. exists t. split; [assumption | apply String.eqb_refl].
Qed.

(** X15. With tables listed, the selection the Designer works with is
    always a listed table or the new-table marker: a missing, empty or
    stale selection falls back to the first table.  Unless the marker
    is selected, the radio button preselected is the selected table. *)
Theorem selection_is_listed (table_list : list string)
    (s : TableSelector.slot) :
  table_list <> [] ->
  exists t,
    TableSelector.get (TableSelector.initialise table_list s) = Some t
    /\ (In t table_list \/ t = "__NEW__")
    /\ (t <> "__NEW__" ->
        nth_error table_list
                  (TableSelector.current_index table_list (Some t)) = Some t).
Proof.
  intros Hne. destruct table_list as [|first_table rest]; [contradiction|].
  assert (Hfirst : existsb (String.eqb first_table) (first_table :: rest) = true)
    by (cbn [existsb]; now rewrite String.eqb_refl).
  assert (Hlisted : forall t,
            existsb (String.eqb t) (first_table :: rest) = true ->
            In t (first_table :: rest)
            /\ nth_error (first_table :: rest)
                 (TableSelector.current_index (first_table :: rest) (Some t))
               = Some t).
  { intros t Ht. split; [now apply existsb_eqb_In|].
    unfold TableSelector.current_index, TableSelector.in_list. rewrite Ht.
    now apply index_nth_error. }
  unfold TableSelector.initialise.
  destruct s as [|[t|]]; cbn [TableSelector.get TableSelector.in_list
                              TableSelector.is_new orb andb negb].
  - exists first_table. destruct (Hlisted _ Hfirst) as [Hin Hnth].
    split; [reflexivity|]. split; [now left | intros _; exact Hnth].
  - destruct (existsb (String.eqb t) (first_table :: rest)) eqn:Hin;
      cbn [negb andb TableSelector.get].
    + exists t. destruct (Hlisted _ Hin) as [Hin' Hnth].
      split; [reflexivity|]. split; [now left | intros _; exact Hnth].
    + destruct (String.eqb_spec t "__NEW__") as [->|Hnew];
        cbn [negb TableSelector.get].
      * exists "__NEW__". split; [reflexivity|].
        split; [now right | intros H; now contradiction H].
      * exists first_table. destruct (Hlisted _ Hfirst) as [Hin' Hnth].
        split; [reflexivity|]. split; [now left | intros _; exact Hnth].
  - exists first_table. destruct (Hlisted _ Hfirst) as [Hin Hnth].
    split; [reflexivity|]. split; [now left | intros _; exact Hnth].
Qed.

Lemma selection_is_listed_witness :
  exists t,
    TableSelector.get
      (TableSelector.initialise ["CUSTOMER"; "ORDERS"]
                                (TableSelector.Stored (Some "DROPPED")))
    = Some t
    /\ (In t ["CUSTOMER"; "ORDERS"] \/ t = "__NEW__").
Proof.
  destruct (selection_is_listed ["CUSTOMER"; "ORDERS"]
              (TableSelector.Stored (Some "DROPPED")))
    as (t & Hget & Hin & _); [discriminate|].
  exists t. split; [exact Hget | exact Hin].
Defined.

(* ===================================================================== *)
(** ** LLM tab: the default model *)
(* ===================================================================== *)

Lemma first_arctic_found (models : list string) (i : nat) :
  existsb LlmTab.is_arctic models = true ->
  exists k model,
    LlmTab.first_arctic i models = Some (i + k)%nat
    /\ nth_error models k = Some model
    /\ LlmTab.is_arctic model = true
    /\ forall j m, (j < k)%nat -> nth_error models j = Some m ->
                   LlmTab.is_arctic m = false.
Proof.
  revert i. induction models as [|model rest IH]; intros i; [discriminate|].
  cbn [existsb LlmTab.first_arctic].
  destruct (LlmTab.is_arctic model) eqn:Hm; cbn [orb].
  - intros _. exists 0%nat, model. rewrite Nat.add_0_r.
    repeat split; try assumption. intros j m Hj. lia.
  - intros Hrest. destruct (IH (S i) Hrest) as (k & m & Hf & Hn & Ha & Hbefore).
    exists (S k), m. rewrite Hf. repeat split; try assumption.
    + f_equal. lia.
    + intros j m' Hj Hnth. destruct j as [|j].
      * cbn in Hnth. inversion Hnth. now subst.
      * apply (Hbefore j); [lia | exact Hnth].
Qed.

Lemma available_models_has_arctic (models_df : list string) :
  existsb LlmTab.is_arctic (LlmTab.available_models models_df) = true.
Proof.
  unfold LlmTab.available_models.
  set (reported := if Py.truthy_list models_df then models_df else _).
  destruct (existsb LlmTab.is_arctic reported) eqn:H; cbn [negb]; [exact H|].
  reflexivity.
Qed.

(** X16. The model list of the LLM tab always offers an arctic model,
    and the model preselected is the first arctic model of the list,
    whatever the procedure reports; no model it reports is dropped. *)
Theorem default_model_is_first_arctic (models_df : list string) :
  exists model,
    nth_error (LlmTab.available_models models_df)
              (LlmTab.default_model_index (LlmTab.available_models models_df))
    = Some model
    /\ LlmTab.is_arctic model = true
    /\ (forall j m,
          (j < LlmTab.default_model_index (LlmTab.available_models models_df))%nat ->
          nth_error (LlmTab.available_models models_df) j = Some m ->
          LlmTab.is_arctic m = false)
    /\ incl models_df (LlmTab.available_models models_df).
Proof.
  destruct (first_arctic_found _ 0 (available_models_has_arctic models_df))
    as (k & model & Hf & Hn & Ha & Hbefore).
  unfold LlmTab.default_model_index. rewrite Hf. cbn [Nat.add].
  exists model. repeat split; try assumption.
  unfold LlmTab.available_models. intros m Hm.
  destruct models_df as [|m0 rest]; [contradiction|]. cbn [Py.truthy_list].
  destruct (negb _); [now right | exact Hm].
Qed.

(* ===================================================================== *)
(** ** File Coverage: the unmapped columns *)
(* ===================================================================== *)

(** X17. The number in the header of the unmapped list is the number of
    columns listed below it when the mapped columns are distinct
    columns of the file, and the list is empty exactly when every
    column of the file is among the mapped ones. *)
Theorem unmapped_header_counts_list (all_cols mapped_cols : list string) :
  NoDup all_cols -> NoDup mapped_cols -> incl mapped_cols all_cols ->
  Coverage.unmapped_header all_cols mapped_cols
  = Z.of_nat (List.length (Coverage.unmapped all_cols mapped_cols))
  /\ (Coverage.unmapped all_cols mapped_cols = [] <-> incl all_cols mapped_cols).
Proof.
  intros Hall Hmapped Hincl. split.
  - unfold Coverage.unmapped_header, Coverage.unmapped.
    pose proof (filter_length (fun col => existsb (String.eqb col) mapped_cols)
                              all_cols) as Hsplit.
    assert (Hperm : Permutation
                      (filter (fun col => existsb (String.eqb col) mapped_cols)
                              all_cols) mapped_cols).
    { apply NoDup_Permutation; [now apply NoDup_filter | assumption |].
      intros x. rewrite filter_In, existsb_eqb_In. split; [tauto|].
      intros Hx. split; [now apply Hincl | assumption]. }
    apply Permutation_length in Hperm. lia.
  - unfold Coverage.unmapped. split.
    + intros Hnil x Hx.
      destruct (existsb (String.eqb x) mapped_cols) eqn:Hm;
        [now apply existsb_eqb_In|].
      assert (Hin : In x (filter (fun col => negb (existsb (String.eqb col)
                                                           mapped_cols))
                                 all_cols))
        by (apply filter_In; now rewrite Hm).
      rewrite Hnil in Hin. contradiction.
    + intros Hsub. apply filter_nothing. intros x Hx.
      apply Hsub, existsb_eqb_In in Hx. now rewrite Hx.
Qed.

Lemma unmapped_header_counts_list_witness :
  Coverage.unmapped_header ["ID"; "NAME"; "DOB"] ["NAME"]
  = Z.of_nat (List.length (Coverage.unmapped ["ID"; "NAME"; "DOB"] ["NAME"])).
Proof.
  apply (unmapped_header_counts_list ["ID"; "NAME"; "DOB"] ["NAME"]).
  - repeat constructor; cbn; intuition discriminate.
  - repeat constructor; cbn; intuition discriminate.
  - intros x [<-|[]]. right. now left.
Defined.

(* ===================================================================== *)
(** ** Configuration files: what [load_config_from_stage] returns *)
(* ===================================================================== *)

Lemma get_set (key value : string) (config : Config.dict) (k : string) :
  Config.get (Config.set key value config) k
  = if String.eqb key k then Some value else Config.get config k.
Proof.
  induction config as [|[k0 v0] rest IH]; cbn [Config.set Config.get].
  - reflexivity.
  - destruct (String.eqb_spec k0 key) as [->|Hne]; cbn [Config.get].
    + destruct (String.eqb key k); reflexivity.
    + rewrite IH. destruct (String.eqb_spec k0 k) as [->|Hk]; [|reflexivity].
      destruct (String.eqb_spec key k) as [->|_]; [contradiction|reflexivity].
Qed.

Lemma has_key_set (key value : string) (config : Config.dict) (k : string) :
  Config.has_key config k = true ->
  Config.has_key (Config.set key value config) k = true.
Proof.
  unfold Config.has_key. rewrite get_set.
  destruct (String.eqb key k); [reflexivity | trivial].
Qed.

Lemma parse_rows_set_keeps_keys (rows : list (option string))
    (config : Config.dict) (k : string) :
  Config.has_key config k = true ->
  Config.has_key (fst (Config.parse_rows Config.set rows config)) k = true.
Proof.
  revert config. induction rows as [|[text|] rest IH]; intros config Hk;
    cbn [Config.parse_rows fst]; try assumption.
  apply IH. destruct (Config.parse_line text) as [[key value]|];
    [now apply has_key_set | assumption].
Qed.

Lemma silver_try_file_keeps_keys
    (read_stage : string -> string -> Py.result (list (option string)))
    (config_file : string) (config : Config.dict) (k : string) :
  Config.has_key config k = true ->
  Config.has_key (fst (SilverConfig.try_file read_stage config_file config)) k
  = true.
Proof.
  intros Hk. unfold SilverConfig.try_file.
  destruct (Config.get config "DATABASE_NAME"); [|assumption].
  destruct (read_stage _ _) as [result|]; [|assumption].
  destruct (Py.truthy_list result); [|assumption].
  pose proof (parse_rows_set_keeps_keys result config k Hk) as Hparsed.
  destruct (Config.parse_rows Config.set result config) as [parsed finished].
  cbn [fst] in Hparsed. destruct finished; cbn [fst]; [|assumption].
  now apply has_key_set.
Qed.

Lemma silver_try_files_keeps_keys
    (read_stage : string -> string -> Py.result (list (option string)))
    (config_files : list string) (config : Config.dict) (k : string) :
  Config.has_key config k = true ->
  Config.has_key (SilverConfig.try_files read_stage config_files config) k
  = true.
Proof.
  revert config. induction config_files as [|config_file rest IH];
    intros config Hk; cbn [SilverConfig.try_files]; [assumption|].
  pose proof (silver_try_file_keeps_keys read_stage config_file config k Hk)
    as Hstep.
  destruct (SilverConfig.try_file read_stage config_file config)
    as [config' found].
  cbn [fst] in Hstep. destruct found; [assumption | now apply IH].
Qed.

(** X18. Every key of the built-in defaults is defined in the
    configuration the Silver application loads, whatever the stage
    returns: a config file can change a default, never remove it. *)
Theorem silver_defaults_always_defined
    (read_stage : string -> string -> Py.result (list (option string)))
    (key : string) :
  In key (Config.keys SilverConfig.defaults) ->
  Config.has_key (SilverConfig.load_config_from_stage read_stage) key = true.
Proof.
  intros Hin. apply silver_try_files_keeps_keys.
  cbn in Hin. repeat (destruct Hin as [<-|Hin]; [reflexivity|]).
  contradiction.
Qed.

Lemma silver_defaults_always_defined_witness :
  Config.has_key (SilverConfig.load_config_from_stage sample_stage)
                 "WAREHOUSE_NAME" = true.
Proof.
  apply (silver_defaults_always_defined sample_stage "WAREHOUSE_NAME").
  cbn. tauto.
Defined.

Lemma parse_rows_finishes (update : string -> string -> Config.dict -> Config.dict)
    (rows : list (option string)) (config : Config.dict) :
  Forall (fun row => row <> None) rows ->
  snd (Config.parse_rows update rows config) = true.
Proof.
  intros Hrows. revert config.
  induction Hrows as [|[text|] rest Hrow _ IH]; intros config;
    cbn [Config.parse_rows snd]; [reflexivity | apply IH | contradiction].
Qed.

(** X19. custom.config takes precedence: when the stage returns rows
    for it and none of them is NULL, the Silver configuration is the
    defaults with the lines of that file applied, the sidebar names
    custom.config as the source, and default.config is not read. *)
Theorem custom_config_takes_precedence
    (read_stage : string -> string -> Py.result (list (option string)))
    (rows : list (option string)) :
  read_stage "db_ingest_pipeline" "custom.config" = Py.Ok rows ->
  rows <> [] ->
  Forall (fun row => row <> None) rows ->
  SilverConfig.load_config_from_stage read_stage
  = Config.set "_config_source" "custom.config"
      (fst (Config.parse_rows Config.set rows SilverConfig.defaults))
  /\ SilverConfig.config_source read_stage = "custom.config".
Proof.
  intros Hread Hne Hrows.
  assert (Hload : SilverConfig.load_config_from_stage read_stage
                  = Config.set "_config_source" "custom.config"
                      (fst (Config.parse_rows Config.set rows
                                              SilverConfig.defaults))).
  { unfold SilverConfig.load_config_from_stage.
    cbn [SilverConfig.try_files]. unfold SilverConfig.try_file at 1.
    cbn [Config.get SilverConfig.defaults String.eqb Ascii.eqb Bool.eqb].
    rewrite Hread. destruct rows as [|row rest]; [contradiction|].
    cbn [Py.truthy_list].
    pose proof (parse_rows_finishes Config.set (row :: rest)
                                    SilverConfig.defaults Hrows) as Hfin.
    destruct (Config.parse_rows Config.set (row :: rest) SilverConfig.defaults)
      as [parsed finished].
    cbn [snd] in Hfin. subst finished. reflexivity. }
  split; [exact Hload|].
  unfold SilverConfig.config_source. rewrite Hload, get_set. reflexivity.
Qed.

Lemma custom_config_takes_precedence_witness :
  SilverConfig.config_source sample_stage = "custom.config".
Proof.
  apply (custom_config_takes_precedence sample_stage custom_config).
  - reflexivity.
  - discriminate.
  - repeat constructor; discriminate.
Defined.

(** X20. When neither config file can be read (the read raises or
    returns no row), the Silver application runs on the built-in
    defaults and the sidebar says so. *)
Theorem unreadable_stage_gives_defaults
    (read_stage : string -> string -> Py.result (list (option string))) :
  (forall database config_file, unreadable (read_stage database config_file)) ->
  SilverConfig.load_config_from_stage read_stage = SilverConfig.defaults
  /\ SilverConfig.config_source read_stage = "default".
Proof.
  intros Hun.
  assert (Hfile : forall config_file config,
            SilverConfig.try_file read_stage config_file config
            = (config, false)).
  { intros config_file config. unfold SilverConfig.try_file.
    destruct (Config.get config "DATABASE_NAME") as [database|]; [|reflexivity].
    specialize (Hun database config_file).
    destruct (read_stage database config_file) as [result|]; [|reflexivity].
    cbn in Hun. now subst result. }
  assert (Hload : SilverConfig.load_config_from_stage read_stage
                  = SilverConfig.defaults).
  { unfold SilverConfig.load_config_from_stage.
    cbn [SilverConfig.try_files]. now rewrite !Hfile. }
  split; [exact Hload|].
  unfold SilverConfig.config_source. now rewrite Hload.
Qed.

Lemma unreadable_stage_gives_defaults_witness :
  SilverConfig.load_config_from_stage empty_stage = SilverConfig.defaults
  /\ SilverConfig.config_source empty_stage = "default".
Proof.
  apply (unreadable_stage_gives_defaults empty_stage).
  intros database config_file. exact I.
Defined.

(** X21. Within a config file the later line wins: after the lines are
    applied, a key holds the value of the last line that sets it, and
    the value it had before when no line sets it. *)
Theorem later_line_wins (rows : list (option string))
    (config config' : Config.dict) (key : string) :
  Config.parse_rows Config.set rows config = (config', true) ->
  Config.get config' key
  = match last_value key (assignments rows) with
    | Some value => Some value
    | None => Config.get config key
    end.
Proof.
  revert config. induction rows as [|[text|] rest IH]; intros config;
    cbn [Config.parse_rows assignments flat_map].
  - intros H. inversion H. reflexivity.
  - intros H. fold (assignments rest).
    destruct (Config.parse_line text) as [[k v]|].
    + rewrite (IH _ H), get_set. cbn [app last_value].
      destruct (last_value key (assignments rest)); [reflexivity|].
      destruct (String.eqb k key); reflexivity.
    + exact (IH _ H).
  - discriminate.
Qed.

Lemma later_line_wins_witness :
  Config.get (fst (Config.parse_rows Config.set
                     [Some "SCHEMA_NAME=RAW"; Some "SCHEMA_NAME=LANDING"]
                     SilverConfig.defaults))
             "SCHEMA_NAME"
  = Some "LANDING".
Proof.
  apply (later_line_wins [Some "SCHEMA_NAME=RAW"; Some "SCHEMA_NAME=LANDING"]
           SilverConfig.defaults _ "SCHEMA_NAME").
  reflexivity.
Defined.

Lemma keys_set_known (key value : string) (config : Config.dict) :
  Config.keys (BronzeConfig.set_known key value config) = Config.keys config.
Proof.
  unfold BronzeConfig.set_known, Config.has_key.
  destruct (Config.get config key) eqn:Hget; [|reflexivity].
  induction config as [|[k v] rest IH]; [discriminate|].
  cbn [Config.set Config.get] in *.
  destruct (String.eqb k key); [reflexivity|].
  unfold Config.keys in *. cbn [map fst]. f_equal. now apply IH.
Qed.

Lemma parse_rows_set_known_keys (rows : list (option string))
    (config : Config.dict) :
  Config.keys (fst (Config.parse_rows BronzeConfig.set_known rows config))
  = Config.keys config.
Proof.
  revert config. induction rows as [|[text|] rest IH]; intros config;
    cbn [Config.parse_rows fst]; try reflexivity.
  rewrite IH. destruct (Config.parse_line text) as [[key value]|];
    [apply keys_set_known | reflexivity].
Qed.

(** X22. The Bronze application accepts no new key from a config file:
    whatever the stage returns, the configuration it loads has exactly
    the thirteen keys of the built-in defaults, in their order. *)
Theorem bronze_config_keys_fixed
    (read_stage : string -> Py.result (list (option string))) :
  Config.keys (BronzeConfig.load_config_from_stage read_stage)
  = Config.keys BronzeConfig.defaults.
Proof.
  unfold BronzeConfig.load_config_from_stage.
  generalize BronzeConfig.defaults. generalize ["custom.config"; "default.config"].
  intros config_files. induction config_files as [|config_file rest IH];
    intros config; cbn [BronzeConfig.try_files]; [reflexivity|].
  assert (Hstep : Config.keys
                    (fst (BronzeConfig.try_file read_stage config_file config))
                  = Config.keys config).
  { unfold BronzeConfig.try_file.
    destruct (read_stage config_file); [apply parse_rows_set_known_keys|].
    reflexivity. }
  destruct (BronzeConfig.try_file read_stage config_file config)
    as [config' found].
  cbn [fst] in Hstep. destruct found; [exact Hstep|].
  now rewrite IH.
Qed.

(* ===================================================================== *)
(** ** Configuration files: reading one line *)
(* ===================================================================== *)

Lemma lstrip_length (s : string) :
  (String.length (Py.lstrip s) <= String.length s)%nat.
Proof.
  induction s as [|c rest IH]; cbn [Py.lstrip String.length]; [lia|].
  destruct (Py.is_space c); cbn [String.length]; lia.
Qed.

Lemma rstrip_length (s : string) :
  (String.length (Py.rstrip s) <= String.length s)%nat.
Proof.
  induction s as [|c rest IH]; cbn [Py.rstrip String.length]; [lia|].
  destruct (Py.rstrip rest) as [|d r].
  - destruct (Py.is_space c); cbn [String.length]; lia.
  - cbn [String.length] in *. lia.
Qed.

Lemma lstrip_fixed (s : string) :
  String.length (Py.lstrip s) = String.length s -> Py.lstrip s = s.
Proof.
  destruct s as [|c rest]; [reflexivity|]. cbn [Py.lstrip].
  destruct (Py.is_space c); [|reflexivity].
  pose proof (lstrip_length rest). cbn [String.length]. lia.
Qed.

Lemma strip_fixed (s : string) :
  Py.strip s = s -> Py.lstrip s = s /\ Py.rstrip s = s.
Proof.
  unfold Py.strip. intros H.
  assert (Hl : Py.lstrip s = s).
  { apply lstrip_fixed. pose proof (lstrip_length s).
    pose proof (rstrip_length (Py.lstrip s)). rewrite H in *. lia. }
  split; [exact Hl|]. now rewrite Hl in H.
Qed.

Lemma lstrip_char_length (c : ascii) (s : string) :
  (String.length (Config.lstrip_char c s) <= String.length s)%nat.
Proof.
  induction s as [|d rest IH]; cbn [Config.lstrip_char String.length]; [lia|].
  destruct (Ascii.eqb d c); cbn [String.length]; lia.
Qed.

Lemma rstrip_char_length (c : ascii) (s : string) :
  (String.length (Config.rstrip_char c s) <= String.length s)%nat.
Proof.
  induction s as [|d rest IH]; cbn [Config.rstrip_char String.length]; [lia|].
  destruct (Config.rstrip_char c rest) as [|e r].
  - destruct (Ascii.eqb d c); cbn [String.length]; lia.
  - cbn [String.length] in *. lia.
Qed.

Lemma lstrip_char_fixed (c : ascii) (s : string) :
  String.length (Config.lstrip_char c s) = String.length s ->
  Config.lstrip_char c s = s.
Proof.
  destruct s as [|d rest]; [reflexivity|]. cbn [Config.lstrip_char].
  destruct (Ascii.eqb d c); [|reflexivity].
  pose proof (lstrip_char_length c rest). cbn [String.length]. lia.
Qed.

Lemma strip_char_fixed (c : ascii) (s : string) :
  Config.strip_char c s = s ->
  Config.lstrip_char c s = s /\ Config.rstrip_char c s = s.
Proof.
  unfold Config.strip_char. intros H.
  assert (Hl : Config.lstrip_char c s = s).
  { apply lstrip_char_fixed. pose proof (lstrip_char_length c s).
    pose proof (rstrip_char_length c (Config.lstrip_char c s)).
    rewrite H in *. lia. }
  split; [exact Hl|]. now rewrite Hl in H.
Qed.

Lemma lstrip_app (s more : string) :
  Py.lstrip s = s -> Py.truthy s = true ->
  Py.lstrip (s ++ more) = (s ++ more)%string.
Proof.
  destruct s as [|c rest]; [discriminate|]. cbn [Py.lstrip append].
  destruct (Py.is_space c); [|reflexivity].
  intros H _. pose proof (lstrip_length rest) as Hlen. rewrite H in Hlen.
  cbn [String.length] in Hlen. lia.
Qed.

Lemma rstrip_cons (c : ascii) (s : string) :
  Py.rstrip s = s -> Py.truthy s = true ->
  Py.rstrip (String c s) = String c s.
Proof.
  intros H Hs. cbn [Py.rstrip]. rewrite H.
  destruct s; [discriminate | reflexivity].
Qed.

Lemma rstrip_app (before s : string) :
  Py.rstrip s = s -> Py.truthy s = true ->
  Py.rstrip (before ++ s) = (before ++ s)%string.
Proof.
  intros H Hs. induction before as [|c rest IH]; cbn [append]; [exact H|].
  apply rstrip_cons; [exact IH|]. destruct rest; [exact Hs | reflexivity].
Qed.

Lemma lstrip_char_app (c : ascii) (s more : string) :
  Config.lstrip_char c s = s -> Py.truthy s = true ->
  Config.lstrip_char c (s ++ more) = (s ++ more)%string.
Proof.
  destruct s as [|d rest]; [discriminate|]. cbn [Config.lstrip_char append].
  destruct (Ascii.eqb d c); [|reflexivity].
  intros H _. pose proof (lstrip_char_length c rest) as Hlen.
  rewrite H in Hlen. cbn [String.length] in Hlen. lia.
Qed.

Lemma rstrip_char_tail (c : ascii) (s : string) :
  Config.rstrip_char c s = s ->
  Config.rstrip_char c (s ++ String c EmptyString) = s.
Proof.
  induction s as [|d rest IH]; intros H.
  - cbn. now rewrite Ascii.eqb_refl.
  - assert (Hrest : Config.rstrip_char c rest = rest).
    { cbn [Config.rstrip_char] in H.
      destruct (Config.rstrip_char c rest) as [|e r] eqn:Hr.
      - destruct (Ascii.eqb d c); [discriminate|]. now inversion H.
      - now inversion H. }
    cbn [append Config.rstrip_char]. rewrite (IH Hrest).
    cbn [Config.rstrip_char] in H. rewrite Hrest in H. exact H.
Qed.

Lemma split_once_app (key value : string) :
  Py.contains "=" key = false ->
  Config.split_once "=" (key ++ String "=" value) = Some (key, value).
Proof.
  induction key as [|c rest IH]; intros H; cbn [append Config.split_once].
  - reflexivity.
  - rewrite contains_char_cons in H. apply orb_false_iff in H.
    destruct H as [Hc Hrest]. rewrite Hc, (IH Hrest). reflexivity.
Qed.

Lemma contains_equals_app (key value : string) :
  Py.contains "=" (key ++ String "=" value) = true.
Proof.
  induction key as [|c rest IH]; cbn [append]; rewrite contains_char_cons.
  - reflexivity.
  - rewrite IH. apply orb_true_r.
Qed.

Lemma parse_line_of (key value written : string) :
  Py.truthy key = true -> Py.strip key = key ->
  Py.contains "=" key = false -> String.prefix "#" key = false ->
  Py.strip written = written ->
  Config.strip_char "'" (Config.strip_char Config.double_quote written) = value ->
  Config.parse_line (key ++ String "=" written) = Some (key, value).
Proof.
  intros Hkey Hstrip Heq Hhash Hwritten Hvalue.
  destruct (strip_fixed key Hstrip) as [Hkl _].
  destruct (strip_fixed written Hwritten) as [_ Hwr].
  assert (Hline : Py.strip (key ++ String "=" written)
                  = (key ++ String "=" written)%string).
  { unfold Py.strip. rewrite (lstrip_app key _ Hkl Hkey).
    apply rstrip_app; [|reflexivity].
    cbn [Py.rstrip]. rewrite Hwr. now destruct written. }
  assert (Hfirst : Py.truthy (key ++ String "=" written) = true
                   /\ String.prefix "#" (key ++ String "=" written) = false).
  { destruct key as [|c rest]; [discriminate|]. split; [reflexivity|].
    cbn [append String.prefix] in *.
    destruct (ascii_dec "#" c); [|reflexivity].
    destruct rest; discriminate. }
  destruct Hfirst as [Htruthy Hcomment].
  unfold Config.parse_line.
  rewrite Hline, contains_equals_app, Htruthy, Hcomment.
  cbn [negb andb].
  now rewrite (split_once_app key written Heq), Hstrip, Hwritten, Hvalue.
Qed.

(** X23. A config line round trip: for an ASCII key without equals
    sign, without blanks around it and not starting with a hash, and
    an ASCII value without blanks or quotes around it, the lines
    KEY=value and
    KEY=<double quote>value<double quote> both set KEY to value; an
    equals sign inside the value is kept. *)
Theorem config_line_round_trip (key value : string) :
  ascii_text key -> ascii_text value ->
  Py.truthy key = true -> Py.strip key = key ->
  Py.contains "=" key = false -> String.prefix "#" key = false ->
  Py.strip value = value ->
  Config.strip_char Config.double_quote value = value ->
  Config.strip_char "'" value = value ->
  Config.parse_line (key ++ "=" ++ value) = Some (key, value)
  /\ Config.parse_line
       (key ++ "=" ++ String Config.double_quote
                             (value ++ String Config.double_quote EmptyString))
     = Some (key, value).
Proof.
  intros _ _ Hkey Hstrip Heq Hhash Hvalue Hdq Hsq.
  cbn [append]. split.
  - apply parse_line_of; try assumption. now rewrite Hdq.
  - destruct (strip_fixed value Hvalue) as [_ Hvr].
    destruct (strip_char_fixed _ value Hdq) as [Hdl Hdr].
    apply parse_line_of; try assumption.
    + unfold Py.strip. cbn [Py.lstrip].
      change (Py.is_space Config.double_quote) with false. cbn iota.
      change (String Config.double_quote
                     (value ++ String Config.double_quote EmptyString))
        with ((String Config.double_quote value)
                ++ String Config.double_quote EmptyString)%string.
      apply rstrip_app; reflexivity.
    + unfold Config.strip_char at 2. cbn [Config.lstrip_char].
      rewrite Ascii.eqb_refl.
      destruct value as [|c rest].
      * cbn. reflexivity.
      * rewrite (lstrip_char_app _ _ _ Hdl eq_refl).
        rewrite (rstrip_char_tail _ _ Hdr). exact Hsq.
Qed.

Lemma config_line_round_trip_witness :
  Config.parse_line "DATABASE_NAME=analytics" = Some ("DATABASE_NAME", "analytics")
  /\ Config.parse_line
       ("DATABASE_NAME=" ++ String Config.double_quote
                                   ("analytics" ++ String Config.double_quote
                                                          EmptyString))
     = Some ("DATABASE_NAME", "analytics").
Proof.
  apply (config_line_round_trip "DATABASE_NAME" "analytics");
    reflexivity.
Defined.

(* ===================================================================== *)
(** ** Bronze application: which files reach the stage *)
(* ===================================================================== *)

Lemma split_last_dot_app (p : string) :
  (fst (PyStr.split_last_dot p) ++ snd (PyStr.split_last_dot p))%string = p.
Proof.
  induction p as [|c rest IH]; [reflexivity|]. cbn [PyStr.split_last_dot].
  destruct (PyStr.split_last_dot rest) as [root ext]. cbn [fst snd] in IH.
  destruct ext as [|d ext'].
  - destruct (Ascii.eqb c "."); cbn [fst snd append]; [reflexivity|].
    now rewrite IH.
  - cbn [fst snd append]. now rewrite IH.
Qed.

Lemma split_last_dot_ext (p : string) :
  snd (PyStr.split_last_dot p) = EmptyString
  \/ String.prefix "." (snd (PyStr.split_last_dot p)) = true.
Proof.
  induction p as [|c rest IH]; [now left|]. cbn [PyStr.split_last_dot].
  destruct (PyStr.split_last_dot rest) as [root ext]. cbn [snd] in IH.
  destruct ext as [|d ext'].
  - destruct (Ascii.eqb_spec c ".") as [->|_]; cbn [snd]; [right | now left].
    cbn. now destruct rest.
  - cbn [snd]. destruct IH as [IH|IH]; [discriminate | now right].
Qed.

Lemma append_empty (s : string) : (s ++ EmptyString)%string = s.
Proof. induction s as [|c rest IH]; cbn [append]; congruence. Qed.

Lemma splitext_parts (p : string) :
  (fst (PyStr.splitext p) ++ snd (PyStr.splitext p))%string = p
  /\ (snd (PyStr.splitext p) <> EmptyString ->
      fst (PyStr.splitext p) <> EmptyString
      /\ String.prefix "." (snd (PyStr.splitext p)) = true).
Proof.
  unfold PyStr.splitext.
  pose proof (split_last_dot_app p) as Happ.
  pose proof (split_last_dot_ext p) as Hext.
  destruct (PyStr.split_last_dot p) as [root ext]. cbn [fst snd] in *.
  destruct (andb _ _) eqn:Hcond; cbn [fst snd].
  - split; [exact Happ|]. intros Hne. split.
    + apply andb_true_iff in Hcond. destruct Hcond as [_ Hdots].
      intros ->. discriminate.
    + destruct Hext as [->|H]; [contradiction | exact H].
  - split; [apply append_empty|]. intros H. contradiction.
Qed.

(** X24. A file [validate_file] accepts is at most 100 MB large and
    carries one of the three extensions, in whatever case it is
    written: its name is a non-empty root followed by an extension that
    starts with a dot and reads .csv, .xlsx or .xls in lower case. *)
Theorem validate_file_accepts (file : BronzeUpload.uploaded_file) :
  fst (BronzeUpload.validate_file file) = true ->
  BronzeUpload.size file <= 104857600
  /\ exists root ext,
       BronzeUpload.name file = (root ++ ext)%string
       /\ root <> EmptyString
       /\ String.prefix "." ext = true
       /\ In (PyStr.lower ext) BronzeUpload.valid_extensions.
Proof.
  unfold BronzeUpload.validate_file.
  destruct (existsb _ BronzeUpload.valid_extensions) eqn:Hext; cbn [negb];
    [|discriminate].
  destruct (Z.gtb_spec (BronzeUpload.size file) (100 * 1024 * 1024))
    as [Hbig|Hsmall]; [discriminate|].
  intros _. split; [lia|].
  destruct (splitext_parts (BronzeUpload.name file)) as [Happ Hparts].
  apply existsb_eqb_In in Hext.
  exists (fst (PyStr.splitext (BronzeUpload.name file))),
         (snd (PyStr.splitext (BronzeUpload.name file))).
  assert (Hne : snd (PyStr.splitext (BronzeUpload.name file)) <> EmptyString).
  { intros Hempty. rewrite Hempty in Hext. cbn in Hext.
    intuition discriminate. }
  destruct (Hparts Hne) as [Hroot Hdot].
  repeat split; [now symmetry | assumption | assumption | assumption].
Qed.

Lemma validate_file_accepts_witness :
  BronzeUpload.size claims_file <= 104857600
  /\ exists root ext,
       BronzeUpload.name claims_file = (root ++ ext)%string
       /\ root <> EmptyString
       /\ String.prefix "." ext = true
       /\ In (PyStr.lower ext) BronzeUpload.valid_extensions.
Proof.
  apply (validate_file_accepts claims_file). reflexivity.
Defined.

Lemma upload_loop_spec
    (put : BronzeUpload.uploaded_file -> string -> Py.result (list string))
    (stage_name : string) (tpa_folder : option string)
    (uploaded_files : list BronzeUpload.uploaded_file) (t : BronzeUpload.tally) :
  let t' := BronzeUpload.upload_loop put stage_name tpa_folder uploaded_files t in
  (BronzeUpload.success_count t' + BronzeUpload.failed_count t'
   = BronzeUpload.success_count t + BronzeUpload.failed_count t
     + List.length uploaded_files)%nat
  /\ BronzeUpload.handed_over t'
     = BronzeUpload.handed_over t
       ++ filter (fun f => fst (BronzeUpload.validate_file f)) uploaded_files
  /\ (BronzeUpload.success_count t <= BronzeUpload.success_count t')%nat
  /\ ((BronzeUpload.success_count t < BronzeUpload.success_count t')%nat ->
      exists f, In f uploaded_files
                /\ fst (BronzeUpload.validate_file f) = true
                /\ fst (BronzeUpload.upload_file_to_stage put f stage_name
                                                          tpa_folder) = true).
Proof.
  revert t. induction uploaded_files as [|file rest IH]; intros t;
    cbn [BronzeUpload.upload_loop filter List.length].
  - rewrite app_nil_r. repeat split; try lia.
  - destruct (BronzeUpload.validate_file file) as [is_valid reason] eqn:Hv.
    cbn [fst]. destruct is_valid; cbn [negb].
    + destruct (BronzeUpload.upload_file_to_stage put file stage_name tpa_folder)
        as [success message] eqn:Hu.
      destruct success;
        match goal with
        | |- context [BronzeUpload.upload_loop _ _ _ _ ?t0] =>
            destruct (IH t0) as (Hsum & Hover & Hmono & Hsome)
        end;
        cbn [BronzeUpload.success_count BronzeUpload.failed_count
             BronzeUpload.handed_over] in *.
      * repeat split; [lia | now rewrite Hover, <- app_assoc | lia |].
        intros _. exists file. rewrite Hv, Hu. repeat split; now left.
      * repeat split; [lia | now rewrite Hover, <- app_assoc | lia |].
        intros Hlt. destruct (Hsome Hlt) as (f & Hin & Hf).
        exists f. split; [now right | exact Hf].
    + match goal with
      | |- context [BronzeUpload.upload_loop _ _ _ _ ?t0] =>
          destruct (IH t0) as (Hsum & Hover & Hmono & Hsome)
      end.
      cbn [BronzeUpload.success_count BronzeUpload.failed_count
           BronzeUpload.handed_over] in *.
      repeat split; [lia | exact Hover | lia |].
      intros Hlt. destruct (Hsome Hlt) as (f & Hin & Hf).
      exists f. split; [now right | exact Hf].
Qed.

(** X25. The upload button accounts for every selected file once:
    successes and failures add up to the number of files; the files
    handed to the stage are exactly those [validate_file] accepts, in
    order, so a rejected file never reaches the stage; and the
    discovery task is executed only if the box is ticked and some
    accepted file was uploaded. *)
Theorem upload_button_accounts
    (put : BronzeUpload.uploaded_file -> string -> Py.result (list string))
    (stage_name : string) (tpa_folder : option string)
    (uploaded_files : list BronzeUpload.uploaded_file)
    (process_immediately : bool) :
  let t := fst (BronzeUpload.upload_button put stage_name tpa_folder
                  uploaded_files process_immediately) in
  (BronzeUpload.success_count t + BronzeUpload.failed_count t
   = List.length uploaded_files)%nat
  /\ BronzeUpload.handed_over t
     = filter (fun f => fst (BronzeUpload.validate_file f)) uploaded_files
  /\ (snd (BronzeUpload.upload_button put stage_name tpa_folder
             uploaded_files process_immediately) = true ->
      process_immediately = true
      /\ exists f, In f uploaded_files
                   /\ fst (BronzeUpload.validate_file f) = true
                   /\ fst (BronzeUpload.upload_file_to_stage put f stage_name
                                                             tpa_folder) = true).
Proof.
  unfold BronzeUpload.upload_button. cbn [fst snd].
  destruct (upload_loop_spec put stage_name tpa_folder uploaded_files
              (BronzeUpload.mk_tally 0 0 [])) as (Hsum & Hover & _ & Hsome).
  cbn [BronzeUpload.success_count BronzeUpload.failed_count
       BronzeUpload.handed_over app] in *.
  split; [exact Hsum|]. split; [exact Hover|].
  intros Hrun. apply andb_true_iff in Hrun. destruct Hrun as [Hpos Hbox].
  split; [exact Hbox|]. apply Nat.ltb_lt in Hpos. now apply Hsome.
Qed.

(* ===================================================================== *)
(** ** The TPA selector *)
(* ===================================================================== *)

Lemma set_entries (key value : string) (config : Config.dict)
    (k v : string) :
  In (k, v) (Config.set key value config) ->
  (k = key /\ v = value) \/ In (k, v) config.
Proof.
  induction config as [|[k0 v0] rest IH]; cbn [Config.set].
  - intros [H|[]]. inversion H. now left.
  - destruct (String.eqb_spec k0 key) as [->|Hne].
    + intros [H|H]; [inversion H; now left | right; now right].
    + intros [H|H]; [right; now left|].
      destruct (IH H) as [Hnew|Hold]; [now left | right; now right].
Qed.

Lemma set_keys_NoDup (key value : string) (config : Config.dict) :
  NoDup (Config.keys config) -> NoDup (Config.keys (Config.set key value config)).
Proof.
  unfold Config.keys.
  induction config as [|[k0 v0] rest IH]; cbn [Config.set map fst]; intros Hnd.
  - constructor; [intros [] | constructor].
  - destruct (String.eqb_spec k0 key) as [->|Hne]; [exact Hnd|].
    inversion Hnd as [|x l Hfresh Hrest]; subst.
    cbn [map fst]. constructor; [|now apply IH].
    intros Hin. apply in_map_iff in Hin. destruct Hin as [[k v] [Hk Hin]].
    cbn [fst] in Hk. subst k. apply set_entries in Hin.
    destruct Hin as [[Heq _]|Hin]; [now apply Hne|].
    apply Hfresh. apply in_map_iff. now exists (k0, v).
Qed.

Lemma get_of_entry (config : Config.dict) (k v : string) :
  NoDup (Config.keys config) -> In (k, v) config ->
  Config.get config k = Some v.
Proof.
  unfold Config.keys.
  induction config as [|[k0 v0] rest IH]; cbn [map fst Config.get];
    intros Hnd Hin; [contradiction|].
  inversion Hnd as [|x l Hfresh Hrest]; subst.
  destruct Hin as [Heq|Hin].
  - inversion Heq; subst. now rewrite String.eqb_refl.
  - destruct (String.eqb_spec k0 k) as [->|_]; [|now apply IH].
    exfalso. apply Hfresh. apply in_map_iff. now exists (k, v).
Qed.

Lemma tpa_options_built (tpa_list : list (string * string))
    (options : Config.dict) :
  NoDup (Config.keys options) ->
  (forall name code, In (name, code) options -> In (code, name) tpa_list
                                                \/ In (name, code) options) ->
  NoDup (Config.keys
           (fold_left (fun options '(code, name) => Config.set name code options)
                      tpa_list options))
  /\ forall name code,
       In (name, code)
          (fold_left (fun options '(code, name) => Config.set name code options)
                     tpa_list options) ->
       In (code, name) tpa_list \/ In (name, code) options.
Proof.
  intros Hnd _. revert options Hnd.
  induction tpa_list as [|[code0 name0] rest IH]; intros options Hnd;
    cbn [fold_left].
  - split; [exact Hnd | intros name code H; now right].
  - destruct (IH (Config.set name0 code0 options)
                 (set_keys_NoDup name0 code0 options Hnd)) as [Hnd' Hin'].
    split; [exact Hnd'|]. intros name code H.
    destruct (Hin' name code H) as [Hrest|Hset]; [left; now right|].
    apply set_entries in Hset. destruct Hset as [[-> ->]|Hold];
      [left; now left | now right].
Qed.

(** X26. The TPA in effect is always a TPA of the list: whatever name
    the select box returns, it maps to the code of a listed TPA of that
    name.  A stored TPA that is among the selectable codes stays
    selected: the option preselected maps back to it. *)
Theorem selected_tpa_is_listed (tpa_list : list (string * string))
    (s : TableSelector.slot) :
  (forall selected_tpa_name,
     In selected_tpa_name (TpaHeader.option_names tpa_list) ->
     exists code,
       TpaHeader.selected_tpa tpa_list selected_tpa_name = Some code
       /\ In (code, selected_tpa_name) tpa_list)
  /\ (forall code,
        TpaHeader.initialise tpa_list s = Some code ->
        In code (TpaHeader.option_codes tpa_list) ->
        exists name,
          nth_error (TpaHeader.option_names tpa_list)
                    (TpaHeader.default_index tpa_list (Some code)) = Some name
          /\ TpaHeader.selected_tpa tpa_list name = Some code).
Proof.
  destruct (tpa_options_built tpa_list [] (NoDup_nil _)
              (fun name code H => or_intror H)) as [Hnd Hin].
  fold (TpaHeader.tpa_options tpa_list) in Hnd, Hin.
  split.
  - intros name Hname. unfold TpaHeader.option_names in Hname.
    apply in_map_iff in Hname. destruct Hname as [[k code] [Hk Hentry]].
    cbn [fst] in Hk. subst k. exists code. split.
    + unfold TpaHeader.selected_tpa. now apply get_of_entry.
    + destruct (Hin name code Hentry) as [H|[]]. exact H.
  - intros code _ Hcode. unfold TpaHeader.default_index.
    rewrite (proj2 (existsb_eqb_In code _) Hcode).
    pose proof (index_nth_error code (TpaHeader.option_codes tpa_list)
                  (proj2 (existsb_eqb_In code _) Hcode)) as Hnth.
    unfold TpaHeader.option_codes, TpaHeader.option_names in *.
    rewrite nth_error_map in Hnth. rewrite nth_error_map.
    destruct (nth_error (TpaHeader.tpa_options tpa_list) _)
      as [[name code']|] eqn:Hentry; [|discriminate].
    cbn in Hnth. inversion Hnth; subst code'.
    exists name. split; [reflexivity|].
    unfold TpaHeader.selected_tpa. apply get_of_entry; [exact Hnd|].
    eapply nth_error_In. exact Hentry.
Qed.

Lemma selected_tpa_is_listed_witness :
  exists code,
    TpaHeader.selected_tpa tpa_list_sample "Beta Benefits" = Some code
    /\ In (code, "Beta Benefits") tpa_list_sample.
Proof.
  apply (proj1 (selected_tpa_is_listed tpa_list_sample TableSelector.Missing)).
  cbn. tauto.
Defined.

(* ===================================================================== *)
(** ** Known Mappings: a frame nobody edited *)
(* ===================================================================== *)

Lemma known_find_own_row (known_mappings_df : list KnownPage.editor_row)
    (row : KnownPage.editor_row) (k : Z) :
  NoDup (map KnownPage.MAPPING_ID known_mappings_df) ->
  In row known_mappings_df ->
  KnownPage.MAPPING_ID row = Py.Id k ->
  find (fun o => Py.idcell_eqb (KnownPage.MAPPING_ID o) (Py.Id k))
       known_mappings_df = Some row.
Proof.
  intros Hnd Hin Hid.
  induction known_mappings_df as [|o rest IH]; [contradiction|].
  cbn [map] in Hnd. inversion Hnd as [|x l Hfresh Hrest]; subst.
  cbn [find]. destruct Hin as [->|Hin].
  - rewrite Hid. cbn [Py.idcell_eqb]. now rewrite Z.eqb_refl.
  - destruct (Py.idcell_eqb (KnownPage.MAPPING_ID o) (Py.Id k)) eqn:Ho;
      [|now apply IH].
    exfalso. apply Hfresh.
    destruct (KnownPage.MAPPING_ID o) as [|k0] eqn:Hk0; [discriminate|].
    cbn [Py.idcell_eqb] in Ho. apply Z.eqb_eq in Ho. subst k0.
    rewrite <- Hid. now apply in_map.
Qed.

Lemma known_changed_same (row : KnownPage.editor_row) :
  KnownPage.changed row row = false.
Proof.
  unfold KnownPage.changed. rewrite !String.eqb_refl.
  now destruct (Mapper.py_bool (KnownPage.ACTIVE row)).
Qed.

(** X27. Save Changes of the Known Mappings tab on the frame as it was
    read (distinct mapping ids) issues no statement, leaves the table
    as it is and reports that no changes were detected. *)
Theorem known_mappings_unedited_save
    (fresh : list KnownMappings.row -> KnownMappings.row)
    (engine_error : KnownMappings.stmt -> list KnownMappings.row -> option string)
    (rows : list KnownMappings.row) :
  NoDup (map KnownMappings.mapping_id rows) ->
  KnownPage.save_known_mappings (KnownPage.known_mappings_df rows)
                                (KnownPage.known_mappings_df rows) = []
  /\ KnownMappings.execute_all fresh engine_error
       (KnownPage.save_known_mappings (KnownPage.known_mappings_df rows)
                                      (KnownPage.known_mappings_df rows)) rows
     = rows
  /\ KnownPage.save_notice (KnownPage.known_mappings_df rows)
                           (KnownPage.known_mappings_df rows)
     = KnownPage.No_changes_detected.
Proof.
  intros Hnd.
  assert (Hframe : NoDup (map KnownPage.MAPPING_ID
                              (KnownPage.known_mappings_df rows))).
  { unfold KnownPage.known_mappings_df, KnownMappings.newest_first.
    rewrite map_map. cbn [KnownPage.editor_row_of KnownPage.MAPPING_ID].
    rewrite <- (map_map KnownMappings.mapping_id Py.Id).
    apply NoDup_map_injective; [intros a b H; now inversion H|].
    eapply Permutation_NoDup; [apply Permutation_map; apply order_by_perm|].
    exact Hnd. }
  assert (Hnone : KnownPage.save_known_mappings
                    (KnownPage.known_mappings_df rows)
                    (KnownPage.known_mappings_df rows) = []).
  { unfold KnownPage.save_known_mappings.
    set (df := KnownPage.known_mappings_df rows) in *.
    assert (Hids : forall row, In row df ->
                     exists k, KnownPage.MAPPING_ID row = Py.Id k).
    { intros row Hrow. unfold df, KnownPage.known_mappings_df in Hrow.
      apply in_map_iff in Hrow. destruct Hrow as [r [<- _]]. now eexists. }
    assert (Hdel : KnownPage.deleted_ids df df = []).
    { unfold KnownPage.deleted_ids. apply filter_nothing.
      intros i Hi. unfold KnownPage.original_ids in Hi.
      apply in_map_iff in Hi. destruct Hi as [row [<- Hrow]].
      destruct (Hids row Hrow) as [k Hk]. rewrite Hk.
      apply negb_false_iff. apply id_in_iff. unfold KnownPage.edited_ids.
      rewrite <- Hk. now apply in_map. }
    assert (Hupd : flat_map (KnownPage.update_row df) df = []).
    { apply flat_map_nothing. intros row Hrow.
      destruct (Hids row Hrow) as [k Hk].
      unfold KnownPage.update_row. rewrite Hk.
      destruct (Py.id_in _ _); [|reflexivity].
      rewrite (known_find_own_row df row k Hframe Hrow Hk).
      now rewrite known_changed_same. }
    assert (Hins : flat_map KnownPage.insert_row df = []).
    { apply flat_map_nothing. intros row Hrow.
      destruct (Hids row Hrow) as [k Hk].
      unfold KnownPage.insert_row. now rewrite Hk. }
    now rewrite Hdel, Hupd, Hins. }
  split; [exact Hnone|]. split.
  - now rewrite Hnone.
  - unfold KnownPage.save_notice. now rewrite Hnone.
Qed.

Lemma known_mappings_unedited_save_witness :
  KnownPage.save_notice (KnownPage.known_mappings_df known_rows)
                        (KnownPage.known_mappings_df known_rows)
  = KnownPage.No_changes_detected.
Proof.
  apply (known_mappings_unedited_save known_fresh known_accepts known_rows).
  repeat constructor; cbn; intuition discriminate.
Defined.
